(** * Predictive-maintenance backend: a shallow embedding and its properties

    The development follows the two Python modules of the backend:
    - [app/main.py]: the [InferenceService] class (placeholder scoring), the
      [lifespan] startup hook and the two system probes [/health], [/ready];
    - [app/api/v1/endpoints.py]: the static tables [SENSOR_METADATA] and
      [FAKE_DB_ENGINES], the response schemas and the three routes
      [list_engines], [predict_rul] and [get_trends].

    Python objects are embedded as follows.  A [float] is an IEEE-754
    binary64 number, computed with the executable operations of [SpecFloat]
    (53 bits of precision, round to nearest even).  An [int] is a [Z].  A
    [dict] is an association list in insertion order.  Exceptions are values
    of an error monad; the module-level tables and [app.state] form an
    explicit world that every handler receives and gives back.  The calls
    to [asyncio.sleep] and [print] change neither a value nor the world and
    have no counterpart here: one request is followed from start to end. *)

From Stdlib Require Import ZArith List String Bool Lia.
From Stdlib Require Import Floats.SpecFloat.
From Stdlib Require QArith Qround.
Import ListNotations.
Set Warnings "-register-all".
Open Scope string_scope.
Open Scope list_scope.
Open Scope Z_scope.

(* ================================================================== *)
(** * Exceptions and the error monad *)
(* ================================================================== *)

Inductive exn : Type :=
| HTTPException (status_code : Z) (detail : string)
| KeyError
| TypeError
| AttributeError
| ZeroDivisionError
| OverflowError
| ResponseValidationError.

Inductive result (A : Type) : Type :=
| Ok (a : A)
| Raise (e : exn).
Arguments Ok {A} a.
Arguments Raise {A} e.

Definition rbind {A B : Type} (r : result A) (k : A -> result B) : result B :=
  match r with
  | Ok a => k a
  | Raise e => Raise e
  end.

Declare Scope result_scope.
Delimit Scope result_scope with result.
Notation "x <- r ;; k" := (rbind r (fun x => k))
  (at level 61, r at next level, right associativity) : result_scope.

Fixpoint rmap {A B : Type} (f : A -> result B) (l : list A) : result (list B) :=
  match l with
  | [] => Ok []
  | a :: l' =>
      (b <- f a ;;
       bs <- rmap f l' ;;
       Ok (b :: bs))%result
  end.

(** The status line a client sees: a handler that returns normally answers
    200, an [HTTPException] answers with its own code, and any other
    exception escaping a handler is an internal server error. *)
Definition status_of {A : Type} (r : result A) : Z :=
  match r with
  | Ok _ => 200
  | Raise (HTTPException c _) => c
  | Raise _ => 500
  end.

(* ================================================================== *)
(** * Python floats: IEEE-754 binary64 *)
(* ================================================================== *)

Module Float64.

Definition prec : Z := 53.
Definition emax : Z := 1024.

Definition float : Type := spec_float.

(** The binary64 number nearest to the rational [num / den] (ties to
    even), with sign [s].  This is the rounding of an [int / int] true
    division, of a decimal literal and of the string-to-float conversion
    that ends [round]. *)
Definition of_ratio (s : bool) (num den : positive) : float :=
  let '(mz, ez, lz) := SFdiv_core_binary prec emax (Zpos num) 0 (Zpos den) 0 in
  binary_round_aux prec emax s mz ez lz.

(** [float(n)] for an [int] that is in range. *)
Definition of_int (z : Z) : float := binary_normalize prec emax z 0 false.

Definition mul : float -> float -> float := SFmul prec emax.
Definition sub : float -> float -> float := SFsub prec emax.
Definition compare : float -> float -> option comparison := SFcompare.

Definition is_nan (f : float) : bool :=
  match f with S754_nan => true | _ => false end.

Definition is_infinite (f : float) : bool :=
  match f with S754_infinity _ => true | _ => false end.

Definition is_zero (f : float) : bool :=
  match f with S754_zero _ => true | _ => false end.

Definition sign (f : float) : bool :=
  match f with
  | S754_zero s | S754_infinity s | S754_finite s _ _ => s
  | S754_nan => false
  end.

(** Exact comparison of a float with an integer, as [float.__lt__] and
    friends do when the other operand is an [int]: no rounding of the
    integer takes place. *)
Definition compare_int (f : float) (z : Z) : option comparison :=
  match f with
  | S754_nan => None
  | S754_infinity s => Some (if s then Lt else Gt)
  | S754_zero _ => Some (Z.compare 0 z)
  | S754_finite s m e =>
      let sm := if s then Zneg m else Zpos m in
      Some (if 0 <=? e
            then Z.compare (sm * 2 ^ e) z
            else Z.compare sm (z * 2 ^ (- e)))
  end.

(** Nearest integer to [num / den], ties to the even integer. *)
Definition round_half_even (num den : Z) : Z :=
  let q := num / den in
  let r := num mod den in
  match Z.compare (2 * r) den with
  | Lt => q
  | Gt => q + 1
  | Eq => if Z.even q then q else q + 1
  end.

Definition NDIGITS_MAX : Z := 323.
Definition NDIGITS_MIN : Z := -308.

(** [round(x, ndigits)] on a float: the exact binary value is rounded to
    [ndigits] decimal places (ties to even) and the decimal result is read
    back as the nearest float. *)
Definition round (x : float) (ndigits : Z) : result float :=
  match x with
  | S754_finite s m e =>
      if NDIGITS_MAX <? ndigits then Ok x
      else if ndigits <? NDIGITS_MIN then Ok (S754_zero s)
      else
        let up := 10 ^ Z.max ndigits 0 in
        let down := 10 ^ Z.max (- ndigits) 0 in
        let n := round_half_even (Zpos m * 2 ^ Z.max e 0 * up)
                                 (2 ^ Z.max (- e) 0 * down) in
        match n with
        | Zpos p =>
            let r := of_ratio s (p * Z.to_pos down) (Z.to_pos up) in
            if is_infinite r then Raise OverflowError else Ok r
        | _ => Ok (S754_zero s)
        end
  | _ => Ok x
  end.

End Float64.

Abbreviation float := Float64.float.

(* ================================================================== *)
(** * Python numbers and the builtins used by the scoring function *)
(* ================================================================== *)

(** A value that is an [int] or a [float]: what [max(0, min(100, x))]
    evaluates to, since [min] and [max] hand back one of their arguments
    unchanged. *)
Inductive number : Type :=
| NInt (z : Z)
| NFloat (f : float).

Definition number_compare (a b : number) : option comparison :=
  match a, b with
  | NInt x, NInt y => Some (Z.compare x y)
  | NFloat f, NFloat g => Float64.compare f g
  | NFloat f, NInt y => Float64.compare_int f y
  | NInt x, NFloat g => option_map CompOpp (Float64.compare_int g x)
  end.

Definition py_lt (a b : number) : bool :=
  match number_compare a b with Some Lt => true | _ => false end.

Definition py_gt (a b : number) : bool :=
  match number_compare a b with Some Gt => true | _ => false end.

Definition py_le (a b : number) : bool :=
  match number_compare a b with Some (Lt | Eq) => true | _ => false end.

(** [min(a, b)] and [max(a, b)]: the first argument is kept unless the
    second one is strictly smaller (resp. larger). *)
Definition py_min (a b : number) : number := if py_lt b a then b else a.
Definition py_max (a b : number) : number := if py_gt b a then b else a.

(** [a / b] on two [int]s: the correctly rounded quotient. *)
Definition int_truediv (a b : Z) : result float :=
  match b with
  | Z0 => Raise ZeroDivisionError
  | _ =>
      match a with
      | Z0 => Ok (S754_zero (b <? 0))
      | _ =>
          let q := Float64.of_ratio (xorb (a <? 0) (b <? 0))
                     (Z.to_pos (Z.abs a)) (Z.to_pos (Z.abs b)) in
          if Float64.is_infinite q then Raise OverflowError else Ok q
      end
  end.

(** [x * n] with [x] a float and [n] an [int]: [n] is converted first. *)
Definition float_mul_int (x : float) (n : Z) : result float :=
  let fn := Float64.of_int n in
  if Float64.is_infinite fn then Raise OverflowError
  else Ok (Float64.mul x fn).

(** [round(v, ndigits)]: an [int] is returned as it is for [ndigits >= 0]. *)
Definition py_round (v : number) (ndigits : Z) : result number :=
  match v with
  | NInt z =>
      if 0 <=? ndigits then Ok (NInt z)
      else
        let p := 10 ^ (- ndigits) in
        Ok (NInt (Float64.round_half_even z p * p))
  | NFloat f => (r <- Float64.round f ndigits ;; Ok (NFloat r))%result
  end.

(** [float(v)], the coercion applied to a [float] field of a schema. *)
Definition float_of_number (v : number) : result float :=
  match v with
  | NInt z =>
      let f := Float64.of_int z in
      if Float64.is_infinite f then Raise OverflowError else Ok f
  | NFloat f => Ok f
  end.

(* ================================================================== *)
(** * Python values, dictionaries *)
(* ================================================================== *)

Inductive value : Type :=
| VNone
| VBool (b : bool)
| VInt (z : Z)
| VFloat (f : float)
| VStr (s : string)
| VList (l : list value)
| VDict (d : list (string * value)).

(** A [dict] with [str] keys, in insertion order. *)
Definition dict : Type := list (string * value).

Definition value_of_number (n : number) : value :=
  match n with
  | NInt z => VInt z
  | NFloat f => VFloat f
  end.

Fixpoint dict_get (d : dict) (k : string) : option value :=
  match d with
  | [] => None
  | (k', v) :: d' => if String.eqb k' k then Some v else dict_get d' k
  end.

(** [d[k] = v]: an existing key keeps its position, a new key goes last. *)
Fixpoint dict_setitem (d : dict) (k : string) (v : value) : dict :=
  match d with
  | [] => [(k, v)]
  | (k', v') :: d' =>
      if String.eqb k' k then (k', v) :: d' else (k', v') :: dict_setitem d' k v
  end.

(** A dict display [{k1: v1, ..., **other}] is evaluated left to right. *)
Definition dict_update (d other : dict) : dict :=
  fold_left (fun acc kv => dict_setitem acc (fst kv) (snd kv)) other d.

Definition dict_display (items : list (string * value)) : dict :=
  dict_update [] items.

(** [v[k]] with a [str] subscript. *)
Definition getitem (v : value) (k : string) : result value :=
  match v with
  | VDict d =>
      match dict_get d k with
      | Some x => Ok x
      | None => Raise KeyError
      end
  | _ => Raise TypeError
  end.

(** Truth value testing, as [not v] and [if v] perform it. *)
Definition truthy (v : value) : bool :=
  match v with
  | VNone => false
  | VBool b => b
  | VInt z => negb (z =? 0)
  | VFloat f => negb (Float64.is_zero f)
  | VStr s => negb (String.eqb s "")
  | VList l => match l with [] => false | _ => true end
  | VDict d => match d with [] => false | _ => true end
  end.

(** [v == s] for a [str] literal [s]: only an equal [str] compares equal. *)
Definition eq_str (v : value) (s : string) : bool :=
  match v with
  | VStr t => String.eqb t s
  | _ => false
  end.

(** [a - b] on numbers. *)
Definition py_sub (a b : value) : result value :=
  match a, b with
  | VInt x, VInt y => Ok (VInt (x - y))
  | VFloat f, VFloat g => Ok (VFloat (Float64.sub f g))
  | VInt x, VFloat g =>
      (f <- float_of_number (NInt x) ;; Ok (VFloat (Float64.sub f g)))%result
  | VFloat f, VInt y =>
      (g <- float_of_number (NInt y) ;; Ok (VFloat (Float64.sub f g)))%result
  | _, _ => Raise TypeError
  end.

(** A module-level table keyed by [int]s, such as [FAKE_DB_ENGINES]. *)
Definition int_dict : Type := list (Z * value).

Fixpoint int_dict_lookup (d : int_dict) (k : Z) : option value :=
  match d with
  | [] => None
  | (k', v) :: d' => if k' =? k then Some v else int_dict_lookup d' k
  end.

(** [d.get(k)]: the value, or [None]. *)
Definition int_dict_get (d : int_dict) (k : Z) : value :=
  match int_dict_lookup d k with
  | Some v => v
  | None => VNone
  end.

(** [k in d]. *)
Definition int_dict_contains (d : int_dict) (k : Z) : bool :=
  match int_dict_lookup d k with
  | Some _ => true
  | None => false
  end.

Definition int_dict_keys (d : int_dict) : list Z := map fst d.

(* ================================================================== *)
(** * app/main.py: the inference service *)
(* ================================================================== *)

(** An [InferenceService] object: its only attribute is [model], [None]
    until [load] has run. *)
Record InferenceService : Type := { model : option string }.

(** [InferenceService.__init__] *)
Definition InferenceService_init : InferenceService := {| model := None |}.

(** [InferenceService.load]: [self.model = "LSTM_LOADED"]. *)
Definition load (self : InferenceService) : InferenceService :=
  {| model := Some "LSTM_LOADED" |}.

(** The float literal [0.95]: the float nearest to 95 / 100. *)
Definition float_0_95 : float := Float64.of_ratio false 95 100.

(** [InferenceService.predict]; the method does not read [self]. *)
Definition predict (self : InferenceService) (max_cycles : Z) : result dict :=
  let predicted_rul := 45 in
  (q <- int_truediv predicted_rul max_cycles ;;
   p <- float_mul_int q 100 ;;
   let health_score := py_max (NInt 0) (py_min (NInt 100) (NFloat p)) in
   let risk :=
     if py_lt health_score (NInt 30) then "High"
     else if py_lt health_score (NInt 70) then "Medium"
     else "Low" in
   rounded <- py_round health_score 2 ;;
   Ok (dict_display
         [ ("predicted_rul", VInt predicted_rul);
           ("health_score", value_of_number rounded);
           ("risk_level", VStr risk);
           ("confidence", VFloat float_0_95) ]))%result.

(* ================================================================== *)
(** * The world handlers run in *)
(* ================================================================== *)

(** The module-level tables of [endpoints.py] and the attribute
    [app.state.inference_service], which does not exist until the startup
    hook binds it. *)
Record World : Type := {
  engines : int_dict;
  sensor_metadata : dict;
  inference_service : option InferenceService
}.

(** A handler: it may read and write the world, and it returns or raises. *)
Definition M (A : Type) : Type := World -> result A * World.

Definition ret {A : Type} (a : A) : M A := fun w => (Ok a, w).

Definition raise {A : Type} (e : exn) : M A := fun w => (Raise e, w).

Definition bind {A B : Type} (c : M A) (k : A -> M B) : M B :=
  fun w =>
    match c w with
    | (Ok a, w') => k a w'
    | (Raise e, w') => (Raise e, w')
    end.

Definition lift {A : Type} (r : result A) : M A := fun w => (r, w).

Declare Scope handler_scope.
Delimit Scope handler_scope with handler.
Notation "x <- c ;; k" := (bind c (fun x => k))
  (at level 61, c at next level, right associativity) : handler_scope.

(** Reading the global names. *)
Definition read_FAKE_DB_ENGINES : M int_dict := fun w => (Ok (engines w), w).

Definition read_SENSOR_METADATA : M dict := fun w => (Ok (sensor_metadata w), w).

(** [request.app.state.inference_service]: an attribute lookup that fails
    when nothing was bound. *)
Definition read_inference_service : M InferenceService :=
  fun w =>
    match inference_service w with
    | Some svc => (Ok svc, w)
    | None => (Raise AttributeError, w)
    end.

(** A [for] loop that threads an accumulator through the body. *)
Fixpoint for_each {A B : Type} (l : list A) (body : B -> A -> M B) (acc : B) : M B :=
  match l with
  | [] => ret acc
  | a :: l' => (acc' <- body acc a ;; for_each l' body acc')%handler
  end.

(* ================================================================== *)
(** * app/api/v1/endpoints.py: constants and metadata *)
(* ================================================================== *)

Definition sensor (name unit : string) : value :=
  VDict (dict_display [("name", VStr name); ("unit", VStr unit)]).

Definition SENSOR_METADATA : dict :=
  dict_display
    [ ("s_1", sensor "Fan Inlet Temperature" "°R");
      ("s_2", sensor "LPC Outlet Temperature" "°R");
      ("s_3", sensor "HPC Outlet Temperature" "°R");
      ("s_4", sensor "LPT Outlet Temperature" "°R");
      ("s_5", sensor "Fan Inlet Pressure" "psia");
      ("s_6", sensor "Bypass Duct Pressure" "psia");
      ("s_7", sensor "HPC Outlet Pressure" "psia");
      ("s_8", sensor "Physical Fan Speed" "rpm");
      ("s_9", sensor "Physical Core Speed" "rpm");
      ("s_10", sensor "Engine Pressure Ratio" "-");
      ("s_11", sensor "HPC Outlet Static Pressure" "psia");
      ("s_12", sensor "Fuel Flow Ratio" "pps/psi");
      ("s_13", sensor "Corrected Fan Speed" "rpm");
      ("s_14", sensor "Corrected Core Speed" "rpm");
      ("s_15", sensor "Bypass Ratio" "-");
      ("s_16", sensor "Burner Fuel-Air Ratio" "-");
      ("s_17", sensor "Bleed Enthalpy" "-");
      ("s_18", sensor "Demanded Fan Speed" "rpm");
      ("s_19", sensor "Demanded Corrected Fan Speed" "rpm");
      ("s_20", sensor "HPT Coolant Bleed" "lbm/s");
      ("s_21", sensor "LPT Coolant Bleed" "lbm/s") ].

Definition engine (max_cycles : Z) (status : string) : value :=
  VDict (dict_display [("max_cycles", VInt max_cycles); ("status", VStr status)]).

Definition FAKE_DB_ENGINES : int_dict :=
  [ (1, engine 192 "Active");
    (2, engine 250 "Retired");
    (5, engine 150 "Active") ].

(* ================================================================== *)
(** * Schemas *)
(* ================================================================== *)

(** Validation of a handler's return value against its [response_model].
    The coercions are those that apply to what the handlers build: an [int]
    field takes an [int], a [float] field takes a [float] or an [int], a
    [str] field takes a [str], and a missing or ill-typed field is a
    validation error. *)
Module Schema.

Definition field (d : dict) (k : string) : result value :=
  match dict_get d k with
  | Some v => Ok v
  | None => Raise ResponseValidationError
  end.

Definition int (v : value) : result Z :=
  match v with
  | VInt z => Ok z
  | _ => Raise ResponseValidationError
  end.

Definition float (v : value) : result Float64.float :=
  match v with
  | VFloat f => Ok f
  | VInt z =>
      match float_of_number (NInt z) with
      | Ok f => Ok f
      | Raise _ => Raise ResponseValidationError
      end
  | _ => Raise ResponseValidationError
  end.

Definition str (v : value) : result string :=
  match v with
  | VStr s => Ok s
  | _ => Raise ResponseValidationError
  end.

Definition list_of {A : Type} (item : value -> result A) (v : value) : result (list A) :=
  match v with
  | VList l => rmap item l
  | _ => Raise ResponseValidationError
  end.

Definition model (v : value) : result dict :=
  match v with
  | VDict d => Ok d
  | _ => Raise ResponseValidationError
  end.

(** [Field(..., ge=lo, le=hi)] *)
Definition ge_le (lo hi : Z) (f : Float64.float) : result Float64.float :=
  if andb (py_le (NInt lo) (NFloat f)) (py_le (NFloat f) (NInt hi))
  then Ok f
  else Raise ResponseValidationError.

End Schema.

Module SensorSeries.
Record t : Type := {
  sensor_id : string;
  name : string;
  unit : string;
  data : list float
}.

Definition validate (v : value) : result t :=
  (d <- Schema.model v ;;
   a <- rbind (Schema.field d "sensor_id") Schema.str ;;
   b <- rbind (Schema.field d "name") Schema.str ;;
   c <- rbind (Schema.field d "unit") Schema.str ;;
   e <- rbind (Schema.field d "data") (Schema.list_of Schema.float) ;;
   Ok {| sensor_id := a; name := b; unit := c; data := e |})%result.
End SensorSeries.

Module SensorTrendResponse.
Record t : Type := {
  unit_id : Z;
  cycles : list Z;
  rul_trend : list Z;
  sensors : list SensorSeries.t
}.

Definition validate (v : value) : result t :=
  (d <- Schema.model v ;;
   a <- rbind (Schema.field d "unit_id") Schema.int ;;
   b <- rbind (Schema.field d "cycles") (Schema.list_of Schema.int) ;;
   c <- rbind (Schema.field d "rul_trend") (Schema.list_of Schema.int) ;;
   e <- rbind (Schema.field d "sensors") (Schema.list_of SensorSeries.validate) ;;
   Ok {| unit_id := a; cycles := b; rul_trend := c; sensors := e |})%result.
End SensorTrendResponse.

Module PredictionResponse.
Record t : Type := {
  unit_id : Z;
  current_cycle : Z;
  predicted_rul : Z;
  health_score : float;
  risk_level : string;
  confidence : float
}.

Definition validate (v : value) : result t :=
  (d <- Schema.model v ;;
   a <- rbind (Schema.field d "unit_id") Schema.int ;;
   b <- rbind (Schema.field d "current_cycle") Schema.int ;;
   c <- rbind (Schema.field d "predicted_rul") Schema.int ;;
   h <- rbind (rbind (Schema.field d "health_score") Schema.float) (Schema.ge_le 0 100) ;;
   r <- rbind (Schema.field d "risk_level") Schema.str ;;
   f <- rbind (Schema.field d "confidence") Schema.float ;;
   Ok {| unit_id := a; current_cycle := b; predicted_rul := c;
         health_score := h; risk_level := r; confidence := f |})%result.
End PredictionResponse.

Module EngineMetadata.
Record t : Type := {
  unit_id : Z;
  max_cycles : Z;
  status : string
}.

Definition validate (v : value) : result t :=
  (d <- Schema.model v ;;
   a <- rbind (Schema.field d "unit_id") Schema.int ;;
   b <- rbind (Schema.field d "max_cycles") Schema.int ;;
   c <- rbind (Schema.field d "status") Schema.str ;;
   Ok {| unit_id := a; max_cycles := b; status := c |})%result.
End EngineMetadata.

(* ================================================================== *)
(** * Endpoints *)
(* ================================================================== *)

(** [list_engines]: one dict per item of the table, in table order. *)
Definition list_engines : M value :=
  (db <- read_FAKE_DB_ENGINES ;;
   rows <- lift (rmap (fun kv : Z * value =>
                         let (k, v) := kv in
                         (mc <- getitem v "max_cycles" ;;
                          st <- getitem v "status" ;;
                          Ok (VDict (dict_display
                                       [ ("unit_id", VInt k);
                                         ("max_cycles", mc);
                                         ("status", st) ])))%result)
                      db) ;;
   ret (VList rows))%handler.

(** [await service.predict(engine["max_cycles"])]: the argument is the
    [int] stored in the table, as the annotation [max_cycles: int] says.
    Only that case is modelled: a record holding a [bool] or a [float]
    there, which Python would divide by as well, is treated like any other
    value that is not an [int]. *)
Definition call_predict (service : InferenceService) (max_cycles : value) : M dict :=
  match max_cycles with
  | VInt z => lift (predict service z)
  | _ => raise TypeError
  end.

Definition predict_rul (unit_id : Z) : M value :=
  (db <- read_FAKE_DB_ENGINES ;;
   let engine := int_dict_get db unit_id in
   if negb (truthy engine) then
     raise (HTTPException 404 "Engine not found")
   else
     status <- lift (getitem engine "status") ;;
     if eq_str status "Retired" then
       raise (HTTPException 422 "Engine is retired")
     else
       service <- read_inference_service ;;
       arg <- lift (getitem engine "max_cycles") ;;
       result <- call_predict service arg ;;
       mc <- lift (getitem engine "max_cycles") ;;
       rul <- lift (getitem (VDict result) "predicted_rul") ;;
       current_cycle <- lift (py_sub mc rul) ;;
       ret (VDict (dict_update
                     (dict_display [ ("unit_id", VInt unit_id);
                                     ("current_cycle", current_cycle) ])
                     result)))%handler.

(** [range(n)] *)
Definition range (n : nat) : list Z := map Z.of_nat (seq 0 n).

Definition get_trends (unit_id : Z) : M value :=
  (db <- read_FAKE_DB_ENGINES ;;
   if negb (int_dict_contains db unit_id) then
     raise (HTTPException 404 "Engine not found")
   else
     let cycles := [100; 101; 102; 103; 104] in
     let critical_sensors := ["s_2"; "s_11"; "s_12"; "s_14"] in
     sensors <- for_each critical_sensors
                  (fun (sensors : list value) (sid : string) =>
                     table <- read_SENSOR_METADATA ;;
                     meta <- lift (getitem (VDict table) sid) ;;
                     name <- lift (getitem meta "name") ;;
                     unit <- lift (getitem meta "unit") ;;
                     ret (sensors ++
                          [ VDict (dict_display
                                     [ ("sensor_id", VStr sid);
                                       ("name", name);
                                       ("unit", unit);
                                       ("data", VList (map (fun i => VInt (1400 + i * 2))
                                                           (range (List.length cycles)))) ]) ])%list)
                  [] ;;
     ret (VDict (dict_display
                   [ ("unit_id", VInt unit_id);
                     ("cycles", VList (map VInt cycles));
                     ("rul_trend", VList (map VInt [50; 49; 48; 47; 45]));
                     ("sensors", VList sensors) ])))%handler.

(* ================================================================== *)
(** * app/main.py: system probes *)
(* ================================================================== *)

Definition health : M value :=
  ret (VDict (dict_display [("status", VStr "ok")])).

Definition is_not_None {A : Type} (o : option A) : bool :=
  match o with Some _ => true | None => false end.

Definition ready : M value :=
  (service <- read_inference_service ;;
   ret (VDict (dict_display [("model_loaded", VBool (is_not_None (model service)))])))%handler.

(* ================================================================== *)
(** * Routes: a handler followed by response validation *)
(* ================================================================== *)

Inductive body : Type :=
| Json (v : value)
| Engines (l : list EngineMetadata.t)
| Prediction (p : PredictionResponse.t)
| Trends (t : SensorTrendResponse.t).

(** The route runs the handler and, when it returns, validates the value
    against the [response_model]; the world is the one the handler left. *)
Definition route {A : Type} (h : M value) (validate : value -> result A) : M A :=
  fun w => let (r, w') := h w in (rbind r validate, w').

Definition GET_health : M value := route health Ok.
Definition GET_ready : M value := route ready Ok.
Definition GET_engines : M (list EngineMetadata.t) :=
  route list_engines (Schema.list_of EngineMetadata.validate).
Definition GET_predict (unit_id : Z) : M PredictionResponse.t :=
  route (predict_rul unit_id) PredictionResponse.validate.
Definition GET_trends (unit_id : Z) : M SensorTrendResponse.t :=
  route (get_trends unit_id) SensorTrendResponse.validate.

Inductive request : Type :=
| Health
| Ready
| ListEngines
| Predict (unit_id : Z)
| GetTrends (unit_id : Z).

Definition dispatch (rq : request) : M body :=
  match rq with
  | Health => route GET_health (fun v => Ok (Json v))
  | Ready => route GET_ready (fun v => Ok (Json v))
  | ListEngines => fun w => let (r, w') := GET_engines w in (rbind r (fun x => Ok (Engines x)), w')
  | Predict u => fun w => let (r, w') := GET_predict u w in (rbind r (fun x => Ok (Prediction x)), w')
  | GetTrends u => fun w => let (r, w') := GET_trends u w in (rbind r (fun x => Ok (Trends x)), w')
  end.

(* ================================================================== *)
(** * Lifespan and the life of the process *)
(* ================================================================== *)

(** Where the [lifespan] coroutine stands. *)
Inductive phase : Type :=
| NotStarted      (* before [lifespan] is entered *)
| Created         (* after [service = InferenceService()] *)
| Loaded          (* after [await service.load()] *)
| Serving         (* after [app.state.inference_service = service], at [yield] *)
| Stopped.        (* after the [yield] *)

(** The process: the coroutine's position, its local [service], and the
    world.  After the binding step [app.state.inference_service] and the
    local name denote one object; nothing assigns to it afterwards, which
    is why a copy stands for the alias (see [alias_invariant]). *)
Record System : Type := {
  pc : phase;
  service : option InferenceService;
  world : World
}.

Definition initial_world : World :=
  {| engines := FAKE_DB_ENGINES;
     sensor_metadata := SENSOR_METADATA;
     inference_service := None |}.

Definition initial : System :=
  {| pc := NotStarted; service := None; world := initial_world |}.

Inductive event : Type :=
| Construct                 (* service = InferenceService() *)
| Load                      (* await service.load() *)
| Bind                      (* app.state.inference_service = service; yield *)
| Shutdown                  (* the code after the yield *)
| Handle (rq : request).    (* a request is routed to its handler *)

Definition set_inference_service (w : World) (svc : InferenceService) : World :=
  {| engines := engines w;
     sensor_metadata := sensor_metadata w;
     inference_service := Some svc |}.

(** One step of the process.  Requests are allowed in every phase: a
    server that honours the lifespan protocol routes them only while
    [Serving], so this relation has more behaviours than such a server. *)
Inductive step : System -> event -> System -> Prop :=
| step_construct : forall s,
    pc s = NotStarted ->
    step s Construct
         {| pc := Created; service := Some InferenceService_init; world := world s |}
| step_load : forall s svc,
    pc s = Created ->
    service s = Some svc ->
    step s Load {| pc := Loaded; service := Some (load svc); world := world s |}
| step_bind : forall s svc,
    pc s = Loaded ->
    service s = Some svc ->
    step s Bind
         {| pc := Serving; service := Some svc;
            world := set_inference_service (world s) svc |}
| step_shutdown : forall s,
    pc s = Serving ->
    step s Shutdown {| pc := Stopped; service := service s; world := world s |}
| step_handle : forall s rq,
    step s (Handle rq)
         {| pc := pc s; service := service s; world := snd (dispatch rq (world s)) |}.

(** Runs: the events of a sequence of steps, oldest first. *)
Inductive run : System -> list event -> System -> Prop :=
| run_nil : forall s, run s [] s
| run_snoc : forall s tr s' e s'',
    run s tr s' -> step s' e s'' -> run s (tr ++ [e]) s''.

Definition reachable (s : System) : Prop := exists tr, run initial tr s.

(** The startup hook has completed: the coroutine reached its [yield]. *)
Definition started (s : System) : bool :=
  match pc s with
  | Serving | Stopped => true
  | _ => false
  end.

(** The state of the model-loaded flag of the service object. *)
Definition model_flag (s : System) : bool :=
  match service s with
  | Some svc => is_not_None (model svc)
  | None => false
  end.

(** The world once startup is over. *)
Definition serving_world : World :=
  set_inference_service initial_world (load InferenceService_init).

(* ================================================================== *)
(** * Vocabulary of the properties *)
(* ================================================================== *)

(** A computation is read-only when the world it gives back is the one it
    was given, whether it returns or raises. *)
Definition read_only {A : Type} (c : M A) : Prop := forall w, snd (c w) = w.

(** The service object once [load] has run on it. *)
Definition loaded_service : InferenceService := load InferenceService_init.

(** What each phase of the startup hook has established. *)
Definition phase_invariant (s : System) : Prop :=
  engines (world s) = FAKE_DB_ENGINES /\
  sensor_metadata (world s) = SENSOR_METADATA /\
  match pc s with
  | NotStarted => service s = None /\ inference_service (world s) = None
  | Created => service s = Some InferenceService_init /\ inference_service (world s) = None
  | Loaded => service s = Some loaded_service /\ inference_service (world s) = None
  | Serving | Stopped =>
      service s = Some loaded_service /\ inference_service (world s) = Some loaded_service
  end.

(** The [Load] events of a trace. *)
Definition is_load (e : event) : bool :=
  match e with Load => true | _ => false end.

Definition loads (tr : list event) : nat := List.length (filter is_load tr).

(** The state at the [yield] of the startup hook. *)
Definition serving_system : System :=
  {| pc := Serving; service := Some loaded_service; world := serving_world |}.

(** The health score as the design text words it, in exact rational
    arithmetic and with no reference to the functions above:
    [clamp(45 / max_cycles * 100, 0, 100)], then the rounding to two
    decimal places, counted in hundredths.  [round_2] sends a value halfway
    between two hundredths to the even one, as Python documents for
    [round]; [round_2_half_up] sends it up. *)
Module Exact.
Import QArith Qround.
Local Open Scope Q_scope.

Definition clamp (x lo hi : Q) : Q :=
  if Qle_bool x lo then lo
  else if Qle_bool hi x then hi
  else x.

Definition health_score (max_cycles : Z) : Q :=
  clamp (45 / inject_Z max_cycles * 100) 0 100.

(** [x] lies halfway between two consecutive hundredths. *)
Definition halfway (x : Q) : bool :=
  Qeq_bool (x * 100 - inject_Z (Qfloor (x * 100))) (1 # 2).

Definition round_2_half_up (x : Q) : Z := Qfloor (x * 100 + (1 # 2)).

Definition round_2 (x : Q) : Z :=
  let f := Qfloor (x * 100) in
  if halfway x then (if Z.even f then f else (f + 1)%Z)
  else round_2_half_up x.

(** [n] hundredths is a two-place decimal nearest to [x]: no other is
    closer. *)
Definition nearest_hundredth (x : Q) (n : Z) : Prop :=
  x * 100 - (1 # 2) <= inject_Z n /\ inject_Z n <= x * 100 + (1 # 2).

End Exact.

(** The float that stands for [n] hundredths: the binary64 number nearest
    to [n / 100]. *)
Definition hundredths (n : Z) : float :=
  match n with
  | Zpos p => Float64.of_ratio false p 100
  | _ => S754_zero false
  end.

(** The two rejections of the routes. *)
Definition not_found : exn := HTTPException 404 "Engine not found".
Definition retired : exn := HTTPException 422 "Engine is retired".

(** The returned score lies in [[0, 100]]. *)
Definition score_in_range (p : PredictionResponse.t) : Prop :=
  let hs := NFloat (PredictionResponse.health_score p) in
  py_le (NInt 0) hs = true /\ py_le hs (NInt 100) = true.

(** The returned level is the bucket of the returned score: High exactly
    below 30, Medium exactly from 30 to below 70, Low exactly otherwise. *)
Definition level_agrees_with_score (p : PredictionResponse.t) : Prop :=
  let hs := NFloat (PredictionResponse.health_score p) in
  (PredictionResponse.risk_level p = "High" <-> py_lt hs (NInt 30) = true) /\
  (PredictionResponse.risk_level p = "Medium" <->
     py_le (NInt 30) hs = true /\ py_lt hs (NInt 70) = true) /\
  (PredictionResponse.risk_level p = "Low" <->
     py_lt hs (NInt 30) = false /\
     andb (py_le (NInt 30) hs) (py_lt hs (NInt 70)) = false).

(** The prediction for an active engine with [max_cycles] cycles and the
    given returned score and level. *)
Definition prediction (unit_id max_cycles : Z) (score : float) (level : string)
  : PredictionResponse.t :=
  {| PredictionResponse.unit_id := unit_id;
     PredictionResponse.current_cycle := max_cycles - 45;
     PredictionResponse.predicted_rul := 45;
     PredictionResponse.health_score := score;
     PredictionResponse.risk_level := level;
     PredictionResponse.confidence := Float64.of_ratio false 95 100 |}.

(** What the prediction route answers, identifier by identifier: 23.44 is
    the float nearest to 2344 / 100, and 30.0 is exact. *)
Definition prediction_outcome (unit_id : Z) : result PredictionResponse.t :=
  if unit_id =? 1 then Ok (prediction 1 192 (Float64.of_ratio false 2344 100) "High")
  else if unit_id =? 2 then Raise retired
  else if unit_id =? 5 then Ok (prediction 5 150 (Float64.of_int 30) "Medium")
  else Raise not_found.

(** The data of every series: [1400 + 2 * i] for [i = 0 .. 4], as the
    floats of the schema. *)
Definition trend_data : list float :=
  map (fun i => Float64.of_int (1400 + 2 * i)) [0; 1; 2; 3; 4].

Definition expected_sensors : list SensorSeries.t :=
  [ {| SensorSeries.sensor_id := "s_2"; SensorSeries.name := "LPC Outlet Temperature";
       SensorSeries.unit := "°R"; SensorSeries.data := trend_data |};
    {| SensorSeries.sensor_id := "s_11"; SensorSeries.name := "HPC Outlet Static Pressure";
       SensorSeries.unit := "psia"; SensorSeries.data := trend_data |};
    {| SensorSeries.sensor_id := "s_12"; SensorSeries.name := "Fuel Flow Ratio";
       SensorSeries.unit := "pps/psi"; SensorSeries.data := trend_data |};
    {| SensorSeries.sensor_id := "s_14"; SensorSeries.name := "Corrected Core Speed";
       SensorSeries.unit := "rpm"; SensorSeries.data := trend_data |} ].

Definition expected_trends (unit_id : Z) : SensorTrendResponse.t :=
  {| SensorTrendResponse.unit_id := unit_id;
     SensorTrendResponse.cycles := [100; 101; 102; 103; 104];
     SensorTrendResponse.rul_trend := [50; 49; 48; 47; 45];
     SensorTrendResponse.sensors := expected_sensors |}.

(** The handler's own list for a series, before the schema turns the data
    into floats. *)
Definition raw_series (v : value) : Prop :=
  getitem v "data" = Ok (VList (map VInt [1400; 1402; 1404; 1406; 1408])).


Definition ready_body (model_loaded : bool) : value :=
  VDict [("model_loaded", VBool model_loaded)].

(** The score the route returns for [max_cycles], checked against the level
    it returns with it: used to test the bucketing on a range of inputs. *)
Definition level_matches_returned_score (max_cycles : Z) : bool :=
  match predict loaded_service max_cycles with
  | Ok d =>
      match dict_get d "health_score", dict_get d "risk_level" with
      | Some hs, Some (VStr level) =>
          match Schema.float hs with
          | Ok f =>
              let s := NFloat f in
              andb (andb (py_le (NInt 0) s) (py_le s (NInt 100)))
                   (String.eqb level
                      (if py_lt s (NInt 30) then "High"
                       else if py_lt s (NInt 70) then "Medium" else "Low"))
          | Raise _ => false
          end
      | _, _ => false
      end
  | Raise _ => false
  end.

(* ================================================================== *)
(** * Vocabulary of the further properties *)
(* ================================================================== *)

(** The value of [m * 2 ^ e] scaled by [2 ^ 1200], an integer for every
    exponent a binary64 operation can produce: bounds on floats are stated
    on it. *)
Definition scaled (m e : Z) : Z := m * 2 ^ (e + 1200).

(** The level in terms of the cycle count: 64 is the largest count whose
    score reaches 70, 150 the largest whose score reaches 30. *)
Definition expected_level (max_cycles : Z) : string :=
  if max_cycles <=? 64 then "Low"
  else if max_cycles <=? 150 then "Medium"
  else "High".

(** The bucket of a returned score. *)
Definition level_of_score (f : float) : string :=
  if py_lt (NFloat f) (NInt 30) then "High"
  else if py_lt (NFloat f) (NInt 70) then "Medium"
  else "Low".

(** A check of one run of the scoring function: it returns, the returned
    score is in range, and the returned level is both the expected one for
    the count and the bucket of the returned score. *)
Definition scoring_ok (max_cycles : Z) : bool :=
  match predict loaded_service max_cycles with
  | Ok d =>
      match dict_get d "health_score", dict_get d "risk_level" with
      | Some hs, Some (VStr level) =>
          match Schema.float hs with
          | Ok f =>
              andb (andb (py_le (NInt 0) (NFloat f)) (py_le (NFloat f) (NInt 100)))
                   (andb (String.eqb level (expected_level max_cycles))
                         (String.eqb (level_of_score f) level))
          | Raise _ => false
          end
      | _, _ => false
      end
  | Raise _ => false
  end.

(** A check of the float read back from [n] hundredths. *)
Definition hundredth_ok (n : Z) : bool :=
  let f := Float64.of_ratio false (Z.to_pos n * 1) 100 in
  andb (negb (Float64.is_infinite f))
       (andb (andb (py_le (NInt 0) (NFloat f)) (py_le (NFloat f) (NInt 100)))
             (py_lt (NFloat f) (NInt 30))).

(** A check of the upper clamp: the score is the integer 100 up to 45
    cycles and below 100 beyond. *)
Definition clamp_ok (max_cycles : Z) : bool :=
  match predict loaded_service max_cycles with
  | Ok d =>
      match dict_get d "health_score" with
      | Some hs =>
          if max_cycles <=? 45
          then match hs with VInt 100 => true | _ => false end
          else match Schema.float hs with
               | Ok f => py_lt (NFloat f) (NInt 100)
               | Raise _ => false
               end
      | None => false
      end
  | Raise _ => false
  end.

(** What the scoring function returns for a score [v] and a level. *)
Definition scoring (v : value) (level : string) : dict :=
  dict_display [ ("predicted_rul", VInt 45); ("health_score", v);
                 ("risk_level", VStr level); ("confidence", VFloat float_0_95) ].

(** The channels [get_trends] reports. *)
Definition critical_sensors : list string := ["s_2"; "s_11"; "s_12"; "s_14"].

(** The series of a channel whose table entry holds the given name and unit. *)
Definition series_of (name_of unit_of : string -> string) (sid : string) : SensorSeries.t :=
  {| SensorSeries.sensor_id := sid;
     SensorSeries.name := name_of sid;
     SensorSeries.unit := unit_of sid;
     SensorSeries.data := trend_data |}.

(** A well-formed record of an engine table and the row listed for it. *)
Definition record_of (row : Z * Z * string) : Z * value :=
  let '(k, max_cycles, status) := row in (k, engine max_cycles status).

Definition metadata_of (row : Z * Z * string) : EngineMetadata.t :=
  let '(k, max_cycles, status) := row in
  {| EngineMetadata.unit_id := k;
     EngineMetadata.max_cycles := max_cycles;
     EngineMetadata.status := status |}.

(** The events of the startup hook and of shutdown in a trace. *)
Definition is_handle (e : event) : bool :=
  match e with Handle _ => true | _ => false end.

Definition lifecycle (tr : list event) : list event :=
  filter (fun e => negb (is_handle e)) tr.

(** An exception that is not an HTTP rejection: the client sees a 500. *)
Definition internal_error (e : exn) : Prop :=
  match e with
  | HTTPException _ _ => False
  | _ => True
  end.

(** What the prediction route answers before the startup hook has bound
    the service. *)
Definition outcome_before_startup (unit_id : Z) : result PredictionResponse.t :=
  if unit_id =? 2 then Raise retired
  else if orb (unit_id =? 1) (unit_id =? 5) then Raise AttributeError
  else Raise not_found.

(** A computation whose exceptions all satisfy [P]. *)
Definition raises_only {A : Type} (P : exn -> Prop) (c : M A) : Prop :=
  forall w e, fst (c w) = Raise e -> P e.

(** A result whose exception, if any, satisfies [P]. *)
Definition result_raises_only {A : Type} (P : exn -> Prop) (r : result A) : Prop :=
  forall e, r = Raise e -> P e.

(** The body of the loop of [get_trends], and the value the handler
    returns once the loop has built [sensors]. *)
Definition trend_series (cycles : list Z) (sensors : list value) (sid : string)
  : M (list value) :=
  (table <- read_SENSOR_METADATA ;;
   meta <- lift (getitem (VDict table) sid) ;;
   name <- lift (getitem meta "name") ;;
   unit <- lift (getitem meta "unit") ;;
   ret (sensors ++
        [ VDict (dict_display
                   [ ("sensor_id", VStr sid);
                     ("name", name);
                     ("unit", unit);
                     ("data", VList (map (fun i => VInt (1400 + i * 2))
                                         (range (List.length cycles)))) ]) ]))%handler.

Definition trend_value (unit_id : Z) (sensors : list value) : value :=
  VDict (dict_display
           [ ("unit_id", VInt unit_id);
             ("cycles", VList (map VInt [100; 101; 102; 103; 104]));
             ("rul_trend", VList (map VInt [50; 49; 48; 47; 45]));
             ("sensors", VList sensors) ]).

(** The dict of one series. *)
Definition series_value (sid name unit : string) : value :=
  VDict [ ("sensor_id", VStr sid); ("name", VStr name); ("unit", VStr unit);
          ("data", VList (map VInt [1400; 1402; 1404; 1406; 1408])) ].

(* ================================================================== *)
(** * Facts about rounding *)
(* ================================================================== *)

Section Rounding.

Lemma fexp_eq (x : Z) : fexp Float64.prec Float64.emax x = Z.max (x - 53) (-1074).
Proof. reflexivity. Qed.

Lemma digits2_pos_size (p : positive) : digits2_pos p = Pos.size p.
Proof. induction p; simpl; congruence. Qed.

Lemma Zdigits2_nonneg (m : Z) : 0 <= Zdigits2 m.
Proof. destruct m; simpl; lia. Qed.

Lemma Zdigits2_lower (p : positive) : 2 ^ (Zdigits2 (Zpos p) - 1) <= Zpos p.
Proof.
  cbn [Zdigits2]. rewrite digits2_pos_size.
  pose proof (Pos.size_le p) as H.
  assert (H2 : 2 ^ Zpos (Pos.size p) <= 2 * Zpos p).
  { apply Pos2Z.pos_le_pos in H. rewrite Pos2Z.inj_pow in H.
    change (Zpos p~0) with (2 * Zpos p) in H. exact H. }
  replace (Zpos (Pos.size p)) with (Z.succ (Zpos (Pos.size p) - 1)) in H2 by lia.
  rewrite Z.pow_succ_r in H2 by lia. lia.
Qed.

Lemma Zdigits2_upper (m k : Z) : 0 <= k -> 0 <= m < 2 ^ k -> Zdigits2 m <= k.
Proof.
  intros Hk [H0 Hm]. destruct m as [|p|p]; cbn [Zdigits2]; try lia.
  pose proof (Zdigits2_lower p) as Hl. cbn [Zdigits2] in Hl.
  destruct (Z_le_gt_dec (Zpos (digits2_pos p)) k) as [|Hgt]; [assumption|].
  assert (2 ^ k <= 2 ^ (Zpos (digits2_pos p) - 1)) by (apply Z.pow_le_mono_r; lia).
  lia.
Qed.

Lemma shr_1_bounds (mrs : shr_record) :
  0 <= shr_m mrs -> 0 <= shr_m (shr_1 mrs) <= shr_m mrs.
Proof.
  destruct mrs as [m r s]; simpl.
  destruct m as [|[p|p|]|[p|p|]]; simpl; lia.
Qed.

Lemma shr_iter_bounds (n : positive) :
  forall mrs, 0 <= shr_m mrs -> 0 <= shr_m (iter_pos shr_1 n mrs) <= shr_m mrs.
Proof.
  induction n as [n IH|n IH|]; intros mrs H; simpl.
  - pose proof (shr_1_bounds mrs H) as H1.
    pose proof (IH _ (proj1 H1)) as H2.
    pose proof (IH _ (proj1 H2)) as H3. lia.
  - pose proof (IH _ H) as H2.
    pose proof (IH _ (proj1 H2)) as H3. lia.
  - apply shr_1_bounds; assumption.
Qed.

Lemma shr_record_of_loc_m (m : Z) (l : location) : shr_m (shr_record_of_loc m l) = m.
Proof. destruct l as [|[]]; reflexivity. Qed.

Lemma shr_fexp_bounds (m e : Z) (l : location) :
  0 <= m ->
  let '(mrs, e') := shr_fexp Float64.prec Float64.emax m e l in
  0 <= shr_m mrs <= m /\ (e' = e \/ e' = fexp Float64.prec Float64.emax (Zdigits2 m + e)).
Proof.
  intros Hm. unfold shr_fexp, shr.
  destruct (fexp Float64.prec Float64.emax (Zdigits2 m + e) - e) as [|n|n] eqn:E.
  - rewrite shr_record_of_loc_m. split; [lia | left; reflexivity].
  - pose proof (shr_iter_bounds n (shr_record_of_loc m l)) as H.
    rewrite shr_record_of_loc_m in H. split; [auto | right; lia].
  - rewrite shr_record_of_loc_m. split; [lia | left; reflexivity].
Qed.

Lemma round_nearest_even_bounds (m : Z) (l : location) :
  m <= round_nearest_even m l <= m + 1.
Proof.
  destruct l as [|[]]; simpl; try lia.
  destruct (Z.even m); lia.
Qed.

(** On a non-negative mantissa [binary_round_aux] never returns a NaN, and
    its result has the sign it was given. *)
Lemma binary_round_aux_sign (s : bool) (m e : Z) (l : location) :
  0 <= m ->
  let r := binary_round_aux Float64.prec Float64.emax s m e l in
  Float64.is_nan r = false /\ Float64.sign r = s.
Proof.
  intros Hm. unfold binary_round_aux.
  pose proof (shr_fexp_bounds m e l Hm) as H1.
  destruct (shr_fexp Float64.prec Float64.emax m e l) as [mrs' e'].
  destruct H1 as [Hm' _].
  pose proof (round_nearest_even_bounds (shr_m mrs') (loc_of_shr_record mrs')) as Hr.
  set (mr := round_nearest_even (shr_m mrs') (loc_of_shr_record mrs')) in *.
  assert (Hmr : 0 <= mr) by lia.
  pose proof (shr_fexp_bounds mr e' loc_Exact Hmr) as H2.
  destruct (shr_fexp Float64.prec Float64.emax mr e' loc_Exact) as [mrs'' e''].
  destruct H2 as [Hm'' _].
  destruct (shr_m mrs'') as [|p|p]; cbv zeta.
  - split; reflexivity.
  - destruct (e'' <=? Float64.emax - Float64.prec); split; reflexivity.
  - lia.
Qed.

(** When the operand is small enough [binary_round_aux] returns no infinity
    either. *)
Lemma binary_round_aux_shape (s : bool) (m e : Z) (l : location) (k : Z) :
  0 <= k <= 2000 -> 0 <= m < 2 ^ k ->
  e <= 971 -> k + 1 + e <= 1024 -> 2 * k + e <= 1076 ->
  let r := binary_round_aux Float64.prec Float64.emax s m e l in
  Float64.is_nan r = false /\ Float64.is_infinite r = false /\ Float64.sign r = s.
Proof.
  intros Hk Hm He0 He1 He2. unfold binary_round_aux.
  pose proof (shr_fexp_bounds m e l (proj1 Hm)) as H1.
  destruct (shr_fexp Float64.prec Float64.emax m e l) as [mrs' e'].
  destruct H1 as [Hm' He'].
  pose proof (round_nearest_even_bounds (shr_m mrs') (loc_of_shr_record mrs')) as Hr.
  set (mr := round_nearest_even (shr_m mrs') (loc_of_shr_record mrs')) in *.
  assert (Hmr : 0 <= mr) by lia.
  pose proof (shr_fexp_bounds mr e' loc_Exact Hmr) as H2.
  destruct (shr_fexp Float64.prec Float64.emax mr e' loc_Exact) as [mrs'' e''].
  destruct H2 as [Hm'' He''].
  assert (Hd : Zdigits2 m <= k) by (apply Zdigits2_upper; lia).
  assert (Hdr : Zdigits2 mr <= k + 1).
  { apply Zdigits2_upper; [lia|].
    replace (k + 1) with (Z.succ k) by lia. rewrite Z.pow_succ_r by lia. lia. }
  pose proof (Zdigits2_nonneg m). pose proof (Zdigits2_nonneg mr).
  assert (Hle : e'' <= 971).
  { rewrite !fexp_eq in *. lia. }
  destruct (shr_m mrs'') as [|p|p] eqn:Em; simpl.
  - auto.
  - change (Float64.emax - Float64.prec) with 971.
    destruct (Z.leb_spec e'' 971); [simpl; auto | lia].
  - lia.
Qed.

Lemma of_ratio_shape (s : bool) (num den : positive) :
  Zpos num < 2 ^ 64 ->
  let r := Float64.of_ratio s num den in
  Float64.is_nan r = false /\ Float64.is_infinite r = false /\ Float64.sign r = s.
Proof.
  intros Hnum. unfold Float64.of_ratio, SFdiv_core_binary.
  set (d1 := Zdigits2 (Zpos num)). set (d2 := Zdigits2 (Zpos den)).
  assert (Hd1 : 1 <= d1 <= 64).
  { split; [unfold d1; simpl; lia | apply Zdigits2_upper; lia]. }
  assert (Hd2 : 1 <= d2) by (unfold d2; simpl; lia).
  pose proof (Zdigits2_lower den) as Hden. fold d2 in Hden.
  rewrite !Z.add_0_r, Z.sub_0_r, Z.sub_0_l.
  set (e' := Z.min (fexp Float64.prec Float64.emax (d1 - d2)) 0).
  assert (He' : e' <= 0) by (unfold e'; lia).
  set (m' := match - e' with Z0 => Zpos num | Zpos _ => Z.shiftl (Zpos num) (- e') | Zneg _ => 0 end).
  assert (Hm' : m' = Zpos num * 2 ^ (- e')).
  { unfold m'. destruct (- e') as [|p|p] eqn:E; try lia.
    - rewrite Z.shiftl_mul_pow2 by lia. reflexivity. }
  clearbody m'.
  pose proof (Z_div_mod m' (Zpos den) ltac:(lia)) as Hdm.
  destruct (Z.div_eucl m' (Zpos den)) as [q r]. destruct Hdm as [Hq Hr].
  set (k := Z.max 0 (d1 - e' - d2 + 1)).
  assert (Hpow : 0 < 2 ^ (- e')) by (apply Z.pow_pos_nonneg; lia).
  assert (Hq0 : 0 <= q) by nia.
  assert (Hk : 0 <= k) by (unfold k; lia).
  assert (Hqk : q < 2 ^ k).
  { destruct (Z_lt_ge_dec q (2 ^ k)) as [|Hge]; [assumption|exfalso].
    assert (Hnum' : Zpos num < 2 ^ d1).
    { unfold d1. cbn [Zdigits2]. rewrite digits2_pos_size.
      pose proof (Pos.size_gt num) as G.
      apply Pos2Z.pos_lt_pos in G. rewrite Pos2Z.inj_pow in G. exact G. }
    assert (2 ^ (d1 - e') <= 2 ^ k * 2 ^ (d2 - 1)).
    { rewrite <- Z.pow_add_r by lia. apply Z.pow_le_mono_r; lia. }
    assert (Zpos num * 2 ^ (- e') < 2 ^ (d1 - e')).
    { replace (d1 - e') with (d1 + - e') by lia. rewrite Z.pow_add_r by lia. nia. }
    assert (0 < 2 ^ (d2 - 1)) by (apply Z.pow_pos_nonneg; lia).
    nia. }
  assert (He971 : e' <= 971) by lia.
  assert (Hb : k <= 2000 /\ k + 1 + e' <= 1024 /\ 2 * k + e' <= 1076).
  { unfold k, e'. rewrite fexp_eq. lia. }
  apply binary_round_aux_shape with (k := k); try lia.
Qed.

End Rounding.

(* ================================================================== *)
(** * Handlers leave the world as they found it *)
(* ================================================================== *)

Create HintDb frame.

Lemma read_only_ret {A : Type} (a : A) : read_only (ret a).
Proof. intro w; reflexivity. Qed.

Lemma read_only_raise {A : Type} (e : exn) : read_only (raise (A := A) e).
Proof. intro w; reflexivity. Qed.

Lemma read_only_lift {A : Type} (r : result A) : read_only (lift r).
Proof. intro w; reflexivity. Qed.

Lemma read_only_bind {A B : Type} (c : M A) (k : A -> M B) :
  read_only c -> (forall a, read_only (k a)) -> read_only (bind c k).
Proof.
  intros Hc Hk w. unfold bind.
  specialize (Hc w). destruct (c w) as [[a|e] w']; simpl in Hc; subst w'.
  - apply Hk.
  - reflexivity.
Qed.

Lemma read_only_if {A : Type} (b : bool) (c1 c2 : M A) :
  read_only c1 -> read_only c2 -> read_only (if b then c1 else c2).
Proof. destruct b; auto. Qed.

Lemma read_only_read_FAKE_DB_ENGINES : read_only read_FAKE_DB_ENGINES.
Proof. intro w; reflexivity. Qed.

Lemma read_only_read_SENSOR_METADATA : read_only read_SENSOR_METADATA.
Proof. intro w; reflexivity. Qed.

Lemma read_only_read_inference_service : read_only read_inference_service.
Proof.
  intro w. unfold read_inference_service.
  destruct (inference_service w); reflexivity.
Qed.

Lemma read_only_for_each {A B : Type} (l : list A) (body : B -> A -> M B) :
  (forall acc a, read_only (body acc a)) ->
  forall acc, read_only (for_each l body acc).
Proof.
  intros Hbody. induction l as [|a l IH]; intro acc; simpl.
  - apply read_only_ret.
  - apply read_only_bind; auto.
Qed.

Lemma read_only_route {A : Type} (h : M value) (validate : value -> result A) :
  read_only h -> read_only (route h validate).
Proof.
  intros Hh w. unfold route. specialize (Hh w).
  destruct (h w) as [r w']. exact Hh.
Qed.

#[export] Hint Resolve read_only_ret read_only_raise read_only_lift
  read_only_read_FAKE_DB_ENGINES read_only_read_SENSOR_METADATA
  read_only_read_inference_service read_only_route : frame.

Ltac frame :=
  repeat first
    [ apply read_only_bind; [ | intro ]
    | apply read_only_if
    | apply read_only_for_each; intros
    | solve [ auto with frame ] ].

Lemma read_only_list_engines : read_only list_engines.
Proof. unfold list_engines. frame. Qed.

Lemma read_only_call_predict (svc : InferenceService) (v : value) :
  read_only (call_predict svc v).
Proof. destruct v; simpl; auto with frame. Qed.

Lemma read_only_predict_rul (unit_id : Z) : read_only (predict_rul unit_id).
Proof. unfold predict_rul. frame. apply read_only_call_predict. Qed.

Lemma read_only_get_trends (unit_id : Z) : read_only (get_trends unit_id).
Proof. unfold get_trends. frame. Qed.

Lemma read_only_health : read_only health.
Proof. unfold health. frame. Qed.

Lemma read_only_ready : read_only ready.
Proof. unfold ready. frame. Qed.

#[export] Hint Resolve read_only_list_engines read_only_predict_rul
  read_only_get_trends read_only_health read_only_ready : frame.

Lemma read_only_dispatch (rq : request) : read_only (dispatch rq).
Proof.
  destruct rq; simpl.
  - unfold GET_health; auto with frame.
  - unfold GET_ready; auto with frame.
  - intro w. pose proof (read_only_route list_engines
      (Schema.list_of EngineMetadata.validate) read_only_list_engines w) as H.
    unfold GET_engines. destruct (route _ _ w). exact H.
  - intro w. pose proof (read_only_route (predict_rul unit_id)
      PredictionResponse.validate (read_only_predict_rul unit_id) w) as H.
    unfold GET_predict. destruct (route _ _ w). exact H.
  - intro w. pose proof (read_only_route (get_trends unit_id)
      SensorTrendResponse.validate (read_only_get_trends unit_id) w) as H.
    unfold GET_trends. destruct (route _ _ w). exact H.
Qed.

(* ================================================================== *)
(** * Invariants of the process *)
(* ================================================================== *)

Lemma phase_invariant_initial : phase_invariant initial.
Proof. repeat split. Qed.

Lemma phase_invariant_step (s s' : System) (e : event) :
  phase_invariant s -> step s e s' -> phase_invariant s'.
Proof.
  intros (He & Hs & Hp) Hstep.
  destruct Hstep as [s Hpc | s svc Hpc Hsvc | s svc Hpc Hsvc | s Hpc | s rq];
    unfold phase_invariant; simpl.
  - rewrite Hpc in Hp. tauto.
  - rewrite Hpc in Hp. destruct Hp as [Hp1 Hp2].
    rewrite Hp1 in Hsvc. injection Hsvc as <-. tauto.
  - rewrite Hpc in Hp. destruct Hp as [Hp1 Hp2].
    rewrite Hp1 in Hsvc. injection Hsvc as <-. tauto.
  - rewrite Hpc in Hp. tauto.
  - rewrite (read_only_dispatch rq (world s)). tauto.
Qed.

Lemma phase_invariant_run (s : System) (tr : list event) :
  run initial tr s -> phase_invariant s.
Proof.
  intro Hrun. remember initial as s0 eqn:E.
  induction Hrun as [s|s tr s' e s'' Hrun IH Hstep].
  - subst s. apply phase_invariant_initial.
  - eapply phase_invariant_step; [apply IH; assumption | eassumption].
Qed.

(** A [World] is determined by its three fields. *)
Lemma world_ext (w w' : World) :
  engines w = engines w' ->
  sensor_metadata w = sensor_metadata w' ->
  inference_service w = inference_service w' ->
  w = w'.
Proof. destruct w, w'; simpl; intros; subst; reflexivity. Qed.

(** Once the startup hook is over there is one world, until the process
    ends; before that, the world is the initial one. *)
Lemma world_of_run (s : System) (tr : list event) :
  run initial tr s ->
  world s = if started s then serving_world else initial_world.
Proof.
  intro Hrun. destruct (phase_invariant_run s tr Hrun) as (He & Hs & Hp).
  unfold started. destruct (pc s); destruct Hp as [_ Hp];
    apply world_ext; simpl; assumption.
Qed.

(** The name bound on [app.state] denotes the object the hook built. *)
Lemma alias_invariant (s : System) (tr : list event) :
  run initial tr s -> started s = true ->
  inference_service (world s) = service s.
Proof.
  intros Hrun Hst. destruct (phase_invariant_run s tr Hrun) as (_ & _ & Hp).
  unfold started in Hst. destruct (pc s); try discriminate;
    destruct Hp as [-> ->]; reflexivity.
Qed.

Lemma loads_snoc (tr : list event) (e : event) :
  loads (tr ++ [e]) = (loads tr + (if is_load e then 1 else 0))%nat.
Proof.
  unfold loads. rewrite filter_app, length_app. simpl.
  destruct (is_load e); reflexivity.
Qed.

Lemma loads_of_run (s : System) (tr : list event) :
  run initial tr s ->
  loads tr = match pc s with
             | NotStarted | Created => 0%nat
             | Loaded | Serving | Stopped => 1%nat
             end.
Proof.
  intro Hrun. remember initial as s0 eqn:E.
  induction Hrun as [s|s tr s' e s'' Hrun IH Hstep].
  - subst s. reflexivity.
  - specialize (IH E). rewrite loads_snoc, IH.
    destruct Hstep as [s' Hpc | s' svc Hpc Hsvc | s' svc Hpc Hsvc | s' Hpc | s' rq];
      simpl; try rewrite Hpc; try reflexivity.
    destruct (pc s'); reflexivity.
Qed.

(** The three steps of the startup hook, from the initial state. *)
Ltac startup :=
  change [Construct; Load; Bind] with ((([] ++ [Construct]) ++ [Load]) ++ [Bind]);
  eapply run_snoc with
    (s' := {| pc := Loaded; service := Some loaded_service; world := initial_world |});
  [ eapply run_snoc with
      (s' := {| pc := Created; service := Some InferenceService_init;
                world := initial_world |});
    [ eapply run_snoc; [apply run_nil | apply (step_construct initial); reflexivity]
    | apply (step_load {| pc := Created; service := Some InferenceService_init;
                          world := initial_world |} InferenceService_init); reflexivity ]
  | apply (step_bind {| pc := Loaded; service := Some loaded_service;
                        world := initial_world |} loaded_service); reflexivity ].

Lemma run_startup : run initial [Construct; Load; Bind] serving_system.
Proof. startup. Qed.

(* ================================================================== *)
(** * The scoring function *)
(* ================================================================== *)

(** The floats that stand for the decimals 0.95 and 23.44 are the nearest
    ones: written [m * 2 ^ e], each is within half a unit in the last place
    of the decimal. *)
Lemma float_0_95_nearest :
  float_0_95 = S754_finite false 8556839292003942 (-53) /\
  Z.abs (8556839292003942 * 100 - 95 * 2 ^ 53) <= 100 / 2.
Proof. split; [reflexivity | vm_compute; discriminate]. Qed.

Lemma float_23_44_nearest :
  Float64.of_ratio false 2344 100 = S754_finite false 6597773454097777 (-48) /\
  Z.abs (6597773454097777 * 100 - 2344 * 2 ^ 48) <= 100 / 2.
Proof. split; [reflexivity | vm_compute; discriminate]. Qed.

Lemma round_half_even_upper (num den k : Z) :
  0 < den -> 0 <= num < k * den -> 0 <= Float64.round_half_even num den <= k.
Proof.
  intros Hden [H0 Hk]. unfold Float64.round_half_even.
  assert (Hq0 : 0 <= num / den) by (apply Z.div_pos; lia).
  assert (Hqk : num / den < k) by (apply Z.div_lt_upper_bound; lia).
  destruct (2 * (num mod den) ?= den); [destruct (Z.even (num / den))| |]; lia.
Qed.

(** [round(x, 2)] on a positive finite float, with the constants of the
    call site evaluated. *)
Lemma round_2_finite (m : positive) (e : Z) :
  Float64.round (S754_finite false m e) 2 =
  match Float64.round_half_even (Zpos m * 2 ^ Z.max e 0 * 100) (2 ^ Z.max (- e) 0 * 1) with
  | Zpos p =>
      if Float64.is_infinite (Float64.of_ratio false (p * 1) 100)
      then Raise OverflowError
      else Ok (Float64.of_ratio false (p * 1) 100)
  | _ => Ok (S754_zero false)
  end.
Proof. reflexivity. Qed.

Lemma compare_int_finite_0 (m : positive) (e : Z) :
  Float64.compare_int (S754_finite false m e) 0 = Some Gt.
Proof.
  unfold Float64.compare_int. destruct (0 <=? e) eqn:He.
  - f_equal. apply Z.compare_gt_iff. apply Z.leb_le in He.
    assert (0 < 2 ^ e) by (apply Z.pow_pos_nonneg; lia). nia.
  - reflexivity.
Qed.

(* ================================================================== *)
(** * The static tables and the outcomes of the routes *)
(* ================================================================== *)

Lemma engines_lookup (unit_id : Z) :
  int_dict_lookup FAKE_DB_ENGINES unit_id =
  if unit_id =? 1 then Some (engine 192 "Active")
  else if unit_id =? 2 then Some (engine 250 "Retired")
  else if unit_id =? 5 then Some (engine 150 "Active")
  else None.
Proof.
  unfold FAKE_DB_ENGINES, int_dict_lookup.
  rewrite (Z.eqb_sym 1), (Z.eqb_sym 2), (Z.eqb_sym 5). reflexivity.
Qed.

Lemma engines_keys : int_dict_keys FAKE_DB_ENGINES = [1; 2; 5].
Proof. reflexivity. Qed.

(** The four ways a lookup in the table can go. *)
Lemma engines_cases (unit_id : Z) :
  unit_id = 1 \/ unit_id = 2 \/ unit_id = 5 \/
  ((unit_id =? 1) = false /\ (unit_id =? 2) = false /\ (unit_id =? 5) = false /\
   ~ In unit_id (int_dict_keys FAKE_DB_ENGINES) /\
   int_dict_lookup FAKE_DB_ENGINES unit_id = None).
Proof.
  rewrite engines_lookup, engines_keys. simpl.
  destruct (Z.eqb_spec unit_id 1); [auto|].
  destruct (Z.eqb_spec unit_id 2); [auto|].
  destruct (Z.eqb_spec unit_id 5); [auto|].
  right; right; right. repeat split. intros [|[|[|[]]]]; congruence.
Qed.

Lemma predict_rul_unknown (unit_id : Z) (w : World) :
  int_dict_lookup (engines w) unit_id = None ->
  predict_rul unit_id w = (Raise not_found, w).
Proof.
  intro H. unfold predict_rul, bind, read_FAKE_DB_ENGINES, int_dict_get.
  rewrite H. reflexivity.
Qed.

Lemma get_trends_unknown (unit_id : Z) (w : World) :
  int_dict_lookup (engines w) unit_id = None ->
  get_trends unit_id w = (Raise not_found, w).
Proof.
  intro H. unfold get_trends, bind, read_FAKE_DB_ENGINES, int_dict_contains.
  rewrite H. reflexivity.
Qed.

(** The prediction route after startup, identifier by identifier. *)
Lemma GET_predict_started (tr : list event) (s : System) (unit_id : Z) :
  run initial tr s -> started s = true ->
  fst (GET_predict unit_id (world s)) = prediction_outcome unit_id.
Proof.
  intros Hrun Hst. rewrite (world_of_run s tr Hrun), Hst.
  destruct (engines_cases unit_id) as [->|[->|[->|(E1 & E2 & E5 & _ & Hnone)]]].
  1-3: vm_compute; reflexivity.
  unfold prediction_outcome. rewrite E1, E2, E5.
  unfold GET_predict, route. rewrite predict_rul_unknown by exact Hnone. reflexivity.
Qed.

(** The trend route in any state of a run: it does not read the service. *)
Lemma GET_trends_run (tr : list event) (s : System) (unit_id : Z) :
  run initial tr s ->
  fst (GET_trends unit_id (world s)) =
  if int_dict_contains FAKE_DB_ENGINES unit_id
  then Ok (expected_trends unit_id)
  else Raise not_found.
Proof.
  intros Hrun. rewrite (world_of_run s tr Hrun).
  destruct (engines_cases unit_id) as [->|[->|[->|(_ & _ & _ & _ & Hnone)]]].
  1-3: destruct (started s); vm_compute; reflexivity.
  unfold int_dict_contains. rewrite Hnone.
  unfold GET_trends, route.
  destruct (started s); rewrite get_trends_unknown by exact Hnone; reflexivity.
Qed.

Lemma contains_iff_in (unit_id : Z) :
  int_dict_contains FAKE_DB_ENGINES unit_id = true <->
  In unit_id (int_dict_keys FAKE_DB_ENGINES).
Proof.
  unfold int_dict_contains.
  destruct (engines_cases unit_id) as [->|[->|[->|(_ & _ & _ & Hnotin & Hnone)]]].
  1-3: split; intros _; [simpl; auto | reflexivity].
  rewrite Hnone. split; [discriminate | contradiction].
Qed.

Ltac settle :=
  vm_compute; repeat split; intros;
  try reflexivity; try discriminate;
  try match goal with H : _ /\ _ |- _ => destruct H; discriminate end.

(** On every [max_cycles] from 1 to 5000 the scoring function returns a
    score in range together with the level of that returned score. *)
Lemma level_matches_returned_score_upto_5000 :
  forallb level_matches_returned_score (map Z.of_nat (seq 1 5000)) = true.
Proof. vm_compute. reflexivity. Qed.

(* ================================================================== *)
(** * Properties of the prediction route *)
(* ================================================================== *)

(** C1.  For every record of the engine table whose status is Active, the
    prediction route answers, in every state reached after startup, with a
    response whose returned (rounded) health score lies in [[0, 100]], and
    whose risk level is High exactly when that returned score is below 30,
    Medium exactly when it is at least 30 and below 70, and Low exactly
    when it is in neither range. *)
Theorem active_engine_health_and_risk
  (tr : list event) (s : System) (unit_id : Z) (e : value) :
  run initial tr s -> started s = true ->
  In (unit_id, e) (engines (world s)) ->
  getitem e "status" = Ok (VStr "Active") ->
  exists p,
    fst (GET_predict unit_id (world s)) = Ok p /\
    score_in_range p /\
    level_agrees_with_score p.
Proof.
  intros Hrun Hst Hin Hactive.
  rewrite (GET_predict_started tr s unit_id Hrun Hst).
  destruct (phase_invariant_run s tr Hrun) as (He & _ & _). rewrite He in Hin.
  destruct Hin as [H|[H|[H|[]]]]; injection H as <- <-.
  - eexists; split; [reflexivity | split; settle].
  - vm_compute in Hactive. discriminate.
  - eexists; split; [reflexivity | split; settle].
Qed.

Lemma active_engine_health_and_risk_witness :
  run initial [Construct; Load; Bind] serving_system /\
  started serving_system = true /\
  In (5, engine 150 "Active") (engines (world serving_system)) /\
  getitem (engine 150 "Active") "status" = Ok (VStr "Active") /\
  exists p,
    fst (GET_predict 5 (world serving_system)) = Ok p /\
    score_in_range p /\
    level_agrees_with_score p.
Proof.
  split; [startup | split; [reflexivity | split; [simpl; auto | split; [reflexivity|]]]].
  apply (active_engine_health_and_risk
           [Construct; Load; Bind] serving_system 5 (engine 150 "Active")).
  - startup.
  - reflexivity.
  - simpl; auto.
  - reflexivity.
Defined.

(** C3.  For every integer [unit_id] the prediction route, in every state
    reached after startup, answers 404 exactly when [unit_id] is not a key
    of the engine table, answers 422 exactly when the engine exists and its
    status is Retired (unit 2 is such an engine), and returns a prediction
    response in every other case: there is no further outcome. *)
Theorem predict_route_outcomes (tr : list event) (s : System) (unit_id : Z) :
  run initial tr s -> started s = true ->
  let r := fst (GET_predict unit_id (world s)) in
  (status_of r = 404 <-> ~ In unit_id (int_dict_keys FAKE_DB_ENGINES)) /\
  (status_of r = 422 <->
     exists e, int_dict_lookup FAKE_DB_ENGINES unit_id = Some e /\
               getitem e "status" = Ok (VStr "Retired")) /\
  (r = Raise not_found \/ r = Raise retired \/ exists p, r = Ok p) /\
  (status_of r = 404 -> r = Raise not_found) /\
  (status_of r = 422 -> r = Raise retired) /\
  fst (GET_predict 2 (world s)) = Raise retired.
Proof.
  intros Hrun Hst. cbv zeta.
  rewrite !(GET_predict_started tr s _ Hrun Hst).
  destruct (engines_cases unit_id) as [->|[->|[->|(E1 & E2 & E5 & Hnotin & Hnone)]]].
  - repeat split; try solve [vm_compute; intros; discriminate].
    + intros H. exfalso. apply H. simpl; auto.
    + intros (e & He & Hactive). vm_compute in He. injection He as <-.
      vm_compute in Hactive. discriminate.
    + right; right. eexists. reflexivity.
  - repeat split; try solve [vm_compute; intros; discriminate].
    + intros H. exfalso. apply H. simpl; auto.
    + intros _. eexists; split; reflexivity.
    + right; left. reflexivity.
  - repeat split; try solve [vm_compute; intros; discriminate].
    + intros H. exfalso. apply H. simpl; auto.
    + intros (e & He & Hactive). vm_compute in He. injection He as <-.
      vm_compute in Hactive. discriminate.
    + right; right. eexists. reflexivity.
  - assert (E : prediction_outcome unit_id = Raise not_found)
      by (unfold prediction_outcome; rewrite E1, E2, E5; reflexivity).
    rewrite E. repeat split; try solve [simpl; intros; discriminate].
    + intros _. exact Hnotin.
    + intros (e & He & _). congruence.
    + left. reflexivity.
Qed.

Lemma predict_route_outcomes_witness :
  run initial [Construct; Load; Bind] serving_system /\
  started serving_system = true /\
  let r := fst (GET_predict 2 (world serving_system)) in
  (status_of r = 404 <-> ~ In 2 (int_dict_keys FAKE_DB_ENGINES)) /\
  (status_of r = 422 <->
     exists e, int_dict_lookup FAKE_DB_ENGINES 2 = Some e /\
               getitem e "status" = Ok (VStr "Retired")) /\
  (r = Raise not_found \/ r = Raise retired \/ exists p, r = Ok p) /\
  (status_of r = 404 -> r = Raise not_found) /\
  (status_of r = 422 -> r = Raise retired) /\
  fst (GET_predict 2 (world serving_system)) = Raise retired.
Proof.
  split; [startup | split; [reflexivity|]].
  apply (predict_route_outcomes [Construct; Load; Bind] serving_system 2).
  - startup.
  - reflexivity.
Defined.

(** C4.  For every record of the engine table whose status is Active
    (units 1 and 5), the prediction response carries [predicted_rul = 45],
    [current_cycle = max_cycles - 45] for the record's [max_cycles], and
    the confidence literal [0.95]. *)
Theorem active_engine_prediction_fields
  (tr : list event) (s : System) (unit_id : Z) (e : value) :
  run initial tr s -> started s = true ->
  In (unit_id, e) (engines (world s)) ->
  getitem e "status" = Ok (VStr "Active") ->
  (unit_id = 1 \/ unit_id = 5) /\
  exists p max_cycles,
    fst (GET_predict unit_id (world s)) = Ok p /\
    getitem e "max_cycles" = Ok (VInt max_cycles) /\
    PredictionResponse.unit_id p = unit_id /\
    PredictionResponse.predicted_rul p = 45 /\
    PredictionResponse.current_cycle p = max_cycles - 45 /\
    PredictionResponse.confidence p = Float64.of_ratio false 95 100.
Proof.
  intros Hrun Hst Hin Hactive.
  rewrite (GET_predict_started tr s unit_id Hrun Hst).
  destruct (phase_invariant_run s tr Hrun) as (He & _ & _). rewrite He in Hin.
  destruct Hin as [H|[H|[H|[]]]]; injection H as <- <-.
  - split; [auto|]. do 2 eexists. repeat split.
  - vm_compute in Hactive. discriminate.
  - split; [auto|]. do 2 eexists. repeat split.
Qed.

Lemma active_engine_prediction_fields_witness :
  run initial [Construct; Load; Bind] serving_system /\
  started serving_system = true /\
  In (1, engine 192 "Active") (engines (world serving_system)) /\
  getitem (engine 192 "Active") "status" = Ok (VStr "Active") /\
  (1 = 1 \/ 1 = 5) /\
  exists p max_cycles,
    fst (GET_predict 1 (world serving_system)) = Ok p /\
    getitem (engine 192 "Active") "max_cycles" = Ok (VInt max_cycles) /\
    PredictionResponse.unit_id p = 1 /\
    PredictionResponse.predicted_rul p = 45 /\
    PredictionResponse.current_cycle p = max_cycles - 45 /\
    PredictionResponse.confidence p = Float64.of_ratio false 95 100.
Proof.
  split; [startup | split; [reflexivity | split; [simpl; auto | split; [reflexivity|]]]].
  apply (active_engine_prediction_fields
           [Construct; Load; Bind] serving_system 1 (engine 192 "Active")).
  - startup.
  - reflexivity.
  - simpl; auto.
  - reflexivity.
Defined.

(* ================================================================== *)
(** * Properties of the trend route *)
(* ================================================================== *)

(** C5.  For every [unit_id] of the engine table the trend response holds,
    in every state of a run, exactly the cycle indices 100 .. 104, the
    fixed list 50, 49, 48, 47, 45 as [rul_trend], and exactly four series,
    for s_2, s_11, s_12 and s_14 with the names and units of the sensor
    table, each with the data 1400, 1402, 1404, 1406, 1408, that is
    [1400 + 2 * i] for [i = 0 .. 4]. *)
Theorem trends_of_known_unit (tr : list event) (s : System) (unit_id : Z) :
  run initial tr s ->
  In unit_id (int_dict_keys FAKE_DB_ENGINES) ->
  exists t raw,
    fst (GET_trends unit_id (world s)) = Ok t /\
    SensorTrendResponse.unit_id t = unit_id /\
    SensorTrendResponse.cycles t = [100; 101; 102; 103; 104] /\
    SensorTrendResponse.rul_trend t = [50; 49; 48; 47; 45] /\
    List.length (SensorTrendResponse.sensors t) = 4%nat /\
    map SensorSeries.sensor_id (SensorTrendResponse.sensors t) =
      ["s_2"; "s_11"; "s_12"; "s_14"] /\
    Forall (fun series =>
              dict_get SENSOR_METADATA (SensorSeries.sensor_id series) =
                Some (sensor (SensorSeries.name series) (SensorSeries.unit series)) /\
              SensorSeries.data series =
                map (fun i => Float64.of_int (1400 + 2 * i)) [0; 1; 2; 3; 4])
           (SensorTrendResponse.sensors t) /\
    rbind (fst (get_trends unit_id (world s))) (fun v => getitem v "sensors") =
      Ok (VList raw) /\
    Forall raw_series raw.
Proof.
  intros Hrun Hin.
  rewrite (GET_trends_run tr s unit_id Hrun).
  rewrite (proj2 (contains_iff_in unit_id) Hin).
  rewrite (world_of_run s tr Hrun).
  destruct Hin as [<-|[<-|[<-|[]]]].
  all: destruct (started s); do 2 eexists; vm_compute; repeat split.
  all: repeat constructor.
Qed.

Lemma trends_of_known_unit_witness :
  run initial [Construct; Load; Bind] serving_system /\
  In 2 (int_dict_keys FAKE_DB_ENGINES) /\
  exists t raw,
    fst (GET_trends 2 (world serving_system)) = Ok t /\
    SensorTrendResponse.unit_id t = 2 /\
    SensorTrendResponse.cycles t = [100; 101; 102; 103; 104] /\
    SensorTrendResponse.rul_trend t = [50; 49; 48; 47; 45] /\
    List.length (SensorTrendResponse.sensors t) = 4%nat /\
    map SensorSeries.sensor_id (SensorTrendResponse.sensors t) =
      ["s_2"; "s_11"; "s_12"; "s_14"] /\
    Forall (fun series =>
              dict_get SENSOR_METADATA (SensorSeries.sensor_id series) =
                Some (sensor (SensorSeries.name series) (SensorSeries.unit series)) /\
              SensorSeries.data series =
                map (fun i => Float64.of_int (1400 + 2 * i)) [0; 1; 2; 3; 4])
           (SensorTrendResponse.sensors t) /\
    rbind (fst (get_trends 2 (world serving_system))) (fun v => getitem v "sensors") =
      Ok (VList raw) /\
    Forall raw_series raw.
Proof.
  split; [startup | split; [simpl; auto|]].
  apply (trends_of_known_unit [Construct; Load; Bind] serving_system 2).
  - startup.
  - simpl; auto.
Defined.

(** C6.  In every state of a run the trend route answers 404 exactly when
    [unit_id] is not a key of the engine table, and returns a trend
    response for every known [unit_id] whatever the engine's status: for
    the retired unit 2 it returns a response and no error. *)
Theorem trends_route_outcomes (tr : list event) (s : System) (unit_id : Z) :
  run initial tr s ->
  let r := fst (GET_trends unit_id (world s)) in
  (status_of r = 404 <-> ~ In unit_id (int_dict_keys FAKE_DB_ENGINES)) /\
  (r = Raise not_found <-> ~ In unit_id (int_dict_keys FAKE_DB_ENGINES)) /\
  (In unit_id (int_dict_keys FAKE_DB_ENGINES) <-> exists t, r = Ok t) /\
  (exists e t, int_dict_lookup FAKE_DB_ENGINES 2 = Some e /\
               getitem e "status" = Ok (VStr "Retired") /\
               fst (GET_trends 2 (world s)) = Ok t).
Proof.
  intros Hrun. cbv zeta. rewrite !(GET_trends_run tr s _ Hrun).
  pose proof (contains_iff_in unit_id) as Hin.
  split; [|split; [|split]].
  - destruct (int_dict_contains FAKE_DB_ENGINES unit_id); simpl.
    + split; [discriminate | intro H; exfalso; apply H, Hin; reflexivity].
    + split; [intros _ H; apply Hin in H; discriminate | reflexivity].
  - destruct (int_dict_contains FAKE_DB_ENGINES unit_id).
    + split; [discriminate | intro H; exfalso; apply H, Hin; reflexivity].
    + split; [intros _ H; apply Hin in H; discriminate | reflexivity].
  - destruct (int_dict_contains FAKE_DB_ENGINES unit_id).
    + split; [intros _; eexists; reflexivity | intros _; apply Hin; reflexivity].
    + split; [intro H; apply Hin in H; discriminate | intros [t Ht]; discriminate].
  - do 2 eexists. repeat split.
Qed.

Lemma trends_route_outcomes_witness :
  run initial [Construct; Load; Bind] serving_system /\
  let r := fst (GET_trends 99 (world serving_system)) in
  (status_of r = 404 <-> ~ In 99 (int_dict_keys FAKE_DB_ENGINES)) /\
  (r = Raise not_found <-> ~ In 99 (int_dict_keys FAKE_DB_ENGINES)) /\
  (In 99 (int_dict_keys FAKE_DB_ENGINES) <-> exists t, r = Ok t) /\
  (exists e t, int_dict_lookup FAKE_DB_ENGINES 2 = Some e /\
               getitem e "status" = Ok (VStr "Retired") /\
               fst (GET_trends 2 (world serving_system)) = Ok t).
Proof.
  split; [startup|].
  apply (trends_route_outcomes [Construct; Load; Bind] serving_system 99).
  startup.
Defined.

(* ================================================================== *)
(** * Probes and the life of the process *)
(* ================================================================== *)



(** C8.  In every state of a run, whatever request is handled, the handler
    leaves the engine table, the sensor table and the application state as
    they were, and the whole process state with them; the engine table is
    the literal one, with exactly the three records of units 1, 2 and 5;
    the model flag changes in no step other than the [load] step of the
    startup hook, and a run contains that step at most once. *)
Theorem handlers_frame_and_static_state (tr : list event) (s : System) (rq : request) :
  run initial tr s ->
  snd (dispatch rq (world s)) = world s /\
  engines (snd (dispatch rq (world s))) = engines (world s) /\
  sensor_metadata (snd (dispatch rq (world s))) = sensor_metadata (world s) /\
  inference_service (snd (dispatch rq (world s))) = inference_service (world s) /\
  (forall s', step s (Handle rq) s' -> s' = s /\ model_flag s' = model_flag s) /\
  engines (world s) = FAKE_DB_ENGINES /\
  sensor_metadata (world s) = SENSOR_METADATA /\
  int_dict_keys (engines (world s)) = [1; 2; 5] /\
  List.length (engines (world s)) = 3%nat /\
  (forall e s', step s e s' -> model_flag s' <> model_flag s ->
                e = Load /\ started s = false) /\
  (loads tr <= 1)%nat.
Proof.
  intro Hrun.
  pose proof (read_only_dispatch rq (world s)) as Hframe.
  destruct (phase_invariant_run s tr Hrun) as (He & Hs & Hp).
  rewrite Hframe, He, Hs.
  do 4 (split; [reflexivity|]).
  split; [|do 4 (split; [reflexivity|]); split].
  - intros s' Hstep. inversion Hstep; subst.
    rewrite Hframe. destruct s; split; reflexivity.
  - intros e s' Hstep Hflag.
    destruct Hstep as [s0 Hpc | s0 svc Hpc Hsvc | s0 svc Hpc Hsvc | s0 Hpc | s0 rq0].
    + exfalso. apply Hflag. unfold model_flag; simpl.
      rewrite Hpc in Hp. destruct Hp as [-> _]. reflexivity.
    + split; [reflexivity|]. unfold started. rewrite Hpc. reflexivity.
    + exfalso. apply Hflag. unfold model_flag; simpl. rewrite Hsvc. reflexivity.
    + exfalso. apply Hflag. reflexivity.
    + exfalso. apply Hflag. reflexivity.
  - rewrite (loads_of_run s tr Hrun). destruct (pc s); lia.
Qed.

Lemma handlers_frame_and_static_state_witness :
  run initial [Construct; Load; Bind] serving_system /\
  snd (dispatch (Predict 1) (world serving_system)) = world serving_system /\
  engines (snd (dispatch (Predict 1) (world serving_system))) = engines (world serving_system) /\
  sensor_metadata (snd (dispatch (Predict 1) (world serving_system))) =
    sensor_metadata (world serving_system) /\
  inference_service (snd (dispatch (Predict 1) (world serving_system))) =
    inference_service (world serving_system) /\
  (forall s', step serving_system (Handle (Predict 1)) s' ->
              s' = serving_system /\ model_flag s' = model_flag serving_system) /\
  engines (world serving_system) = FAKE_DB_ENGINES /\
  sensor_metadata (world serving_system) = SENSOR_METADATA /\
  int_dict_keys (engines (world serving_system)) = [1; 2; 5] /\
  List.length (engines (world serving_system)) = 3%nat /\
  (forall e s', step serving_system e s' -> model_flag s' <> model_flag serving_system ->
                e = Load /\ started serving_system = false) /\
  (loads [Construct; Load; Bind] <= 1)%nat.
Proof.
  split; [startup|].
  apply (handlers_frame_and_static_state [Construct; Load; Bind] serving_system (Predict 1)).
  startup.
Defined.

(** C9.  Responses do not depend on when a request is made: in any two
    states reached after startup, and also right after the same request has
    been handled, a request gets the same status code and the same body.
    The trend data does not depend on the unit asked for either. *)
Theorem responses_are_deterministic
  (tr1 tr2 : list event) (s1 s2 : System) (rq : request) :
  run initial tr1 s1 -> started s1 = true ->
  run initial tr2 s2 -> started s2 = true ->
  fst (dispatch rq (world s1)) = fst (dispatch rq (world s2)) /\
  status_of (fst (dispatch rq (world s1))) = status_of (fst (dispatch rq (world s2))) /\
  fst (dispatch rq (snd (dispatch rq (world s1)))) = fst (dispatch rq (world s1)) /\
  (forall unit_id,
     fst (GET_predict unit_id (world s1)) = fst (GET_predict unit_id (world s2)) /\
     fst (GET_trends unit_id (world s1)) = fst (GET_trends unit_id (world s2))) /\
  fst (GET_engines (world s1)) = fst (GET_engines (world s2)) /\
  (forall u1 u2 t1 t2,
     fst (GET_trends u1 (world s1)) = Ok t1 ->
     fst (GET_trends u2 (world s2)) = Ok t2 ->
     SensorTrendResponse.cycles t1 = SensorTrendResponse.cycles t2 /\
     SensorTrendResponse.rul_trend t1 = SensorTrendResponse.rul_trend t2 /\
     SensorTrendResponse.sensors t1 = SensorTrendResponse.sensors t2).
Proof.
  intros Hrun1 Hst1 Hrun2 Hst2.
  pose proof (world_of_run s1 tr1 Hrun1) as Hw1. rewrite Hst1 in Hw1.
  pose proof (world_of_run s2 tr2 Hrun2) as Hw2. rewrite Hst2 in Hw2.
  rewrite (read_only_dispatch rq (world s1)).
  split; [rewrite Hw1, Hw2; reflexivity|].
  split; [rewrite Hw1, Hw2; reflexivity|].
  split; [reflexivity|].
  split; [intro; rewrite Hw1, Hw2; split; reflexivity|].
  split; [rewrite Hw1, Hw2; reflexivity|].
  intros u1 u2 t1 t2 H1 H2.
  rewrite (GET_trends_run tr1 s1 u1 Hrun1) in H1.
  rewrite (GET_trends_run tr2 s2 u2 Hrun2) in H2.
  destruct (int_dict_contains FAKE_DB_ENGINES u1); [|discriminate].
  destruct (int_dict_contains FAKE_DB_ENGINES u2); [|discriminate].
  injection H1 as <-. injection H2 as <-. repeat split.
Qed.

Lemma responses_are_deterministic_witness :
  run initial [Construct; Load; Bind] serving_system /\
  started serving_system = true /\
  run initial [Construct; Load; Bind; Handle (Predict 5)] serving_system /\
  fst (dispatch (GetTrends 1) (world serving_system)) =
    fst (dispatch (GetTrends 1) (world serving_system)) /\
  status_of (fst (dispatch (GetTrends 1) (world serving_system))) =
    status_of (fst (dispatch (GetTrends 1) (world serving_system))) /\
  fst (dispatch (GetTrends 1) (snd (dispatch (GetTrends 1) (world serving_system)))) =
    fst (dispatch (GetTrends 1) (world serving_system)) /\
  (forall unit_id,
     fst (GET_predict unit_id (world serving_system)) =
       fst (GET_predict unit_id (world serving_system)) /\
     fst (GET_trends unit_id (world serving_system)) =
       fst (GET_trends unit_id (world serving_system))) /\
  fst (GET_engines (world serving_system)) = fst (GET_engines (world serving_system)) /\
  (forall u1 u2 t1 t2,
     fst (GET_trends u1 (world serving_system)) = Ok t1 ->
     fst (GET_trends u2 (world serving_system)) = Ok t2 ->
     SensorTrendResponse.cycles t1 = SensorTrendResponse.cycles t2 /\
     SensorTrendResponse.rul_trend t1 = SensorTrendResponse.rul_trend t2 /\
     SensorTrendResponse.sensors t1 = SensorTrendResponse.sensors t2).
Proof.
  assert (Hlater : run initial [Construct; Load; Bind; Handle (Predict 5)] serving_system).
  { change [Construct; Load; Bind; Handle (Predict 5)]
      with ([Construct; Load; Bind] ++ [Handle (Predict 5)]).
    eapply run_snoc with (s' := serving_system);
      [startup | apply (step_handle serving_system (Predict 5))]. }
  split; [startup | split; [reflexivity | split; [exact Hlater|]]].
  apply (responses_are_deterministic
           [Construct; Load; Bind] [Construct; Load; Bind; Handle (Predict 5)]
           serving_system serving_system (GetTrends 1)).
  - startup.
  - reflexivity.
  - exact Hlater.
  - reflexivity.
Defined.

(* ================================================================== *)
(** * No division by zero *)
(* ================================================================== *)

Lemma round_no_zero_division (f : float) (n : Z) :
  Float64.round f n <> Raise ZeroDivisionError.
Proof.
  unfold Float64.round. destruct f as [s|s| |s m e]; try discriminate.
  destruct (Float64.NDIGITS_MAX <? n); [discriminate|].
  destruct (n <? Float64.NDIGITS_MIN); [discriminate|].
  cbv zeta. destruct (Float64.round_half_even _ _); try discriminate.
  destruct (Float64.is_infinite _); discriminate.
Qed.

Lemma py_round_no_zero_division (v : number) (n : Z) :
  py_round v n <> Raise ZeroDivisionError.
Proof.
  destruct v as [z|f]; simpl.
  - destruct (0 <=? n); discriminate.
  - pose proof (round_no_zero_division f n) as H.
    destruct (Float64.round f n) as [r|x]; simpl; congruence.
Qed.

(** The scoring function divides by zero exactly when it is given zero. *)
Lemma predict_zero_division (self : InferenceService) (max_cycles : Z) :
  predict self max_cycles = Raise ZeroDivisionError <-> max_cycles = 0.
Proof.
  split; [|intros ->; reflexivity].
  unfold predict, int_truediv. cbv zeta.
  destruct max_cycles as [|p|p]; [reflexivity| |]; intro H; exfalso.
  all: destruct (Float64.is_infinite (Float64.of_ratio _ _ _)); [discriminate|].
  all: cbn [rbind] in H; unfold float_mul_int in H.
  all: change (Float64.is_infinite (Float64.of_int 100)) with false in H.
  all: cbv iota in H; cbn [rbind] in H.
  all: match type of H with
       | context [py_round ?v ?n] =>
           pose proof (py_round_no_zero_division v n) as Hr;
           destruct (py_round v n) as [r|x]
       end; cbn [rbind] in H; congruence.
Qed.

(** C10.  Reached through the prediction route, the division of the
    scoring function never divides by zero: in every state of a run each
    record of the engine table stores a [max_cycles] that is at least 150,
    hence positive, the truth test on the looked-up record rejects exactly
    the identifiers that are not keys of the table, the scoring function
    raises [ZeroDivisionError] only for [max_cycles = 0], and the route
    does not raise it for any [unit_id]. *)
Theorem predict_route_never_divides_by_zero (tr : list event) (s : System) (unit_id : Z) :
  run initial tr s ->
  (forall k e, In (k, e) (engines (world s)) ->
     exists max_cycles, getitem e "max_cycles" = Ok (VInt max_cycles) /\
                        150 <= max_cycles /\ 0 < max_cycles) /\
  (negb (truthy (int_dict_get (engines (world s)) unit_id)) = true <->
     ~ In unit_id (int_dict_keys (engines (world s)))) /\
  (forall self max_cycles,
     predict self max_cycles = Raise ZeroDivisionError <-> max_cycles = 0) /\
  fst (predict_rul unit_id (world s)) <> Raise ZeroDivisionError /\
  fst (GET_predict unit_id (world s)) <> Raise ZeroDivisionError.
Proof.
  intro Hrun.
  pose proof (world_of_run s tr Hrun) as Hw.
  destruct (phase_invariant_run s tr Hrun) as (He & _ & _).
  rewrite He.
  split; [|split; [|split; [|split]]].
  - intros k e [H|[H|[H|[]]]]; injection H as <- <-;
      eexists; (split; [reflexivity | lia]).
  - unfold int_dict_get.
    destruct (engines_cases unit_id) as [->|[->|[->|(_ & _ & _ & Hnotin & Hnone)]]].
    1-3: split; [vm_compute; discriminate | intro H; exfalso; apply H; simpl; auto].
    rewrite Hnone. split; [intros _; exact Hnotin | reflexivity].
  - intros self max_cycles. apply predict_zero_division.
  - destruct (engines_cases unit_id) as [->|[->|[->|(_ & _ & _ & Hnotin & Hnone)]]].
    1-3: rewrite Hw; destruct (started s); vm_compute; discriminate.
    rewrite predict_rul_unknown by (rewrite He; exact Hnone). discriminate.
  - destruct (engines_cases unit_id) as [->|[->|[->|(_ & _ & _ & Hnotin & Hnone)]]].
    1-3: rewrite Hw; destruct (started s); vm_compute; discriminate.
    unfold GET_predict, route.
    rewrite predict_rul_unknown by (rewrite He; exact Hnone). discriminate.
Qed.

Lemma predict_route_never_divides_by_zero_witness :
  run initial [Construct; Load; Bind] serving_system /\
  (forall k e, In (k, e) (engines (world serving_system)) ->
     exists max_cycles, getitem e "max_cycles" = Ok (VInt max_cycles) /\
                        150 <= max_cycles /\ 0 < max_cycles) /\
  (negb (truthy (int_dict_get (engines (world serving_system)) 5)) = true <->
     ~ In 5 (int_dict_keys (engines (world serving_system)))) /\
  (forall self max_cycles,
     predict self max_cycles = Raise ZeroDivisionError <-> max_cycles = 0) /\
  fst (predict_rul 5 (world serving_system)) <> Raise ZeroDivisionError /\
  fst (GET_predict 5 (world serving_system)) <> Raise ZeroDivisionError.
Proof.
  split; [startup|].
  apply (predict_route_never_divides_by_zero [Construct; Load; Bind] serving_system 5).
  startup.
Defined.

(* ================================================================== *)
(** * Upper bounds on rounded quotients and products *)
(* ================================================================== *)

Lemma shr_1_double (mrs : shr_record) :
  0 <= shr_m mrs -> shr_m (shr_1 mrs) * 2 <= shr_m mrs.
Proof.
  destruct mrs as [m r s]; simpl.
  destruct m as [|[p|p|]|[p|p|]]; simpl; lia.
Qed.

Lemma shr_iter_mul (n : positive) :
  forall mrs, 0 <= shr_m mrs ->
    shr_m (iter_pos shr_1 n mrs) * 2 ^ Zpos n <= shr_m mrs.
Proof.
  induction n as [n IH|n IH|]; intros mrs H; simpl iter_pos.
  - pose proof (shr_1_bounds mrs H) as [H1 _].
    pose proof (shr_1_double mrs H) as H1'.
    pose proof (IH _ H1) as H2.
    pose proof (shr_iter_bounds n _ H1) as [H2' _].
    pose proof (IH _ H2') as H3.
    replace (Zpos n~1) with (Zpos n + Zpos n + 1) by lia.
    rewrite !Z.pow_add_r by lia. change (2 ^ 1) with 2.
    assert (0 < 2 ^ Zpos n) by (apply Z.pow_pos_nonneg; lia).
    pose proof (shr_iter_bounds n _ H2') as [H4 _].
    nia.
  - pose proof (IH _ H) as H2.
    pose proof (shr_iter_bounds n _ H) as [H2' _].
    pose proof (IH _ H2') as H3.
    replace (Zpos n~0) with (Zpos n + Zpos n) by lia.
    rewrite !Z.pow_add_r by lia.
    assert (0 < 2 ^ Zpos n) by (apply Z.pow_pos_nonneg; lia).
    pose proof (shr_iter_bounds n _ H2') as [H4 _].
    nia.
  - change (2 ^ 1) with 2. apply shr_1_double; assumption.
Qed.

Lemma shr_fexp_scaled (m e : Z) (l : location) :
  0 <= m -> -1200 <= e ->
  let '(mrs, e') := shr_fexp Float64.prec Float64.emax m e l in
  0 <= shr_m mrs <= m /\ e <= e' /\
  scaled (shr_m mrs) e' <= scaled m e /\
  (e' = e \/ e' = fexp Float64.prec Float64.emax (Zdigits2 m + e)).
Proof.
  intros Hm He. unfold shr_fexp, shr, scaled.
  destruct (fexp Float64.prec Float64.emax (Zdigits2 m + e) - e) as [|n|n] eqn:E.
  - rewrite shr_record_of_loc_m. repeat split; lia.
  - pose proof (shr_iter_bounds n (shr_record_of_loc m l)) as H.
    pose proof (shr_iter_mul n (shr_record_of_loc m l)) as H'.
    rewrite shr_record_of_loc_m in H, H'.
    specialize (H Hm). specialize (H' Hm).
    split; [exact H|]. split; [lia|]. split; [|right; lia].
    replace (e + Zpos n + 1200) with (Zpos n + (e + 1200)) by lia.
    rewrite Z.pow_add_r by lia.
    assert (0 < 2 ^ (e + 1200)) by (apply Z.pow_pos_nonneg; lia).
    nia.
  - rewrite shr_record_of_loc_m. repeat split; lia.
Qed.

Lemma binary_round_aux_upper (s : bool) (m e E : Z) (l : location) :
  0 <= m -> -1200 <= e -> e <= E ->
  fexp Float64.prec Float64.emax (Zdigits2 m + e) <= E ->
  match binary_round_aux Float64.prec Float64.emax s m e l with
  | S754_finite _ m2 e2 =>
      e <= e2 /\ Zpos m2 <= m + 1 /\
      scaled (Zpos m2) e2 <= scaled m e + 2 ^ (E + 1200)
  | _ => True
  end.
Proof.
  intros Hm He HE Hf. unfold binary_round_aux.
  pose proof (shr_fexp_scaled m e l Hm He) as H1.
  destruct (shr_fexp Float64.prec Float64.emax m e l) as [mrs' e'].
  destruct H1 as (Hm' & Hee' & Hs' & He').
  pose proof (round_nearest_even_bounds (shr_m mrs') (loc_of_shr_record mrs')) as Hr.
  set (mr := round_nearest_even (shr_m mrs') (loc_of_shr_record mrs')) in *.
  assert (Hmr : 0 <= mr) by lia.
  pose proof (shr_fexp_scaled mr e' loc_Exact Hmr ltac:(lia)) as H2.
  destruct (shr_fexp Float64.prec Float64.emax mr e' loc_Exact) as [mrs'' e''].
  destruct H2 as (Hm'' & Hee'' & Hs'' & _).
  destruct (shr_m mrs'') as [|p|p] eqn:Em; try exact I.
  destruct (e'' <=? Float64.emax - Float64.prec); [|exact I].
  split; [lia|]. split; [lia|].
  unfold scaled in *.
  assert (0 < 2 ^ (e' + 1200)) by (apply Z.pow_pos_nonneg; lia).
  assert (2 ^ (e' + 1200) <= 2 ^ (E + 1200)) by (apply Z.pow_le_mono_r; lia).
  nia.
Qed.

Lemma quotient_upper (den : positive) :
  151 <= Zpos den ->
  match Float64.of_ratio false 45 den with
  | S754_zero s => s = false
  | S754_finite s mq eq =>
      s = false /\ -1074 <= eq /\ Zpos mq < 2 ^ 55 /\
      151 * scaled (Zpos mq) eq <= 45 * 2 ^ 1200 + 151 * 2 ^ 1146
  | _ => False
  end.
Proof.
  intro Hden.
  pose proof (of_ratio_shape false 45 den ltac:(vm_compute; reflexivity)) as (Hn & Hi & Hs).
  revert Hn Hi Hs.
  unfold Float64.of_ratio, SFdiv_core_binary.
  set (d2 := Zdigits2 (Zpos den)).
  change (Zdigits2 45) with 6.
  assert (Hd2 : 8 <= d2).
  { destruct (Z_lt_ge_dec d2 8) as [Hlt|]; [|lia]. exfalso.
    pose proof (Zdigits2_lower den) as Hl. fold d2 in Hl.
    assert (Hup : Zpos den < 2 ^ d2).
    { unfold d2. cbn [Zdigits2]. rewrite digits2_pos_size.
      pose proof (Pos.size_gt den) as G.
      apply Pos2Z.pos_lt_pos in G. rewrite Pos2Z.inj_pow in G. exact G. }
    assert (2 ^ d2 <= 2 ^ 7) by (apply Z.pow_le_mono_r; lia).
    change (2 ^ 7) with 128 in *. lia. }
  pose proof (Zdigits2_lower den) as Hlow. fold d2 in Hlow.
  rewrite !Z.add_0_r, Z.sub_0_r, Z.sub_0_l.
  set (e' := Z.min (fexp Float64.prec Float64.emax (6 - d2)) 0).
  assert (He' : -1074 <= e' <= -55 /\ - e' <= d2 + 47).
  { unfold e'. rewrite fexp_eq. lia. }
  set (m' := match - e' with Z0 => 45 | Zpos _ => Z.shiftl 45 (- e') | Zneg _ => 0 end).
  assert (Hm' : m' = 45 * 2 ^ (- e')).
  { unfold m'. destruct (- e') as [|p|p] eqn:E; try lia.
    rewrite Z.shiftl_mul_pow2 by lia. reflexivity. }
  clearbody m'.
  pose proof (Z_div_mod m' (Zpos den) ltac:(lia)) as Hdm.
  destruct (Z.div_eucl m' (Zpos den)) as [q r]. destruct Hdm as [Hq Hr].
  assert (Hpow : 0 < 2 ^ (- e')) by (apply Z.pow_pos_nonneg; lia).
  assert (Hq0 : 0 <= q) by nia.
  assert (Hqden : q * Zpos den <= 45 * 2 ^ (- e')) by nia.
  (* the quotient has at most 54 bits *)
  assert (Hq54 : q < 2 ^ 54).
  { assert (Hp1 : 0 < 2 ^ (d2 - 1)) by (apply Z.pow_pos_nonneg; lia).
    assert (Hp2 : 2 ^ (- e') <= 2 ^ (d2 + 47)) by (apply Z.pow_le_mono_r; lia).
    replace (d2 + 47) with (48 + (d2 - 1)) in Hp2 by lia.
    rewrite Z.pow_add_r in Hp2 by lia.
    assert (q * 2 ^ (d2 - 1) <= 45 * (2 ^ 48 * 2 ^ (d2 - 1))) by nia.
    assert (q <= 45 * 2 ^ 48) by nia.
    assert (45 * 2 ^ 48 < 2 ^ 54) by (vm_compute; reflexivity). lia. }
  (* and its value is below one half *)
  assert (Hqhalf : q < 2 ^ (- e' - 1)).
  { replace (- e') with (Z.succ (- e' - 1)) in Hqden by lia.
    rewrite Z.pow_succ_r in Hqden by lia.
    assert (0 < 2 ^ (- e' - 1)) by (apply Z.pow_pos_nonneg; lia).
    nia. }
  assert (Hdig : Zdigits2 q <= - e' - 1) by (apply Zdigits2_upper; lia).
  pose proof (binary_round_aux_upper false q e' (-54)
                (new_location (Zpos den) r) Hq0 ltac:(lia) ltac:(lia)) as Hup.
  rewrite fexp_eq in Hup. specialize (Hup ltac:(lia)).
  destruct (binary_round_aux Float64.prec Float64.emax false q e'
              (new_location (Zpos den) r)) as [s|s| |s mq eq];
    cbn [Float64.is_nan Float64.is_infinite Float64.sign];
    intros Hn Hi Hs; try discriminate; try assumption.
  destruct Hup as (Hee & Hmq & Hsc).
  split; [assumption|]. split; [lia|]. split.
  { assert (2 ^ 54 < 2 ^ 55) by (vm_compute; reflexivity). lia. }
  unfold scaled in *.
  replace (-54 + 1200) with 1146 in Hsc by lia.
  assert (Hq2 : 151 * (q * 2 ^ (e' + 1200)) <= 45 * 2 ^ 1200).
  { assert (Hsplit : 2 ^ 1200 = 2 ^ (- e') * 2 ^ (e' + 1200)).
    { rewrite <- Z.pow_add_r by lia. f_equal. lia. }
    rewrite Hsplit.
    assert (0 < 2 ^ (e' + 1200)) by (apply Z.pow_pos_nonneg; lia).
    nia. }
  lia.
Qed.

Lemma product_upper (q : float) :
  match q with
  | S754_zero s => s = false
  | S754_finite s mq eq =>
      s = false /\ -1074 <= eq /\ Zpos mq < 2 ^ 55 /\
      151 * scaled (Zpos mq) eq <= 45 * 2 ^ 1200 + 151 * 2 ^ 1146
  | _ => False
  end ->
  match Float64.mul q (Float64.of_int 100) with
  | S754_zero s => s = false
  | S754_finite s mp ep =>
      s = false /\ -1200 <= ep /\ 10 * scaled (Zpos mp) ep < 299 * 2 ^ 1200
  | _ => False
  end.
Proof.
  destruct q as [s|s| |s mq eq]; try contradiction.
  - intros ->. reflexivity.
  - intros (-> & Heq & Hmq & Hsc).
    change (Float64.mul (S754_finite false mq eq) (Float64.of_int 100))
      with (binary_round_aux Float64.prec Float64.emax false
              (Zpos (mq * 7036874417766400)) (eq + -46) loc_Exact).
    set (m := Zpos (mq * 7036874417766400)).
    set (e := eq + -46).
    assert (Hm : m = Zpos mq * (100 * 2 ^ 46)) by (unfold m; rewrite Pos2Z.inj_mul; reflexivity).
    assert (Hpq : 0 < 2 ^ (eq + 1200)) by (apply Z.pow_pos_nonneg; lia).
    unfold scaled in Hsc.
    assert (Heq2 : eq <= -2).
    { assert (H1 : 2 ^ (eq + 1200) < 2 ^ 1199).
      { assert (151 * 2 ^ (eq + 1200) <= 151 * (Zpos mq * 2 ^ (eq + 1200))) by nia.
        assert (45 * 2 ^ 1200 + 151 * 2 ^ 1146 < 151 * 2 ^ 1199) by (vm_compute; reflexivity).
        lia. }
      apply Z.pow_lt_mono_r_iff in H1; lia. }
    assert (Hscaled : scaled m e = 100 * (Zpos mq * 2 ^ (eq + 1200))).
    { unfold scaled, e. rewrite Hm.
      replace (eq + 1200) with (46 + (eq + -46 + 1200)) by lia.
      rewrite (Z.pow_add_r 2 46) by lia. ring. }
    assert (Hebnd : -1120 <= e <= -48) by (unfold e; lia).
    assert (Hpe : 0 < 2 ^ (e + 1200)) by (apply Z.pow_pos_nonneg; lia).
    assert (Hm32 : m < 2 ^ (5 - e)).
    { assert (H1 : m * 2 ^ (e + 1200) < 2 ^ (5 - e) * 2 ^ (e + 1200)).
      { rewrite <- Z.pow_add_r by lia.
        replace (5 - e + (e + 1200)) with 1205 by lia.
        fold (scaled m e). rewrite Hscaled.
        assert (100 * (45 * 2 ^ 1200 + 151 * 2 ^ 1146) < 151 * 2 ^ 1205)
          by (vm_compute; reflexivity).
        lia. }
      nia. }
    assert (Hm0 : 0 <= m) by (unfold m; lia).
    assert (Hdig : Zdigits2 m <= 5 - e) by (apply Zdigits2_upper; lia).
    assert (Hm108 : m < 2 ^ 108).
    { rewrite Hm. assert (100 * 2 ^ 46 < 2 ^ 53) by (vm_compute; reflexivity).
      assert (2 ^ 55 * 2 ^ 53 = 2 ^ 108) by (vm_compute; reflexivity). nia. }
    pose proof (binary_round_aux_shape false m e loc_Exact 108
                  ltac:(lia) ltac:(lia) ltac:(lia) ltac:(lia) ltac:(lia))
      as (Hn & Hi & Hs).
    pose proof (binary_round_aux_upper false m e (-48) loc_Exact Hm0
                  ltac:(lia) ltac:(lia)) as Hup.
    rewrite fexp_eq in Hup. specialize (Hup ltac:(lia)).
    destruct (binary_round_aux Float64.prec Float64.emax false m e loc_Exact)
      as [s|s| |s mp ep];
      cbn [Float64.is_nan Float64.is_infinite Float64.sign] in Hn, Hi, Hs;
      try discriminate; try assumption.
    destruct Hup as (Hee & _ & Hup).
    split; [assumption|]. split; [lia|].
    rewrite Hscaled in Hup.
    replace (-48 + 1200) with 1152 in Hup by lia.
    assert (1000 * (45 * 2 ^ 1200 + 151 * 2 ^ 1146) + 1510 * 2 ^ 1152
            < 151 * (299 * 2 ^ 1200)) by (vm_compute; reflexivity).
    unfold scaled in *. lia.
Qed.

Lemma forallb_range (f : Z -> bool) (lo len : nat) :
  forallb f (map Z.of_nat (seq lo len)) = true ->
  forall z, Z.of_nat lo <= z < Z.of_nat (lo + len) -> f z = true.
Proof.
  intros H z Hz. rewrite forallb_forall in H. apply H.
  apply in_map_iff. exists (Z.to_nat z). split; [lia|].
  apply in_seq. lia.
Qed.

Lemma hundredths_below_30 (n : Z) : 1 <= n <= 2990 -> hundredth_ok n = true.
Proof.
  intro Hn. apply (forallb_range hundredth_ok 1 2990); [vm_compute; reflexivity | lia].
Qed.

Lemma scoring_ok_small (max_cycles : Z) :
  1 <= max_cycles <= 150 -> scoring_ok max_cycles = true.
Proof.
  intro Hn. apply (forallb_range scoring_ok 1 150); [vm_compute; reflexivity | lia].
Qed.

Lemma scaled_below (m : positive) (e z : Z) :
  -1200 <= e -> scaled (Zpos m) e < z * 2 ^ 1200 ->
  Float64.compare_int (S754_finite false m e) z = Some Lt.
Proof.
  intros He H. unfold scaled in H. unfold Float64.compare_int.
  assert (Hp : 0 < 2 ^ (e + 1200)) by (apply Z.pow_pos_nonneg; lia).
  destruct (Z.leb_spec 0 e) as [H0|H0]; f_equal; apply Z.compare_lt_iff.
  - replace (e + 1200) with (1200 + e) in H by lia.
    rewrite Z.pow_add_r in H by lia.
    assert (0 < 2 ^ 1200) by (vm_compute; reflexivity). nia.
  - assert (Hs : 2 ^ 1200 = 2 ^ (- e) * 2 ^ (e + 1200)).
    { rewrite <- Z.pow_add_r by lia. f_equal. lia. }
    rewrite Hs in H. nia.
Qed.

Lemma round_2_small (m : positive) (e : Z) :
  -1200 <= e -> 10 * scaled (Zpos m) e < 299 * 2 ^ 1200 ->
  exists f, Float64.round (S754_finite false m e) 2 = Ok f /\
            py_le (NInt 0) (NFloat f) = true /\ py_le (NFloat f) (NInt 100) = true /\
            py_lt (NFloat f) (NInt 30) = true.
Proof.
  intros He H. rewrite round_2_finite.
  assert (Hn : 0 <= Float64.round_half_even (Zpos m * 2 ^ Z.max e 0 * 100)
                      (2 ^ Z.max (- e) 0 * 1) <= 2990).
  { unfold scaled in H.
    assert (Hp : 0 < 2 ^ (e + 1200)) by (apply Z.pow_pos_nonneg; lia).
    destruct (Z.leb_spec 0 e) as [H0|H0].
    - rewrite Z.max_l, Z.max_r by lia. rewrite Z.pow_0_r.
      replace (e + 1200) with (1200 + e) in H by lia.
      rewrite Z.pow_add_r in H by lia.
      assert (0 < 2 ^ 1200) by (vm_compute; reflexivity).
      assert (0 < 2 ^ e) by (apply Z.pow_pos_nonneg; lia).
      apply round_half_even_upper; nia.
    - rewrite Z.max_r, Z.max_l by lia. rewrite Z.pow_0_r.
      assert (Hs : 2 ^ 1200 = 2 ^ (- e) * 2 ^ (e + 1200)).
      { rewrite <- Z.pow_add_r by lia. f_equal. lia. }
      rewrite Hs in H.
      assert (0 < 2 ^ (- e)) by (apply Z.pow_pos_nonneg; lia).
      apply round_half_even_upper; nia. }
  destruct (Float64.round_half_even _ _) as [|n|n] eqn:E.
  - eexists; repeat split; reflexivity.
  - pose proof (hundredths_below_30 (Zpos n) ltac:(lia)) as Hok.
    unfold hundredth_ok in Hok. cbv zeta in Hok. change (Z.to_pos (Zpos n)) with n in Hok.
    apply andb_prop in Hok. destruct Hok as [Hi Hok].
    apply andb_prop in Hok. destruct Hok as [Hr H30].
    apply andb_prop in Hr. destruct Hr as [H0 H100].
    apply negb_true_iff in Hi. rewrite Hi.
    eexists; repeat split; assumption.
  - lia.
Qed.

Lemma predict_large (self : InferenceService) (max_cycles : Z) :
  151 <= max_cycles ->
  exists v f,
    predict self max_cycles =
      Ok (dict_display [ ("predicted_rul", VInt 45); ("health_score", v);
                         ("risk_level", VStr "High");
                         ("confidence", VFloat float_0_95) ]) /\
    Schema.float v = Ok f /\
    py_le (NInt 0) (NFloat f) = true /\ py_le (NFloat f) (NInt 100) = true /\
    py_lt (NFloat f) (NInt 30) = true.
Proof.
  intro Hmc. destruct max_cycles as [|den|den]; try lia.
  pose proof (quotient_upper den Hmc) as Hq.
  pose proof (of_ratio_shape false 45 den ltac:(vm_compute; reflexivity)) as (_ & Hqi & _).
  unfold predict. cbv zeta.
  change (int_truediv 45 (Zpos den))
    with (if Float64.is_infinite (Float64.of_ratio false 45 den)
          then Raise OverflowError else Ok (Float64.of_ratio false 45 den)).
  rewrite Hqi. cbn [rbind].
  change (float_mul_int (Float64.of_ratio false 45 den) 100)
    with (Ok (Float64.mul (Float64.of_ratio false 45 den) (Float64.of_int 100))).
  cbn [rbind].
  pose proof (product_upper _ Hq) as Hp.
  destruct (Float64.mul (Float64.of_ratio false 45 den) (Float64.of_int 100))
    as [s|s| |s mp ep]; try contradiction.
  - subst s. exists (VInt 0), (S754_zero false). repeat split.
  - destruct Hp as (-> & Hep & Hsc).
    assert (H100 : Float64.compare_int (S754_finite false mp ep) 100 = Some Lt).
    { apply scaled_below; [assumption|].
      assert (299 * 2 ^ 1200 < 10 * (100 * 2 ^ 1200)) by (vm_compute; reflexivity). lia. }
    assert (H30 : Float64.compare_int (S754_finite false mp ep) 30 = Some Lt).
    { apply scaled_below; [assumption|].
      assert (299 * 2 ^ 1200 < 10 * (30 * 2 ^ 1200)) by (vm_compute; reflexivity). lia. }
    destruct (round_2_small mp ep Hep Hsc) as (f & Hround & Hf0 & Hf100 & Hf30).
    assert (Hmin : py_min (NInt 100) (NFloat (S754_finite false mp ep)) =
                   NFloat (S754_finite false mp ep)).
    { unfold py_min, py_lt, number_compare. rewrite H100. reflexivity. }
    rewrite Hmin.
    assert (Hmax : py_max (NInt 0) (NFloat (S754_finite false mp ep)) =
                   NFloat (S754_finite false mp ep)).
    { unfold py_max, py_gt, number_compare. rewrite compare_int_finite_0. reflexivity. }
    rewrite Hmax.
    assert (Hlt : py_lt (NFloat (S754_finite false mp ep)) (NInt 30) = true).
    { unfold py_lt, number_compare. rewrite H30. reflexivity. }
    rewrite Hlt. unfold py_round. rewrite Hround. cbn [rbind value_of_number].
    exists (VFloat f), f. repeat split; assumption.
Qed.

Lemma expected_level_large (max_cycles : Z) :
  151 <= max_cycles -> expected_level max_cycles = "High".
Proof.
  intro H. unfold expected_level.
  destruct (Z.leb_spec max_cycles 64); [lia|].
  destruct (Z.leb_spec max_cycles 150); [lia|]. reflexivity.
Qed.

Lemma scoring_ok_positive (max_cycles : Z) :
  0 < max_cycles -> scoring_ok max_cycles = true.
Proof.
  intro Hpos. destruct (Z_le_gt_dec max_cycles 150) as [Hs|Hl].
  - apply scoring_ok_small. lia.
  - destruct (predict_large loaded_service max_cycles ltac:(lia))
      as (v & f & Hp & Hv & H0 & H100 & H30).
    unfold scoring_ok. rewrite Hp.
    change (dict_get (dict_display [ ("predicted_rul", VInt 45); ("health_score", v);
                         ("risk_level", VStr "High");
                         ("confidence", VFloat float_0_95) ]) "health_score")
      with (Some v).
    change (dict_get (dict_display [ ("predicted_rul", VInt 45); ("health_score", v);
                         ("risk_level", VStr "High");
                         ("confidence", VFloat float_0_95) ]) "risk_level")
      with (Some (VStr "High")).
    cbv iota. rewrite Hv, H0, H100.
    rewrite expected_level_large by lia.
    unfold level_of_score. rewrite H30. reflexivity.
Qed.

Lemma compare_int_lt_mono (f : float) (z z' : Z) :
  Float64.compare_int f z = Some Lt -> z <= z' ->
  Float64.compare_int f z' = Some Lt.
Proof.
  destruct f as [s|s| |s m e]; unfold Float64.compare_int; intros H Hz.
  - f_equal. apply Z.compare_lt_iff.
    assert (H' : (0 ?= z) = Lt) by congruence.
    pose proof (proj1 (Z.compare_lt_iff _ _) H'). lia.
  - exact H.
  - discriminate.
  - destruct (0 <=? e).
    + f_equal. apply Z.compare_lt_iff.
      assert (H' : ((if s then Zneg m else Zpos m) * 2 ^ e ?= z) = Lt) by congruence.
      pose proof (proj1 (Z.compare_lt_iff _ _) H'). lia.
    + f_equal. apply Z.compare_lt_iff.
      assert (H' : ((if s then Zneg m else Zpos m) ?= z * 2 ^ (- e)) = Lt) by congruence.
      pose proof (proj1 (Z.compare_lt_iff _ _) H').
      assert (0 <= 2 ^ (- e)) by (apply Z.pow_nonneg; lia). nia.
Qed.

Lemma py_lt_int_mono (f : float) (z z' : Z) :
  py_lt (NFloat f) (NInt z) = true -> z <= z' -> py_lt (NFloat f) (NInt z') = true.
Proof.
  unfold py_lt, number_compare. intros H Hz.
  destruct (Float64.compare_int f z) as [[| |]|] eqn:E; try discriminate.
  rewrite (compare_int_lt_mono f z z' E Hz). reflexivity.
Qed.

(** What [predict] returns when it returns. *)
Lemma predict_shape (self : InferenceService) (max_cycles : Z) (d : dict) :
  predict self max_cycles = Ok d ->
  exists v level,
    d = dict_display [ ("predicted_rul", VInt 45); ("health_score", v);
                       ("risk_level", VStr level); ("confidence", VFloat float_0_95) ] /\
    (level = "High" \/ level = "Medium" \/ level = "Low").
Proof.
  unfold predict. cbv zeta.
  destruct (int_truediv 45 max_cycles) as [q|x]; [|discriminate]. cbn [rbind].
  destruct (float_mul_int q 100) as [p|x]; [|discriminate]. cbn [rbind].
  destruct (py_round _ 2) as [r|x]; [|discriminate]. cbn [rbind].
  intro H. injection H as <-. do 2 eexists. split; [reflexivity|].
  destruct (py_lt _ (NInt 30)); [auto|].
  destruct (py_lt _ (NInt 70)); auto.
Qed.

Lemma scoring_facts (self : InferenceService) (max_cycles : Z) :
  0 < max_cycles ->
  exists v f,
    predict self max_cycles =
      Ok (dict_display [ ("predicted_rul", VInt 45); ("health_score", v);
                         ("risk_level", VStr (expected_level max_cycles));
                         ("confidence", VFloat float_0_95) ]) /\
    Schema.float v = Ok f /\
    py_le (NInt 0) (NFloat f) = true /\ py_le (NFloat f) (NInt 100) = true /\
    level_of_score f = expected_level max_cycles.
Proof.
  intro Hpos. pose proof (scoring_ok_positive max_cycles Hpos) as Hok.
  unfold scoring_ok in Hok.
  change (predict loaded_service max_cycles) with (predict self max_cycles) in Hok.
  destruct (predict self max_cycles) as [d|x] eqn:Hp; [|discriminate].
  destruct (predict_shape self max_cycles d Hp) as (v & level & -> & _).
  change (dict_get (dict_display [ ("predicted_rul", VInt 45); ("health_score", v);
                       ("risk_level", VStr level); ("confidence", VFloat float_0_95) ])
                   "health_score") with (Some v) in Hok.
  change (dict_get (dict_display [ ("predicted_rul", VInt 45); ("health_score", v);
                       ("risk_level", VStr level); ("confidence", VFloat float_0_95) ])
                   "risk_level") with (Some (VStr level)) in Hok.
  cbv iota in Hok.
  destruct (Schema.float v) as [f|x] eqn:Hv; [|discriminate].
  apply andb_prop in Hok. destruct Hok as [Hr Hl].
  apply andb_prop in Hr. destruct Hr as [H0 H100].
  apply andb_prop in Hl. destruct Hl as [He Ha].
  apply String.eqb_eq in He. apply String.eqb_eq in Ha. subst level.
  exists v, f. repeat split; assumption.
Qed.

(* ================================================================== *)
(** * The scoring function on every cycle count *)
(* ================================================================== *)

(** X1.  For every positive [max_cycles], not only those of the table, the
    scoring function returns a score that passes the schema's bounds
    [ge=0, le=100], and the level it returns is the bucket of that
    returned, rounded score: rounding never moves a score across 30 or 70. *)
Theorem score_in_range_and_level_of_returned_score
  (self : InferenceService) (max_cycles : Z) :
  0 < max_cycles ->
  exists v level f,
    predict self max_cycles = Ok (scoring v level) /\
    Schema.float v = Ok f /\
    Schema.ge_le 0 100 f = Ok f /\
    level = level_of_score f.
Proof.
  intro Hpos.
  destruct (scoring_facts self max_cycles Hpos) as (v & f & Hp & Hv & H0 & H100 & Hl).
  exists v, (expected_level max_cycles), f.
  split; [exact Hp | split; [exact Hv | split; [|symmetry; exact Hl]]].
  unfold Schema.ge_le. rewrite H0, H100. reflexivity.
Qed.

Lemma score_in_range_and_level_of_returned_score_witness :
  0 < 1000003 /\
  exists v level f,
    predict loaded_service 1000003 = Ok (scoring v level) /\
    Schema.float v = Ok f /\
    Schema.ge_le 0 100 f = Ok f /\
    level = level_of_score f.
Proof.
  split; [lia|].
  apply (score_in_range_and_level_of_returned_score loaded_service 1000003). lia.
Defined.

(** X2.  The level is decided by the cycle count alone: Low up to 64
    cycles, Medium from 65 to 150, High from 151 on, for every positive
    [max_cycles]. *)
Theorem level_by_max_cycles (self : InferenceService) (max_cycles : Z) :
  0 < max_cycles ->
  exists v,
    predict self max_cycles = Ok (scoring v (expected_level max_cycles)) /\
    (max_cycles <= 64 -> expected_level max_cycles = "Low") /\
    (65 <= max_cycles <= 150 -> expected_level max_cycles = "Medium") /\
    (151 <= max_cycles -> expected_level max_cycles = "High").
Proof.
  intro Hpos.
  destruct (scoring_facts self max_cycles Hpos) as (v & f & Hp & _).
  exists v. split; [exact Hp|]. unfold expected_level.
  destruct (Z.leb_spec max_cycles 64); destruct (Z.leb_spec max_cycles 150);
    repeat split; intros; try reflexivity; lia.
Qed.

Lemma level_by_max_cycles_witness :
  0 < 151 /\
  exists v,
    predict loaded_service 151 = Ok (scoring v (expected_level 151)) /\
    (151 <= 64 -> expected_level 151 = "Low") /\
    (65 <= 151 <= 150 -> expected_level 151 = "Medium") /\
    (151 <= 151 -> expected_level 151 = "High").
Proof.
  split; [lia | apply (level_by_max_cycles loaded_service 151); lia].
Defined.

Lemma clamp_ok_small (max_cycles : Z) :
  1 <= max_cycles <= 150 -> clamp_ok max_cycles = true.
Proof.
  intro Hn. apply (forallb_range clamp_ok 1 150); [vm_compute; reflexivity | lia].
Qed.

(** X3.  The upper clamp is reached exactly up to 45 cycles: for a positive
    [max_cycles] of at most 45 the returned score is the integer 100 that
    [min] hands back, and for every larger count the score is below 100. *)
Theorem full_score_up_to_45_cycles (self : InferenceService) (max_cycles : Z) :
  0 < max_cycles ->
  exists v level f,
    predict self max_cycles = Ok (scoring v level) /\
    Schema.float v = Ok f /\
    (max_cycles <= 45 -> v = VInt 100) /\
    (45 < max_cycles -> py_lt (NFloat f) (NInt 100) = true).
Proof.
  intro Hpos. destruct (Z_le_gt_dec max_cycles 150) as [Hs|Hl].
  - pose proof (clamp_ok_small max_cycles ltac:(lia)) as Hok.
    unfold clamp_ok in Hok.
    change (predict loaded_service max_cycles) with (predict self max_cycles) in Hok.
    destruct (predict self max_cycles) as [d|x] eqn:Hp; [|discriminate].
    destruct (predict_shape self max_cycles d Hp) as (v & level & -> & _).
    change (dict_get _ "health_score") with (Some v) in Hok. cbv iota in Hok.
    destruct (scoring_facts self max_cycles Hpos) as (v' & f & Hp' & Hv' & _).
    rewrite Hp in Hp'. injection Hp' as Hv _. subst v'.
    exists v, level, f. split; [reflexivity | split; [exact Hv'|]].
    destruct (Z.leb_spec max_cycles 45).
    + split; [|lia]. intros _.
      destruct v as [ | | z | | | | ]; try discriminate.
      destruct z as [|p|p]; try discriminate.
      assert (E : p = 100%positive).
      { revert Hok. clear.
        do 7 (try (destruct p as [p|p|]; try (intro H; discriminate H))).
        intros _. reflexivity. }
      subst p. reflexivity.
    + split; [lia|]. intros _. rewrite Hv' in Hok. exact Hok.
  - destruct (predict_large self max_cycles ltac:(lia))
      as (v & f & Hp & Hv & _ & _ & H30).
    exists v, "High", f. split; [exact Hp | split; [exact Hv|]].
    split; [lia|]. intros _. apply (py_lt_int_mono f 30 100 H30). lia.
Qed.

Lemma full_score_up_to_45_cycles_witness :
  0 < 45 /\
  exists v level f,
    predict loaded_service 45 = Ok (scoring v level) /\
    Schema.float v = Ok f /\
    (45 <= 45 -> v = VInt 100) /\
    (45 < 45 -> py_lt (NFloat f) (NInt 100) = true).
Proof.
  split; [lia | apply (full_score_up_to_45_cycles loaded_service 45); lia].
Defined.

Lemma clamp_negative (p : float) :
  Float64.is_nan p = false -> Float64.sign p = true ->
  py_max (NInt 0) (py_min (NInt 100) (NFloat p)) = NInt 0.
Proof.
  intros Hn Hs. destruct p as [s|s| |s m e]; try discriminate;
    cbn [Float64.sign] in Hs; subst s; try reflexivity.
  assert (H100 : Float64.compare_int (S754_finite true m e) 100 = Some Lt).
  { unfold Float64.compare_int. destruct (Z.leb_spec 0 e); f_equal;
      apply Z.compare_lt_iff.
    - assert (0 < 2 ^ e) by (apply Z.pow_pos_nonneg; lia). nia.
    - assert (0 < 2 ^ (- e)) by (apply Z.pow_pos_nonneg; lia). nia. }
  assert (H0 : Float64.compare_int (S754_finite true m e) 0 = Some Lt).
  { unfold Float64.compare_int. destruct (Z.leb_spec 0 e); f_equal;
      try reflexivity.
    apply Z.compare_lt_iff.
    assert (0 < 2 ^ e) by (apply Z.pow_pos_nonneg; lia). nia. }
  unfold py_max, py_min, py_lt, py_gt, number_compare.
  rewrite H100. rewrite H0. reflexivity.
Qed.

(** X4.  A negative [max_cycles] is not rejected: the quotient is negative,
    the lower clamp applies, and the scoring function returns the integer
    score 0 with level High. *)
Theorem predict_negative_max_cycles (self : InferenceService) (max_cycles : Z) :
  max_cycles < 0 ->
  predict self max_cycles = Ok (scoring (VInt 0) "High").
Proof.
  intro Hneg. destruct max_cycles as [|den|den]; try lia.
  pose proof (of_ratio_shape true 45 den ltac:(vm_compute; reflexivity)) as (Hqn & Hqi & Hqs).
  unfold predict. cbv zeta.
  change (int_truediv 45 (Zneg den))
    with (if Float64.is_infinite (Float64.of_ratio true 45 den)
          then Raise OverflowError else Ok (Float64.of_ratio true 45 den)).
  rewrite Hqi. cbn [rbind].
  change (float_mul_int (Float64.of_ratio true 45 den) 100)
    with (Ok (Float64.mul (Float64.of_ratio true 45 den) (Float64.of_int 100))).
  cbn [rbind].
  assert (Hp : Float64.is_nan (Float64.mul (Float64.of_ratio true 45 den)
                                           (Float64.of_int 100)) = false /\
               Float64.sign (Float64.mul (Float64.of_ratio true 45 den)
                                         (Float64.of_int 100)) = true).
  { destruct (Float64.of_ratio true 45 den) as [s|s| |s m e]; try discriminate;
      cbn [Float64.sign] in Hqs; subst s.
    - split; reflexivity.
    - apply (binary_round_aux_sign true). lia. }
  destruct Hp as [Hpn Hps].
  rewrite (clamp_negative _ Hpn Hps). reflexivity.
Qed.

Lemma predict_negative_max_cycles_witness :
  -7 < 0 /\ predict loaded_service (-7) = Ok (scoring (VInt 0) "High").
Proof.
  split; [lia | apply (predict_negative_max_cycles loaded_service (-7)); lia].
Defined.

(* ================================================================== *)
(** * The returned score against the exact score *)
(* ================================================================== *)

(** Rounding to nearest loses at most three units of the last place kept,
    in either direction; with [binary_round_aux_upper] this bounds the
    error of the quotient and of the product on both sides. *)
Lemma shr_1_lower (mrs : shr_record) :
  0 <= shr_m mrs -> shr_m mrs <= 2 * shr_m (shr_1 mrs) + 1.
Proof.
  destruct mrs as [m r s]; simpl.
  destruct m as [|[p|p|]|[p|p|]]; simpl; lia.
Qed.

Lemma shr_iter_lower (n : positive) :
  forall mrs, 0 <= shr_m mrs ->
    shr_m mrs < (shr_m (iter_pos shr_1 n mrs) + 1) * 2 ^ Zpos n.
Proof.
  induction n as [n IH|n IH|]; intros mrs H; simpl iter_pos.
  - pose proof (shr_1_bounds mrs H) as [H1 _].
    pose proof (shr_1_lower mrs H) as H1'.
    pose proof (IH _ H1) as H2.
    pose proof (shr_iter_bounds n _ H1) as [H2' _].
    pose proof (IH _ H2') as H3.
    replace (Zpos n~1) with (Zpos n + Zpos n + 1) by lia.
    rewrite !Z.pow_add_r by lia. change (2 ^ 1) with 2.
    assert (0 < 2 ^ Zpos n) by (apply Z.pow_pos_nonneg; lia).
    nia.
  - pose proof (IH _ H) as H2.
    pose proof (shr_iter_bounds n _ H) as [H2' _].
    pose proof (IH _ H2') as H3.
    replace (Zpos n~0) with (Zpos n + Zpos n) by lia.
    rewrite !Z.pow_add_r by lia.
    assert (0 < 2 ^ Zpos n) by (apply Z.pow_pos_nonneg; lia).
    nia.
  - change (2 ^ 1) with 2. pose proof (shr_1_lower mrs H). lia.
Qed.

Lemma shr_fexp_lower (m e : Z) (l : location) :
  0 <= m -> -1200 <= e ->
  let '(mrs, e') := shr_fexp Float64.prec Float64.emax m e l in
  scaled m e < scaled (shr_m mrs + 1) e'.
Proof.
  intros Hm He. unfold shr_fexp, shr, scaled.
  assert (Hp : 0 < 2 ^ (e + 1200)) by (apply Z.pow_pos_nonneg; lia).
  destruct (fexp Float64.prec Float64.emax (Zdigits2 m + e) - e) as [|n|n] eqn:E.
  - rewrite shr_record_of_loc_m. clear E. lia.
  - pose proof (shr_iter_lower n (shr_record_of_loc m l)) as H.
    rewrite shr_record_of_loc_m in H. specialize (H Hm).
    replace (e + Zpos n + 1200) with (Zpos n + (e + 1200)) by lia.
    rewrite (Z.pow_add_r 2 (Zpos n) (e + 1200)) by lia. clear E.
    apply (Z.mul_lt_mono_pos_r (2 ^ (e + 1200))) in H; [|exact Hp]. lia.
  - rewrite shr_record_of_loc_m. clear E. lia.
Qed.

Lemma binary_round_aux_lower (s : bool) (m e E k : Z) (l : location) :
  0 <= m < 2 ^ k -> 0 <= k -> -1200 <= e -> e <= E ->
  Z.max (k + e - 53) (-1074) <= E ->
  match binary_round_aux Float64.prec Float64.emax s m e l with
  | S754_finite _ m2 e2 => scaled m e < scaled (Zpos m2) e2 + 3 * 2 ^ (E + 1200)
  | S754_zero _ => scaled m e < 3 * 2 ^ (E + 1200)
  | _ => True
  end.
Proof.
  intros Hm Hk He HE Hf. unfold binary_round_aux.
  pose proof (shr_fexp_scaled m e l ltac:(lia) He) as H1.
  pose proof (shr_fexp_lower m e l ltac:(lia) He) as L1.
  destruct (shr_fexp Float64.prec Float64.emax m e l) as [mrs' e'].
  destruct H1 as (Hm' & Hee' & Hs' & He').
  pose proof (round_nearest_even_bounds (shr_m mrs') (loc_of_shr_record mrs')) as Hr.
  set (mr := round_nearest_even (shr_m mrs') (loc_of_shr_record mrs')) in *.
  assert (Hmr : 0 <= mr) by lia.
  pose proof (shr_fexp_scaled mr e' loc_Exact Hmr ltac:(lia)) as H2.
  pose proof (shr_fexp_lower mr e' loc_Exact Hmr ltac:(lia)) as L2.
  destruct (shr_fexp Float64.prec Float64.emax mr e' loc_Exact) as [mrs'' e''].
  destruct H2 as (Hm'' & Hee'' & Hs'' & He'').
  assert (Hdm : Zdigits2 m <= k) by (apply Zdigits2_upper; lia).
  assert (He1 : e' <= E).
  { destruct He' as [->| ->]; [lia|]. rewrite fexp_eq. lia. }
  assert (He2 : e'' <= E + 1).
  { destruct He'' as [->| ->]; [lia|]. rewrite fexp_eq.
    destruct (Z.eq_dec (shr_m mrs') 0) as [Hz|Hnz].
    - assert (Zdigits2 mr <= 1) by (apply Zdigits2_upper; [lia|]; change (2 ^ 1) with 2; lia).
      lia.
    - unfold scaled in Hs'.
      assert (Hp1 : 0 < 2 ^ (e' + 1200)) by (apply Z.pow_pos_nonneg; lia).
      assert (Hp0 : 0 < 2 ^ (e + 1200)) by (apply Z.pow_pos_nonneg; lia).
      assert (Hlt : 2 ^ (e' + 1200) < 2 ^ (k + (e + 1200))).
      { rewrite (Z.pow_add_r 2 k (e + 1200)) by lia.
        assert (2 ^ (e' + 1200) <= shr_m mrs' * 2 ^ (e' + 1200)) by nia.
        assert (m * 2 ^ (e + 1200) < 2 ^ k * 2 ^ (e + 1200)) by nia.
        lia. }
      apply Z.pow_lt_mono_r_iff in Hlt; [|lia|lia].
      assert (Hm1 : shr_m mrs' < 2 ^ (k + e - e')).
      { assert (Hs : 2 ^ (k + (e + 1200)) = 2 ^ (k + e - e') * 2 ^ (e' + 1200)).
        { rewrite <- Z.pow_add_r by lia. f_equal. lia. }
        assert (shr_m mrs' * 2 ^ (e' + 1200) < 2 ^ (k + (e + 1200))).
        { rewrite (Z.pow_add_r 2 k (e + 1200)) by lia.
          assert (m * 2 ^ (e + 1200) < 2 ^ k * 2 ^ (e + 1200)) by nia.
          lia. }
        rewrite Hs in *. nia. }
      assert (Zdigits2 mr <= k + e - e' + 1).
      { apply Zdigits2_upper; [lia|].
        rewrite (Z.pow_add_r 2 (k + e - e') 1) by lia. change (2 ^ 1) with 2. lia. }
      lia. }
  assert (Hq1 : 2 ^ (e' + 1200) <= 2 ^ (E + 1200)) by (apply Z.pow_le_mono_r; lia).
  assert (Hq2 : 2 ^ (e'' + 1200) <= 2 ^ (E + 1 + 1200)) by (apply Z.pow_le_mono_r; lia).
  replace (E + 1 + 1200) with (Z.succ (E + 1200)) in Hq2 by lia.
  rewrite Z.pow_succ_r in Hq2 by lia.
  assert (Hmono : scaled (shr_m mrs') e' <= scaled mr e').
  { unfold scaled. assert (0 <= 2 ^ (e' + 1200)) by (apply Z.pow_nonneg; lia). nia. }
  unfold scaled in *.
  destruct (shr_m mrs'') as [|p|p] eqn:Em; try exact I.
  - lia.
  - destruct (e'' <=? Float64.emax - Float64.prec); [|exact I]. lia.
Qed.

Lemma binary_round_aux_error (s : bool) (m e E k : Z) (l : location) :
  0 <= m < 2 ^ k -> 0 <= k -> -1200 <= e -> e <= E ->
  Z.max (k + e - 53) (-1074) <= E ->
  match binary_round_aux Float64.prec Float64.emax s m e l with
  | S754_finite _ m2 e2 =>
      e <= e2 /\ Zpos m2 <= m + 1 /\
      scaled m e - 3 * 2 ^ (E + 1200) <= scaled (Zpos m2) e2 <= scaled m e + 2 ^ (E + 1200)
  | S754_zero _ => scaled m e <= 3 * 2 ^ (E + 1200)
  | _ => True
  end.
Proof.
  intros Hm Hk He HE Hf.
  pose proof (binary_round_aux_lower s m e E k l Hm Hk He HE Hf) as Hlo.
  assert (Hdm : Zdigits2 m <= k) by (apply Zdigits2_upper; lia).
  pose proof (binary_round_aux_upper s m e E l ltac:(lia) He HE) as Hup.
  rewrite fexp_eq in Hup. specialize (Hup ltac:(lia)).
  destruct (binary_round_aux Float64.prec Float64.emax s m e l); try exact I; lia.
Qed.

Lemma quotient_error (den : positive) :
  46 <= Zpos den ->
  exists v,
    match Float64.of_ratio false 45 den with
    | S754_zero s => s = false /\ v = 0
    | S754_finite s mq eq =>
        s = false /\ -1074 <= eq /\ Zpos mq < 2 ^ 55 /\ v = scaled (Zpos mq) eq
    | _ => False
    end /\
    45 * 2 ^ 1200 - 4 * Zpos den * 2 ^ 1147 <= v * Zpos den
      <= 45 * 2 ^ 1200 + Zpos den * 2 ^ 1147.
Proof.
  intro Hden.
  pose proof (of_ratio_shape false 45 den ltac:(vm_compute; reflexivity)) as (Hn & Hi & Hs).
  revert Hn Hi Hs.
  unfold Float64.of_ratio, SFdiv_core_binary.
  set (d2 := Zdigits2 (Zpos den)).
  change (Zdigits2 45) with 6.
  assert (Hd2 : 6 <= d2).
  { destruct (Z_lt_ge_dec d2 6) as [Hlt|]; [|lia]. exfalso.
    assert (Hup : Zpos den < 2 ^ d2).
    { unfold d2. cbn [Zdigits2]. rewrite digits2_pos_size.
      pose proof (Pos.size_gt den) as G.
      apply Pos2Z.pos_lt_pos in G. rewrite Pos2Z.inj_pow in G. exact G. }
    assert (2 ^ d2 <= 2 ^ 5) by (apply Z.pow_le_mono_r; lia).
    change (2 ^ 5) with 32 in *. lia. }
  pose proof (Zdigits2_lower den) as Hlow. fold d2 in Hlow.
  rewrite !Z.add_0_r, Z.sub_0_r, Z.sub_0_l.
  set (e' := Z.min (fexp Float64.prec Float64.emax (6 - d2)) 0).
  assert (He' : -1074 <= e' <= -53 /\ - e' <= d2 + 47).
  { unfold e'. rewrite fexp_eq. lia. }
  set (m' := match - e' with Z0 => 45 | Zpos _ => Z.shiftl 45 (- e') | Zneg _ => 0 end).
  assert (Hm' : m' = 45 * 2 ^ (- e')).
  { unfold m'. destruct (- e') as [|p|p] eqn:E; try lia.
    rewrite Z.shiftl_mul_pow2 by lia. reflexivity. }
  clearbody m'.
  pose proof (Z_div_mod m' (Zpos den) ltac:(lia)) as Hdm.
  destruct (Z.div_eucl m' (Zpos den)) as [q r]. destruct Hdm as [Hq Hr].
  assert (Hpow : 0 < 2 ^ (- e')) by (apply Z.pow_pos_nonneg; lia).
  assert (Hq0 : 0 <= q) by nia.
  assert (Hqden : q * Zpos den <= 45 * 2 ^ (- e') < (q + 1) * Zpos den) by nia.
  assert (Hq54 : q < 2 ^ 54).
  { assert (Hp1 : 0 < 2 ^ (d2 - 1)) by (apply Z.pow_pos_nonneg; lia).
    assert (Hp2 : 2 ^ (- e') <= 2 ^ (d2 + 47)) by (apply Z.pow_le_mono_r; lia).
    replace (d2 + 47) with (48 + (d2 - 1)) in Hp2 by lia.
    rewrite (Z.pow_add_r 2 48 (d2 - 1)) in Hp2 by lia.
    assert (q * 2 ^ (d2 - 1) <= 45 * (2 ^ 48 * 2 ^ (d2 - 1))) by nia.
    assert (q <= 45 * 2 ^ 48) by nia.
    assert (45 * 2 ^ 48 < 2 ^ 54) by (vm_compute; reflexivity). lia. }
  assert (Hqone : q < 2 ^ (- e')) by nia.
  pose proof (binary_round_aux_error false q e' (-53) (- e')
                (new_location (Zpos den) r) ltac:(lia) ltac:(lia) ltac:(lia) ltac:(lia)
                ltac:(lia)) as Herr.
  replace (-53 + 1200) with 1147 in Herr by lia.
  assert (Hsplit : 2 ^ 1200 = 2 ^ (- e') * 2 ^ (e' + 1200)).
  { rewrite <- Z.pow_add_r by lia. f_equal. lia. }
  assert (Hpe : 0 < 2 ^ (e' + 1200)) by (apply Z.pow_pos_nonneg; lia).
  assert (Hple : 2 ^ (e' + 1200) <= 2 ^ 1147) by (apply Z.pow_le_mono_r; lia).
  assert (Hv0 : scaled q e' * Zpos den <= 45 * 2 ^ 1200
                < scaled q e' * Zpos den + Zpos den * 2 ^ 1147).
  { unfold scaled. rewrite Hsplit. split; [nia|].
    assert (45 * 2 ^ (- e') * 2 ^ (e' + 1200) < (q + 1) * Zpos den * 2 ^ (e' + 1200)) by nia.
    assert (Zpos den * 2 ^ (e' + 1200) <= Zpos den * 2 ^ 1147) by nia.
    lia. }
  assert (H1147 : 0 < 2 ^ 1147) by (vm_compute; reflexivity).
  destruct (binary_round_aux Float64.prec Float64.emax false q e'
              (new_location (Zpos den) r)) as [s|s| |s mq eq];
    cbn [Float64.is_nan Float64.is_infinite Float64.sign];
    intros Hn Hi Hs; try discriminate.
  - exists 0. split; [split; [assumption | reflexivity]|].
    assert (scaled q e' * Zpos den <= 3 * 2 ^ 1147 * Zpos den) by nia.
    lia.
  - exists (scaled (Zpos mq) eq). destruct Herr as (Hee & Hmq & Hlo & Hhi).
    split.
    { split; [assumption|]. split; [lia|]. split; [|reflexivity].
      assert (2 ^ 54 < 2 ^ 55) by (vm_compute; reflexivity). lia. }
    assert (scaled (Zpos mq) eq * Zpos den <= (scaled q e' + 2 ^ 1147) * Zpos den) by nia.
    assert ((scaled q e' - 3 * 2 ^ 1147) * Zpos den <= scaled (Zpos mq) eq * Zpos den) by nia.
    lia.
Qed.

Lemma product_error (q : float) (v den : Z) :
  46 <= den ->
  match q with
  | S754_zero s => s = false /\ v = 0
  | S754_finite s mq eq =>
      s = false /\ -1074 <= eq /\ Zpos mq < 2 ^ 55 /\ v = scaled (Zpos mq) eq
  | _ => False
  end ->
  v * den <= 45 * 2 ^ 1200 + den * 2 ^ 1147 ->
  exists vp,
    match Float64.mul q (Float64.of_int 100) with
    | S754_zero s => s = false /\ vp = 0
    | S754_finite s mp ep => s = false /\ -1200 <= ep /\ vp = scaled (Zpos mp) ep
    | _ => False
    end /\
    100 * v - 3 * 2 ^ 1154 <= vp <= 100 * v + 2 ^ 1154.
Proof.
  intros Hden Hq Hv.
  assert (H1154 : 0 < 2 ^ 1154) by (vm_compute; reflexivity).
  destruct q as [s|s| |s mq eq]; try contradiction.
  - destruct Hq as (-> & ->). exists 0. split; [split; reflexivity | lia].
  - destruct Hq as (-> & Heq & Hmq & ->).
    change (Float64.mul (S754_finite false mq eq) (Float64.of_int 100))
      with (binary_round_aux Float64.prec Float64.emax false
              (Zpos (mq * 7036874417766400)) (eq + -46) loc_Exact).
    set (m := Zpos (mq * 7036874417766400)).
    set (e := eq + -46).
    assert (Hm : m = Zpos mq * (100 * 2 ^ 46)) by (unfold m; rewrite Pos2Z.inj_mul; reflexivity).
    assert (Hpq : 0 < 2 ^ (eq + 1200)) by (apply Z.pow_pos_nonneg; lia).
    set (v := scaled (Zpos mq) eq) in *.
    assert (Hv0 : 2 ^ (eq + 1200) <= v) by (unfold v, scaled; nia).
    assert (Hv1 : 46 * v <= 45 * 2 ^ 1200 + 46 * 2 ^ 1147).
    { assert (H1147 : 0 < 2 ^ 1147) by (vm_compute; reflexivity).
      destruct (Z_le_gt_dec v (2 ^ 1147)) as [Hs|Hs]; [lia|].
      assert (46 * (v - 2 ^ 1147) <= den * (v - 2 ^ 1147))
        by (apply Z.mul_le_mono_nonneg_r; lia).
      lia. }
    assert (Hvlt : v < 2 ^ 1200).
    { assert (45 * 2 ^ 1200 + 46 * 2 ^ 1147 < 46 * 2 ^ 1200) by (vm_compute; reflexivity).
      lia. }
    assert (Heq2 : eq <= -1).
    { assert (H1 : 2 ^ (eq + 1200) < 2 ^ 1200) by lia.
      apply Z.pow_lt_mono_r_iff in H1; lia. }
    assert (Hscaled : scaled m e = 100 * v).
    { unfold v, scaled, e. rewrite Hm.
      replace (eq + 1200) with (46 + (eq + -46 + 1200)) by lia.
      rewrite (Z.pow_add_r 2 46) by lia. ring. }
    assert (Hebnd : -1120 <= e <= -47) by (unfold e; lia).
    assert (Hpe : 0 < 2 ^ (e + 1200)) by (apply Z.pow_pos_nonneg; lia).
    assert (Hm128 : m < 2 ^ (7 - e)).
    { assert (H1 : m * 2 ^ (e + 1200) < 2 ^ (7 - e) * 2 ^ (e + 1200)).
      { rewrite <- Z.pow_add_r by lia.
        replace (7 - e + (e + 1200)) with 1207 by lia.
        fold (scaled m e). rewrite Hscaled.
        assert (100 * 2 ^ 1200 < 2 ^ 1207) by (vm_compute; reflexivity).
        lia. }
      nia. }
    assert (Hm0 : 0 <= m) by (unfold m; lia).
    assert (Hm108 : m < 2 ^ 108).
    { rewrite Hm. assert (100 * 2 ^ 46 < 2 ^ 53) by (vm_compute; reflexivity).
      assert (2 ^ 55 * 2 ^ 53 = 2 ^ 108) by (vm_compute; reflexivity). nia. }
    pose proof (binary_round_aux_shape false m e loc_Exact 108
                  ltac:(lia) ltac:(lia) ltac:(lia) ltac:(lia) ltac:(lia))
      as (Hn & Hi & Hs).
    pose proof (binary_round_aux_error false m e (-46) (7 - e) loc_Exact
                  ltac:(lia) ltac:(lia) ltac:(lia) ltac:(lia) ltac:(lia)) as Herr.
    replace (-46 + 1200) with 1154 in Herr by lia.
    rewrite Hscaled in Herr.
    destruct (binary_round_aux Float64.prec Float64.emax false m e loc_Exact)
      as [s|s| |s mp ep];
      cbn [Float64.is_nan Float64.is_infinite Float64.sign] in Hn, Hi, Hs;
      try discriminate.
    + exists 0. split; [split; [assumption | reflexivity] | lia].
    + exists (scaled (Zpos mp) ep). destruct Herr as (Hee & _ & Hlo & Hhi).
      split; [|lia]. split; [assumption|]. split; [lia | reflexivity].
Qed.

Lemma round_half_even_error (num den : Z) :
  0 < den ->
  - den <= 2 * (Float64.round_half_even num den * den - num) <= den.
Proof.
  intro Hden. unfold Float64.round_half_even.
  pose proof (Z.div_mod num den ltac:(lia)) as Hdm.
  pose proof (Z.mod_pos_bound num den Hden) as Hr.
  destruct (2 * (num mod den) ?= den) eqn:C.
  - apply Z.compare_eq_iff in C. destruct (Z.even (num / den)); lia.
  - pose proof (proj1 (Z.compare_lt_iff _ _) C). lia.
  - pose proof (proj1 (Z.compare_gt_iff _ _) C). lia.
Qed.

Lemma round_2_hundredths (m : positive) (e : Z) :
  -1200 <= e -> scaled (Zpos m) e < 100 * 2 ^ 1200 ->
  exists n,
    0 <= n <= 10000 /\
    Float64.round (S754_finite false m e) 2 = Ok (hundredths n) /\
    - 2 ^ 1200 <= 2 * (n * 2 ^ 1200 - 100 * scaled (Zpos m) e) <= 2 ^ 1200.
Proof.
  intros He H. rewrite round_2_finite.
  set (n := Float64.round_half_even (Zpos m * 2 ^ Z.max e 0 * 100) (2 ^ Z.max (- e) 0 * 1)).
  assert (Hp : 0 < 2 ^ (e + 1200)) by (apply Z.pow_pos_nonneg; lia).
  assert (H1200 : 0 < 2 ^ 1200) by (vm_compute; reflexivity).
  assert (Hn : 0 <= n <= 10000 /\
               - 2 ^ 1200 <= 2 * (n * 2 ^ 1200 - 100 * scaled (Zpos m) e) <= 2 ^ 1200).
  { unfold scaled in *. unfold n. clear n.
    destruct (Z.leb_spec 0 e) as [H0|H0].
    - rewrite Z.max_l, Z.max_r by lia. rewrite Z.pow_0_r.
      replace (e + 1200) with (1200 + e) in * by lia.
      rewrite (Z.pow_add_r 2 1200 e) in * by lia.
      assert (0 < 2 ^ e) by (apply Z.pow_pos_nonneg; lia).
      pose proof (round_half_even_error (Zpos m * 2 ^ e * 100) (1 * 1) ltac:(lia)) as Herr.
      split; [apply round_half_even_upper; nia|].
      set (k := Float64.round_half_even (Zpos m * 2 ^ e * 100) (1 * 1)) in *.
      nia.
    - rewrite Z.max_r, Z.max_l by lia. rewrite Z.pow_0_r.
      assert (Hs : 2 ^ 1200 = 2 ^ (- e) * 2 ^ (e + 1200)).
      { rewrite <- Z.pow_add_r by lia. f_equal. lia. }
      assert (0 < 2 ^ (- e)) by (apply Z.pow_pos_nonneg; lia).
      pose proof (round_half_even_error (Zpos m * 1 * 100) (2 ^ (- e) * 1) ltac:(lia)) as Herr.
      split; [apply round_half_even_upper; [lia|]; rewrite Hs in H; nia|].
      set (k := Float64.round_half_even (Zpos m * 1 * 100) (2 ^ (- e) * 1)) in *.
      rewrite Hs. nia. }
  destruct Hn as (Hn & Herr).
  exists n. split; [exact Hn | split; [|exact Herr]].
  destruct n as [|p|p]; [reflexivity | | lia].
  destruct (of_ratio_shape false (p * 1) 100) as (_ & Hi & _); [lia|].
  rewrite Hi. unfold hundredths. rewrite Pos.mul_1_r. reflexivity.
Qed.

Lemma predict_hundredths_large (self : InferenceService) (max_cycles : Z) :
  46 <= max_cycles ->
  exists v level n,
    predict self max_cycles = Ok (scoring v level) /\
    Schema.float v = Ok (hundredths n) /\
    0 <= n <= 10000 /\
    - max_cycles <= 2 * n * max_cycles - 900000 <= max_cycles.
Proof.
  intro Hmc. destruct max_cycles as [|den|den]; try lia.
  destruct (quotient_error den Hmc) as (v & Hq & Hvlo & Hvhi).
  destruct (product_error _ v (Zpos den) Hmc Hq Hvhi) as (vp & Hp & Hplo & Phi).
  pose proof (of_ratio_shape false 45 den ltac:(vm_compute; reflexivity)) as (_ & Hqi & _).
  unfold predict. cbv zeta.
  change (int_truediv 45 (Zpos den))
    with (if Float64.is_infinite (Float64.of_ratio false 45 den)
          then Raise OverflowError else Ok (Float64.of_ratio false 45 den)).
  rewrite Hqi. cbn [rbind].
  change (float_mul_int (Float64.of_ratio false 45 den) 100)
    with (Ok (Float64.mul (Float64.of_ratio false 45 den) (Float64.of_int 100))).
  cbn [rbind].
  assert (H1147 : 0 < 2 ^ 1147) by (vm_compute; reflexivity).
  assert (H1154 : 2 ^ 1154 = 128 * 2 ^ 1147) by (vm_compute; reflexivity).
  assert (H1200 : 2 ^ 1200 = 9007199254740992 * 2 ^ 1147) by (vm_compute; reflexivity).
  assert (Hv0 : 0 <= v).
  { destruct (Float64.of_ratio false 45 den) as [s|s| |s mq eq]; try contradiction.
    - destruct Hq as (_ & ->). lia.
    - destruct Hq as (_ & Heq & _ & ->). unfold scaled.
      assert (0 < 2 ^ (eq + 1200)) by (apply Z.pow_pos_nonneg; lia). nia. }
  assert (Hv1 : 46 * v <= 45 * 2 ^ 1200 + 46 * 2 ^ 1147).
  { destruct (Z_le_gt_dec v (2 ^ 1147)) as [Hs|Hs]; [lia|].
    assert (46 * (v - 2 ^ 1147) <= Zpos den * (v - 2 ^ 1147))
      by (apply Z.mul_le_mono_nonneg_r; lia).
    lia. }
  assert (HY : 100 * (v * Zpos den) - 3 * 2 ^ 1154 * Zpos den <= vp * Zpos den
               <= 100 * (v * Zpos den) + 2 ^ 1154 * Zpos den).
  { split.
    - assert ((100 * v - 3 * 2 ^ 1154) * Zpos den <= vp * Zpos den)
        by (apply Z.mul_le_mono_nonneg_r; lia).
      lia.
    - assert (vp * Zpos den <= (100 * v + 2 ^ 1154) * Zpos den)
        by (apply Z.mul_le_mono_nonneg_r; lia).
      lia. }
  destruct (Float64.mul (Float64.of_ratio false 45 den) (Float64.of_int 100))
    as [s|s| |s mp ep]; try contradiction.
  - destruct Hp as (-> & ->).
    exists (VInt 0), "High", 0.
    split; [reflexivity | split; [reflexivity | split; [lia|]]].
    lia.
  - destruct Hp as (-> & Hep & ->).
    set (vp := scaled (Zpos mp) ep) in *.
    assert (Hlt100 : vp < 100 * 2 ^ 1200) by lia.
    assert (H100 : Float64.compare_int (S754_finite false mp ep) 100 = Some Lt)
      by (apply scaled_below; assumption).
    destruct (round_2_hundredths mp ep Hep Hlt100) as (n & Hn & Hround & Herr).
    fold vp in Herr.
    assert (Hmin : py_min (NInt 100) (NFloat (S754_finite false mp ep)) =
                   NFloat (S754_finite false mp ep)).
    { unfold py_min, py_lt, number_compare. rewrite H100. reflexivity. }
    rewrite Hmin.
    assert (Hmax : py_max (NInt 0) (NFloat (S754_finite false mp ep)) =
                   NFloat (S754_finite false mp ep)).
    { unfold py_max, py_gt, number_compare. rewrite compare_int_finite_0. reflexivity. }
    rewrite Hmax.
    unfold py_round. rewrite Hround. cbn [rbind value_of_number].
    eexists (VFloat (hundredths n)), _, n.
    split; [reflexivity | split; [reflexivity | split; [exact Hn|]]].
    assert (HW : - (2 ^ 1200 * Zpos den)
                 <= 2 * (n * Zpos den) * 2 ^ 1200 - 200 * (vp * Zpos den)
                 <= 2 ^ 1200 * Zpos den).
    { split.
      - assert (- 2 ^ 1200 * Zpos den
                <= 2 * (n * 2 ^ 1200 - 100 * vp) * Zpos den)
          by (apply Z.mul_le_mono_nonneg_r; lia).
        lia.
      - assert (2 * (n * 2 ^ 1200 - 100 * vp) * Zpos den <= 2 ^ 1200 * Zpos den)
          by (apply Z.mul_le_mono_nonneg_r; lia).
        lia. }
    assert (Hnd : n = 0 \/ Zpos den <= n * Zpos den) by nia.
    replace (2 * n * Zpos den) with (2 * (n * Zpos den)) by ring.
    set (W := n * Zpos den) in *. set (X := v * Zpos den) in *.
    set (Y := vp * Zpos den) in *.
    assert (HW0 : n = 0 -> W = 0) by (intros ->; reflexivity).
    clearbody W X Y. clear Hround Hmin Hmax H100 Herr Hq Hqi.
    rewrite H1154, H1200 in *.
    destruct Hnd as [Hz|Hnd]; [rewrite (HW0 Hz) in *|]; lia.
Qed.

Lemma predict_hundredths_small (self : InferenceService) (max_cycles : Z) :
  1 <= max_cycles <= 45 ->
  exists level, predict self max_cycles = Ok (scoring (VInt 100) level).
Proof.
  intro Hmc.
  pose proof (clamp_ok_small max_cycles ltac:(lia)) as Hok.
  unfold clamp_ok in Hok.
  change (predict loaded_service max_cycles) with (predict self max_cycles) in Hok.
  destruct (predict self max_cycles) as [d|x] eqn:Hp; [|discriminate].
  destruct (predict_shape self max_cycles d Hp) as (v & level & -> & _).
  change (dict_get _ "health_score") with (Some v) in Hok. cbv iota in Hok.
  destruct (Z.leb_spec max_cycles 45); [|lia].
  exists level.
  destruct v as [ | | z | | | | ]; try discriminate.
  destruct z as [|p|p]; try discriminate.
  assert (E : p = 100%positive).
  { revert Hok. clear.
    do 7 (try (destruct p as [p|p|]; try (intro H; discriminate H))).
    intros _. reflexivity. }
  subst p. reflexivity.
Qed.

(** The exact score on a positive count: 100 up to 45 cycles, the rational
    4500 / max_cycles beyond. *)
Lemma exact_health_score_cases (p : positive) :
  Exact.health_score (Zpos p) =
  if Zpos p <=? 45 then QArith_base.Qmake 100 1 else QArith_base.Qmake 4500 p.
Proof.
  unfold Exact.health_score, Exact.clamp.
  change (QArith_base.Qmult
            (QArith_base.Qdiv (QArith_base.Qmake 45 1) (QArith_base.inject_Z (Zpos p)))
            (QArith_base.Qmake 100 1))
    with (QArith_base.Qmake 4500 (p * 1)).
  rewrite Pos.mul_1_r.
  unfold QArith_base.Qle_bool. cbn [QArith_base.Qnum QArith_base.Qden].
  change (4500 * 1 <=? 0 * Zpos p) with false. cbv iota.
  destruct (Z.leb_spec (100 * Zpos p) (4500 * 1)); destruct (Z.leb_spec (Zpos p) 45);
    try reflexivity; lia.
Qed.

Lemma nearest_hundredth_large (p : positive) (n : Z) :
  - Zpos p <= 2 * n * Zpos p - 900000 <= Zpos p ->
  Exact.nearest_hundredth (QArith_base.Qmake 4500 p) n.
Proof.
  intro H. unfold Exact.nearest_hundredth.
  unfold QArith_base.Qle, QArith_base.Qminus, QArith_base.Qplus, QArith_base.Qopp,
    QArith_base.Qmult, QArith_base.inject_Z.
  cbn [QArith_base.Qnum QArith_base.Qden].
  rewrite ?Pos2Z.inj_mul. split; lia.
Qed.

Lemma round_2_large (p : positive) (n : Z) :
  - Zpos p <= 2 * n * Zpos p - 900000 <= Zpos p ->
  Exact.halfway (QArith_base.Qmake 4500 p) = false ->
  n = Exact.round_2 (QArith_base.Qmake 4500 p).
Proof.
  intros H Hh. unfold Exact.round_2. cbv zeta. rewrite Hh.
  unfold Exact.halfway in Hh. unfold Exact.round_2_half_up.
  unfold QArith_base.Qeq_bool, Qround.Qfloor, QArith_base.Qminus, QArith_base.Qplus,
    QArith_base.Qopp, QArith_base.Qmult, QArith_base.inject_Z in *.
  cbn [QArith_base.Qnum QArith_base.Qden] in *.
  rewrite ?Pos.mul_1_r in *. rewrite ?Pos2Z.inj_mul in *. apply Z.eqb_neq in Hh.
  apply (Z.div_unique _ _ _ (900000 + Zpos p - 2 * n * Zpos p)); [|lia].
  left. split; [lia|].
  destruct (Z.eq_dec (900000 - 2 * n * Zpos p) (Zpos p)) as [Heq|Hne]; [|lia].
  exfalso. apply Hh.
  assert (Hd : 4500 * 100 / Zpos p = n).
  { symmetry. apply (Z.div_unique _ _ _ (450000 - n * Zpos p)); lia. }
  rewrite Z.mul_1_r, Hd. lia.
Qed.

(** C2, as stated, fails at [max_cycles = 60000].  The exact value is
    4500 / 60000 = 0.075, halfway between 0.07 and 0.08, and it rounds to
    0.08, 8 hundredths, whether a half goes to the even neighbour or up.
    The scoring function returns the float nearest to 0.07: the binary64
    product [45 / 60000 * 100] lies just below 0.075, and [round] rounds
    that float, not the exact value. *)
Lemma health_score_is_not_the_exact_rounding :
  (exists p,
     (q <- int_truediv 45 60000 ;; float_mul_int q 100)%result = Ok p /\
     p = S754_finite false 5404319552844595 (-56) /\
     5404319552844595 * 1000 < 75 * 2 ^ 56) /\
  (exists d hs,
     predict loaded_service 60000 = Ok d /\
     dict_get d "health_score" = Some hs /\
     Schema.float hs = Ok (hundredths 7)) /\
  Exact.health_score 60000 = QArith_base.Qmake 4500 60000 /\
  Exact.round_2 (Exact.health_score 60000) = 8 /\
  Exact.round_2_half_up (Exact.health_score 60000) = 8 /\
  hundredths 7 <> hundredths 8 /\
  ~ (forall max_cycles, 0 < max_cycles ->
       exists d hs,
         predict loaded_service max_cycles = Ok d /\
         dict_get d "health_score" = Some hs /\
         Schema.float hs = Ok (hundredths (Exact.round_2 (Exact.health_score max_cycles)))).
Proof.
  split.
  { eexists. split; [vm_compute; reflexivity | split; [reflexivity | reflexivity]]. }
  split.
  { do 2 eexists. split; [vm_compute; reflexivity|].
    split; [reflexivity | vm_compute; reflexivity]. }
  split; [vm_compute; reflexivity|].
  split; [vm_compute; reflexivity|].
  split; [vm_compute; reflexivity|].
  split; [vm_compute; discriminate|].
  intro H. destruct (H 60000 ltac:(lia)) as (d & hs & Hp & Hg & Hf).
  vm_compute in Hp. injection Hp as <-.
  vm_compute in Hg. injection Hg as <-.
  vm_compute in Hf. discriminate Hf.
Qed.

(** C2, amended.  For every positive [max_cycles] the scoring function
    returns, and the health score it returns is a whole number [n] of
    hundredths, carried as the float nearest to [n / 100], such that
    [n / 100] is a two-place decimal nearest to the exact
    [clamp(45 / max_cycles * 100, 0, 100)], the clamp coming before the
    rounding and 45 being the constant [predicted_rul].  Whenever the exact
    value is not halfway between two hundredths, [n] is the exact value
    rounded to two places; at a halfway value the binary64 quotient and
    product decide which of the two neighbours is returned. *)
Theorem health_score_is_a_nearest_hundredth (self : InferenceService) (max_cycles : Z) :
  0 < max_cycles ->
  exists d hs n,
    predict self max_cycles = Ok d /\
    dict_get d "health_score" = Some hs /\
    Schema.float hs = Ok (hundredths n) /\
    Exact.nearest_hundredth (Exact.health_score max_cycles) n /\
    (Exact.halfway (Exact.health_score max_cycles) = false ->
     n = Exact.round_2 (Exact.health_score max_cycles)).
Proof.
  intro Hpos. destruct (Z_le_gt_dec max_cycles 45) as [Hs|Hl].
  - destruct (predict_hundredths_small self max_cycles ltac:(lia)) as (level & Hp).
    exists (scoring (VInt 100) level), (VInt 100), 10000.
    split; [exact Hp | split; [reflexivity | split; [reflexivity|]]].
    destruct max_cycles as [|p|p]; try lia.
    rewrite exact_health_score_cases.
    destruct (Z.leb_spec (Zpos p) 45); [|lia].
    split; [|intros _; reflexivity].
    split; vm_compute; discriminate.
  - destruct (predict_hundredths_large self max_cycles ltac:(lia))
      as (v & level & n & Hp & Hv & Hn & Hb).
    exists (scoring v level), v, n.
    split; [exact Hp | split; [reflexivity | split; [exact Hv|]]].
    destruct max_cycles as [|p|p]; try lia.
    rewrite exact_health_score_cases.
    destruct (Z.leb_spec (Zpos p) 45); [lia|].
    split; [apply nearest_hundredth_large; exact Hb|].
    apply round_2_large; exact Hb.
Qed.

Lemma health_score_is_a_nearest_hundredth_witness :
  0 < 60000 /\
  exists d hs n,
    predict loaded_service 60000 = Ok d /\
    dict_get d "health_score" = Some hs /\
    Schema.float hs = Ok (hundredths n) /\
    Exact.nearest_hundredth (Exact.health_score 60000) n /\
    (Exact.halfway (Exact.health_score 60000) = false ->
     n = Exact.round_2 (Exact.health_score 60000)).
Proof.
  split; [lia | apply (health_score_is_a_nearest_hundredth loaded_service 60000); lia].
Defined.

(* ================================================================== *)
(** * The prediction route on any engine table *)
(* ================================================================== *)

Lemma predict_rul_scored (w : World) (unit_id max_cycles : Z) (status : string)
      (svc : InferenceService) (v : value) (level : string) :
  int_dict_lookup (engines w) unit_id = Some (engine max_cycles status) ->
  inference_service w = Some svc ->
  String.eqb status "Retired" = false ->
  predict svc max_cycles = Ok (scoring v level) ->
  predict_rul unit_id w =
    (Ok (VDict [ ("unit_id", VInt unit_id); ("current_cycle", VInt (max_cycles - 45));
                 ("predicted_rul", VInt 45); ("health_score", v);
                 ("risk_level", VStr level); ("confidence", VFloat float_0_95) ]), w).
Proof.
  intros Hl Hs Hst Hp.
  unfold predict_rul, bind, read_FAKE_DB_ENGINES, int_dict_get.
  rewrite Hl.
  change (truthy (engine max_cycles status)) with true. cbv iota beta. cbn [negb].
  change (lift (getitem (engine max_cycles status) "status") w) with (Ok (VStr status), w).
  cbv iota beta. cbn [eq_str]. rewrite Hst.
  unfold read_inference_service. rewrite Hs.
  change (lift (getitem (engine max_cycles status) "max_cycles") w)
    with (Ok (VInt max_cycles), w).
  cbv iota beta. cbn [call_predict]. unfold lift at 1. rewrite Hp.
  reflexivity.
Qed.

Lemma predict_rul_raises (w : World) (unit_id max_cycles : Z) (status : string)
      (svc : InferenceService) (x : exn) :
  int_dict_lookup (engines w) unit_id = Some (engine max_cycles status) ->
  inference_service w = Some svc ->
  String.eqb status "Retired" = false ->
  predict svc max_cycles = Raise x ->
  predict_rul unit_id w = (Raise x, w).
Proof.
  intros Hl Hs Hst Hp.
  unfold predict_rul, bind, read_FAKE_DB_ENGINES, int_dict_get.
  rewrite Hl.
  change (truthy (engine max_cycles status)) with true. cbv iota beta. cbn [negb].
  change (lift (getitem (engine max_cycles status) "status") w) with (Ok (VStr status), w).
  cbv iota beta. cbn [eq_str]. rewrite Hst.
  unfold read_inference_service. rewrite Hs.
  change (lift (getitem (engine max_cycles status) "max_cycles") w)
    with (Ok (VInt max_cycles), w).
  cbv iota beta. cbn [call_predict]. unfold lift at 1. rewrite Hp.
  reflexivity.
Qed.

Lemma validate_prediction (unit_id current_cycle : Z) (v : value) (level : string) (f : float) :
  Schema.float v = Ok f ->
  py_le (NInt 0) (NFloat f) = true -> py_le (NFloat f) (NInt 100) = true ->
  PredictionResponse.validate
    (VDict [ ("unit_id", VInt unit_id); ("current_cycle", VInt current_cycle);
             ("predicted_rul", VInt 45); ("health_score", v);
             ("risk_level", VStr level); ("confidence", VFloat float_0_95) ]) =
  Ok {| PredictionResponse.unit_id := unit_id;
        PredictionResponse.current_cycle := current_cycle;
        PredictionResponse.predicted_rul := 45;
        PredictionResponse.health_score := f;
        PredictionResponse.risk_level := level;
        PredictionResponse.confidence := float_0_95 |}.
Proof.
  intros Hv H0 H100.
  unfold PredictionResponse.validate, Schema.model.
  cbn [rbind].
  change (Schema.field _ "unit_id") with (Ok (VInt unit_id)).
  change (Schema.field _ "current_cycle") with (Ok (VInt current_cycle)).
  change (Schema.field _ "predicted_rul") with (Ok (VInt 45)).
  change (Schema.field _ "health_score") with (Ok v).
  change (Schema.field _ "risk_level") with (Ok (VStr level)).
  change (Schema.field _ "confidence") with (Ok (VFloat float_0_95)).
  cbn [rbind Schema.int Schema.str Schema.float].
  rewrite Hv. cbn [rbind]. unfold Schema.ge_le. rewrite H0, H100. reflexivity.
Qed.

(** X5.  Whatever the engine table holds: for a record with a positive
    [max_cycles] and any status other than ["Retired"], and with the
    service bound, the prediction route answers 200 with the record's
    identifier, [current_cycle = max_cycles - 45], [predicted_rul = 45],
    the level of the cycle count, a score in range that agrees with the
    level, and leaves the world as it was. *)
Theorem predict_route_on_any_table
  (w : World) (unit_id max_cycles : Z) (status : string) (svc : InferenceService) :
  int_dict_lookup (engines w) unit_id = Some (engine max_cycles status) ->
  inference_service w = Some svc ->
  status <> "Retired" ->
  0 < max_cycles ->
  exists f,
    GET_predict unit_id w =
      (Ok {| PredictionResponse.unit_id := unit_id;
             PredictionResponse.current_cycle := max_cycles - 45;
             PredictionResponse.predicted_rul := 45;
             PredictionResponse.health_score := f;
             PredictionResponse.risk_level := expected_level max_cycles;
             PredictionResponse.confidence := float_0_95 |}, w) /\
    level_of_score f = expected_level max_cycles /\
    py_le (NInt 0) (NFloat f) = true /\ py_le (NFloat f) (NInt 100) = true.
Proof.
  intros Hl Hs Hst Hpos. apply String.eqb_neq in Hst.
  destruct (scoring_facts svc max_cycles Hpos) as (v & f & Hp & Hv & H0 & H100 & Hlevel).
  exists f. split; [|repeat split; assumption].
  unfold GET_predict, route.
  rewrite (predict_rul_scored w unit_id max_cycles status svc v _ Hl Hs Hst Hp).
  cbn [rbind]. rewrite (validate_prediction _ _ v _ f Hv H0 H100). reflexivity.
Qed.

Lemma predict_route_on_any_table_witness :
  int_dict_lookup (engines {| engines := [(7, engine 1000 "Maintenance")];
                              sensor_metadata := [];
                              inference_service := Some loaded_service |}) 7 =
    Some (engine 1000 "Maintenance") /\
  inference_service {| engines := [(7, engine 1000 "Maintenance")];
                       sensor_metadata := [];
                       inference_service := Some loaded_service |} = Some loaded_service /\
  "Maintenance" <> "Retired" /\
  0 < 1000 /\
  exists f,
    GET_predict 7 {| engines := [(7, engine 1000 "Maintenance")];
                     sensor_metadata := [];
                     inference_service := Some loaded_service |} =
      (Ok {| PredictionResponse.unit_id := 7;
             PredictionResponse.current_cycle := 1000 - 45;
             PredictionResponse.predicted_rul := 45;
             PredictionResponse.health_score := f;
             PredictionResponse.risk_level := expected_level 1000;
             PredictionResponse.confidence := float_0_95 |},
       {| engines := [(7, engine 1000 "Maintenance")];
          sensor_metadata := [];
          inference_service := Some loaded_service |}) /\
    level_of_score f = expected_level 1000 /\
    py_le (NInt 0) (NFloat f) = true /\ py_le (NFloat f) (NInt 100) = true.
Proof.
  split; [reflexivity | split; [reflexivity | split; [discriminate | split; [lia|]]]].
  apply (predict_route_on_any_table
           {| engines := [(7, engine 1000 "Maintenance")];
              sensor_metadata := [];
              inference_service := Some loaded_service |}
           7 1000 "Maintenance" loaded_service).
  - reflexivity.
  - reflexivity.
  - discriminate.
  - lia.
Defined.

(** X6.  A record that stores [max_cycles = 0] and is not Retired makes the
    prediction route fail with [ZeroDivisionError], an internal error (500)
    and no HTTP rejection; a Retired record is rejected with 422 before the
    division, whatever its [max_cycles], and whether or not the service is
    bound. *)
Theorem predict_route_zero_max_cycles
  (w : World) (unit_id max_cycles : Z) (status : string) (svc : InferenceService) :
  int_dict_lookup (engines w) unit_id = Some (engine max_cycles status) ->
  (status <> "Retired" -> inference_service w = Some svc -> max_cycles = 0 ->
     GET_predict unit_id w = (Raise ZeroDivisionError, w) /\
     status_of (fst (GET_predict unit_id w)) = 500) /\
  (status = "Retired" ->
     GET_predict unit_id w = (Raise retired, w) /\
     status_of (fst (GET_predict unit_id w)) = 422).
Proof.
  intros Hl. split.
  - intros Hst Hs ->. apply String.eqb_neq in Hst.
    assert (E : GET_predict unit_id w = (Raise ZeroDivisionError, w)).
    { unfold GET_predict, route.
      rewrite (predict_rul_raises w unit_id 0 status svc ZeroDivisionError Hl Hs Hst
                 ltac:(reflexivity)).
      reflexivity. }
    rewrite E. split; reflexivity.
  - intros ->.
    assert (E : GET_predict unit_id w = (Raise retired, w)).
    { unfold GET_predict, route, predict_rul, bind, read_FAKE_DB_ENGINES, int_dict_get.
      rewrite Hl. reflexivity. }
    rewrite E. split; reflexivity.
Qed.

Lemma predict_route_zero_max_cycles_witness :
  int_dict_lookup (engines {| engines := [(3, engine 0 "Active")];
                              sensor_metadata := [];
                              inference_service := Some loaded_service |}) 3 =
    Some (engine 0 "Active") /\
  ("Active" <> "Retired" ->
   inference_service {| engines := [(3, engine 0 "Active")];
                        sensor_metadata := [];
                        inference_service := Some loaded_service |} = Some loaded_service ->
   0 = 0 ->
     GET_predict 3 {| engines := [(3, engine 0 "Active")];
                      sensor_metadata := [];
                      inference_service := Some loaded_service |} =
       (Raise ZeroDivisionError,
        {| engines := [(3, engine 0 "Active")];
           sensor_metadata := [];
           inference_service := Some loaded_service |}) /\
     status_of (fst (GET_predict 3 {| engines := [(3, engine 0 "Active")];
                                      sensor_metadata := [];
                                      inference_service := Some loaded_service |})) = 500) /\
  ("Active" = "Retired" ->
     GET_predict 3 {| engines := [(3, engine 0 "Active")];
                      sensor_metadata := [];
                      inference_service := Some loaded_service |} =
       (Raise retired,
        {| engines := [(3, engine 0 "Active")];
           sensor_metadata := [];
           inference_service := Some loaded_service |}) /\
     status_of (fst (GET_predict 3 {| engines := [(3, engine 0 "Active")];
                                      sensor_metadata := [];
                                      inference_service := Some loaded_service |})) = 422).
Proof.
  split; [reflexivity|].
  apply (predict_route_zero_max_cycles
           {| engines := [(3, engine 0 "Active")];
              sensor_metadata := [];
              inference_service := Some loaded_service |}
           3 0 "Active" loaded_service).
  reflexivity.
Defined.

(** X7.  Before the startup hook has bound the service the prediction
    route still rejects: an unknown identifier gets 404 and the retired
    unit 2 gets 422, because both checks come before the service is looked
    up; only the active units 1 and 5 fail on the missing attribute. *)
Theorem predict_route_before_startup (tr : list event) (s : System) (unit_id : Z) :
  run initial tr s -> started s = false ->
  fst (GET_predict unit_id (world s)) = outcome_before_startup unit_id /\
  (status_of (fst (GET_predict unit_id (world s))) = 500 <->
     unit_id = 1 \/ unit_id = 5).
Proof.
  intros Hrun Hst. rewrite (world_of_run s tr Hrun), Hst.
  destruct (engines_cases unit_id) as [->|[->|[->|(E1 & E2 & E5 & _ & Hnone)]]].
  1-3: split; [vm_compute; reflexivity|]; vm_compute; split;
    [ try discriminate; auto | try (intros [H|H]; discriminate H); auto ].
  assert (E : fst (GET_predict unit_id initial_world) = Raise not_found).
  { unfold GET_predict, route. rewrite predict_rul_unknown by exact Hnone. reflexivity. }
  rewrite E. unfold outcome_before_startup. rewrite E1, E2, E5.
  split; [reflexivity|]. split; [discriminate|].
  apply Z.eqb_neq in E1. apply Z.eqb_neq in E5. intros [H|H]; contradiction.
Qed.

Lemma predict_route_before_startup_witness :
  run initial [] initial /\ started initial = false /\
  fst (GET_predict 2 (world initial)) = outcome_before_startup 2 /\
  (status_of (fst (GET_predict 2 (world initial))) = 500 <-> 2 = 1 \/ 2 = 5).
Proof.
  split; [apply run_nil | split; [reflexivity|]].
  apply (predict_route_before_startup [] initial 2); [apply run_nil | reflexivity].
Defined.

(* ================================================================== *)
(** * The trend route and the listing on any table *)
(* ================================================================== *)

Lemma raises_only_ret {A : Type} (P : exn -> Prop) (a : A) : raises_only P (ret a).
Proof. intros w e H. discriminate. Qed.

Lemma raises_only_getitem (P : exn -> Prop) (v : value) (k : string) :
  P KeyError -> P TypeError -> raises_only P (lift (getitem v k)).
Proof.
  intros Hk Ht w e. unfold lift, getitem. simpl.
  destruct v; try (intro H; injection H as <-; assumption).
  destruct (dict_get d k); [discriminate | intro H; injection H as <-; assumption].
Qed.

Lemma raises_only_read_SENSOR_METADATA (P : exn -> Prop) :
  raises_only P read_SENSOR_METADATA.
Proof. intros w e H. discriminate. Qed.

Lemma raises_only_bind {A B : Type} (P : exn -> Prop) (c : M A) (k : A -> M B) :
  raises_only P c -> (forall a, raises_only P (k a)) -> raises_only P (bind c k).
Proof.
  intros Hc Hk w e. unfold bind. specialize (Hc w).
  destruct (c w) as [[a|x] w']; simpl in *.
  - apply Hk.
  - intro H. injection H as <-. apply Hc. reflexivity.
Qed.

Lemma raises_only_for_each {A B : Type} (P : exn -> Prop) (l : list A)
      (body : B -> A -> M B) :
  (forall acc a, raises_only P (body acc a)) ->
  forall acc, raises_only P (for_each l body acc).
Proof.
  intros Hbody. induction l as [|a l IH]; intro acc; simpl.
  - apply raises_only_ret.
  - apply raises_only_bind; auto.
Qed.

(** A loop raises as soon as one of its elements makes the body raise. *)
Lemma for_each_raises {A B : Type} (l : list A) (body : B -> A -> M B) (a : A) :
  In a l ->
  (forall acc w, exists e, fst (body acc a w) = Raise e) ->
  forall acc w, exists e, fst (for_each l body acc w) = Raise e.
Proof.
  intros Hin Hbad. induction l as [|a0 l IH]; [contradiction|].
  intros acc w. simpl. unfold bind.
  destruct Hin as [->|Hin].
  - destruct (Hbad acc w) as [e He].
    destruct (body acc a w) as [[acc'|x] w']; simpl in He; [discriminate|].
    exists x. reflexivity.
  - destruct (body acc a0 w) as [[acc'|x] w'].
    + apply IH. exact Hin.
    + exists x. reflexivity.
Qed.

(** The handler once the identifier has passed the membership test. *)
Lemma get_trends_known (unit_id : Z) (w : World) :
  int_dict_contains (engines w) unit_id = true ->
  get_trends unit_id w =
  bind (for_each critical_sensors (trend_series [100; 101; 102; 103; 104]) [])
       (fun sensors => ret (trend_value unit_id sensors)) w.
Proof.
  intro H. unfold get_trends at 1. unfold bind at 1, read_FAKE_DB_ENGINES.
  rewrite H. reflexivity.
Qed.

Lemma for_each_cons {A B : Type} (a : A) (l : list A) (body : B -> A -> M B)
      (acc : B) (w : World) :
  for_each (a :: l) body acc w =
  match body acc a w with
  | (Ok acc', w') => for_each l body acc' w'
  | (Raise e, w') => (Raise e, w')
  end.
Proof. reflexivity. Qed.

Lemma trend_series_found (w : World) (sensors : list value)
      (sid name unit : string) :
  dict_get (sensor_metadata w) sid = Some (sensor name unit) ->
  trend_series [100; 101; 102; 103; 104] sensors sid w =
    (Ok (sensors ++ [series_value sid name unit]), w).
Proof.
  intro H. unfold trend_series, bind, read_SENSOR_METADATA, lift.
  unfold getitem at 1. rewrite H. reflexivity.
Qed.

Lemma trend_series_missing (w : World) (cycles : list Z) (sensors : list value)
      (sid : string) :
  dict_get (sensor_metadata w) sid = None ->
  trend_series cycles sensors sid w = (Raise KeyError, w).
Proof.
  intro H. unfold trend_series, bind, read_SENSOR_METADATA, lift.
  unfold getitem at 1. rewrite H. reflexivity.
Qed.

Lemma raises_only_trend_series (cycles : list Z) (sensors : list value) (sid : string) :
  raises_only internal_error (trend_series cycles sensors sid).
Proof.
  unfold trend_series.
  repeat (apply raises_only_bind; [|intro]);
    try apply raises_only_read_SENSOR_METADATA;
    try (apply raises_only_getitem; exact I);
    apply raises_only_ret.
Qed.

Lemma result_raises_only_rbind {A B : Type} (P : exn -> Prop)
      (r : result A) (k : A -> result B) :
  result_raises_only P r -> (forall a, result_raises_only P (k a)) ->
  result_raises_only P (rbind r k).
Proof.
  intros Hr Hk e. destruct r as [a|x]; simpl.
  - apply Hk.
  - intro H. injection H as <-. apply Hr. reflexivity.
Qed.

Lemma result_raises_only_rmap {A B : Type} (P : exn -> Prop)
      (f : A -> result B) (l : list A) :
  (forall a, result_raises_only P (f a)) -> result_raises_only P (rmap f l).
Proof.
  intro Hf. induction l as [|a l IH]; simpl.
  - intros e H. discriminate.
  - apply result_raises_only_rbind; [apply Hf|]. intro b.
    apply result_raises_only_rbind; [exact IH|]. intros bs e H. discriminate.
Qed.

Section ValidationErrors.

Variable P : exn -> Prop.
Hypothesis validation_error : P ResponseValidationError.

Lemma raises_field (d : dict) (k : string) : result_raises_only P (Schema.field d k).
Proof.
  intros e. unfold Schema.field.
  destruct (dict_get d k); [discriminate | intro H; injection H as <-; assumption].
Qed.

Lemma raises_int (v : value) : result_raises_only P (Schema.int v).
Proof.
  intros e. destruct v; simpl; intro H;
    first [discriminate H | injection H as <-; assumption].
Qed.

Lemma raises_str (v : value) : result_raises_only P (Schema.str v).
Proof.
  intros e. destruct v; simpl; intro H;
    first [discriminate H | injection H as <-; assumption].
Qed.

Lemma raises_float (v : value) : result_raises_only P (Schema.float v).
Proof.
  intros e. destruct v; cbn [Schema.float];
    try (intro H; first [discriminate H | injection H as <-; assumption]).
  destruct (float_of_number (NInt z)); intro H;
    first [discriminate H | injection H as <-; assumption].
Qed.

Lemma raises_model (v : value) : result_raises_only P (Schema.model v).
Proof.
  intros e. destruct v; simpl; intro H;
    first [discriminate H | injection H as <-; assumption].
Qed.

Lemma raises_list_of {A : Type} (item : value -> result A) (v : value) :
  (forall x, result_raises_only P (item x)) ->
  result_raises_only P (Schema.list_of item v).
Proof.
  intros Hitem e. destruct v; simpl;
    try (intro H; injection H as <-; assumption).
  apply result_raises_only_rmap. exact Hitem.
Qed.

Lemma raises_SensorSeries_validate (v : value) :
  result_raises_only P (SensorSeries.validate v).
Proof.
  unfold SensorSeries.validate.
  repeat (apply result_raises_only_rbind; [|intro]);
    try apply raises_model; try apply raises_field; try apply raises_str;
    try (apply raises_list_of; apply raises_float).
  intros e H. discriminate.
Qed.

Lemma raises_SensorTrendResponse_validate (v : value) :
  result_raises_only P (SensorTrendResponse.validate v).
Proof.
  unfold SensorTrendResponse.validate.
  repeat (apply result_raises_only_rbind; [|intro]);
    try apply raises_model; try apply raises_field; try apply raises_int;
    try (apply raises_list_of; first [apply raises_int | apply raises_SensorSeries_validate]).
  intros e H. discriminate.
Qed.

End ValidationErrors.

Lemma get_trends_raises_internal (unit_id : Z) (w : World) :
  int_dict_contains (engines w) unit_id = true ->
  forall x, fst (GET_trends unit_id w) = Raise x -> internal_error x.
Proof.
  intros Hc x Hx. unfold GET_trends, route in Hx.
  destruct (get_trends unit_id w) as [[v|y] w'] eqn:Hg; simpl in Hx.
  - apply (raises_SensorTrendResponse_validate internal_error I v x Hx).
  - injection Hx as <-.
    rewrite (get_trends_known unit_id w Hc) in Hg.
    assert (Hr : forall c : M value, raises_only internal_error c ->
                 c w = (Raise y, w') -> internal_error y).
    { intros c Hc' E. apply (Hc' w). rewrite E. reflexivity. }
    eapply Hr; [|exact Hg].
    apply raises_only_bind; [|intro; apply raises_only_ret].
    apply raises_only_for_each. intros acc a. apply raises_only_trend_series.
Qed.

(** X8.  The two routes do not agree on what a known engine is: the
    prediction route tests the truth value of the looked-up record, the
    trend route tests membership of the key.  For a key whose record is
    falsy (an empty dict, [None]) the prediction route answers 404 "Engine
    not found", while the trend route never answers with an HTTP rejection
    for that key. *)
Theorem falsy_record_is_found_by_trends_only (w : World) (unit_id : Z) (e : value) :
  int_dict_lookup (engines w) unit_id = Some e ->
  truthy e = false ->
  GET_predict unit_id w = (Raise not_found, w) /\
  (forall c d, fst (GET_trends unit_id w) <> Raise (HTTPException c d)) /\
  status_of (fst (GET_trends unit_id w)) <> 404.
Proof.
  intros Hl Hf.
  assert (Hc : int_dict_contains (engines w) unit_id = true)
    by (unfold int_dict_contains; rewrite Hl; reflexivity).
  pose proof (get_trends_raises_internal unit_id w Hc) as Hno.
  split; [|split].
  - unfold GET_predict, route, predict_rul, bind, read_FAKE_DB_ENGINES, int_dict_get.
    rewrite Hl, Hf. reflexivity.
  - intros c d H. apply (Hno _ H).
  - destruct (fst (GET_trends unit_id w)) as [t|x]; [discriminate|].
    specialize (Hno x eq_refl). destruct x; simpl; try discriminate. contradiction.
Qed.

Lemma falsy_record_is_found_by_trends_only_witness :
  int_dict_lookup (engines {| engines := [(9, VDict [])];
                              sensor_metadata := SENSOR_METADATA;
                              inference_service := Some loaded_service |}) 9 =
    Some (VDict []) /\
  truthy (VDict []) = false /\
  GET_predict 9 {| engines := [(9, VDict [])];
                   sensor_metadata := SENSOR_METADATA;
                   inference_service := Some loaded_service |} =
    (Raise not_found,
     {| engines := [(9, VDict [])];
        sensor_metadata := SENSOR_METADATA;
        inference_service := Some loaded_service |}) /\
  (forall c d, fst (GET_trends 9 {| engines := [(9, VDict [])];
                                    sensor_metadata := SENSOR_METADATA;
                                    inference_service := Some loaded_service |})
               <> Raise (HTTPException c d)) /\
  status_of (fst (GET_trends 9 {| engines := [(9, VDict [])];
                                  sensor_metadata := SENSOR_METADATA;
                                  inference_service := Some loaded_service |})) <> 404.
Proof.
  split; [reflexivity | split; [reflexivity|]].
  apply (falsy_record_is_found_by_trends_only
           {| engines := [(9, VDict [])];
              sensor_metadata := SENSOR_METADATA;
              inference_service := Some loaded_service |} 9 (VDict []));
    reflexivity.
Defined.

(** X9.  The trend response is built from the sensor table and from
    nothing else of the world: for any tables, when the identifier is a
    key and the four reported channels have a name and a unit in the
    sensor table, the route answers 200 with those names and units, the
    fixed axes and the same data for every channel, whatever the engine's
    record holds and whether or not the service is bound. *)
Theorem trends_route_on_any_table
  (w : World) (unit_id : Z) (name_of unit_of : string -> string) :
  int_dict_contains (engines w) unit_id = true ->
  (forall sid, In sid critical_sensors ->
     dict_get (sensor_metadata w) sid = Some (sensor (name_of sid) (unit_of sid))) ->
  GET_trends unit_id w =
    (Ok {| SensorTrendResponse.unit_id := unit_id;
           SensorTrendResponse.cycles := [100; 101; 102; 103; 104];
           SensorTrendResponse.rul_trend := [50; 49; 48; 47; 45];
           SensorTrendResponse.sensors :=
             map (series_of name_of unit_of) critical_sensors |}, w).
Proof.
  intros Hc Hs.
  pose proof (Hs "s_2" ltac:(simpl; auto)) as H2.
  pose proof (Hs "s_11" ltac:(simpl; auto)) as H11.
  pose proof (Hs "s_12" ltac:(simpl; auto)) as H12.
  pose proof (Hs "s_14" ltac:(simpl; auto 6)) as H14.
  unfold GET_trends, route. rewrite (get_trends_known unit_id w Hc).
  unfold bind at 1, critical_sensors.
  rewrite for_each_cons, (trend_series_found w _ _ _ _ H2).
  rewrite for_each_cons, (trend_series_found w _ _ _ _ H11).
  rewrite for_each_cons, (trend_series_found w _ _ _ _ H12).
  rewrite for_each_cons, (trend_series_found w _ _ _ _ H14).
  reflexivity.
Qed.

Lemma trends_route_on_any_table_witness :
  int_dict_contains
    (engines {| engines := [(4, VNone)];
                sensor_metadata := [ ("s_14", sensor "d" "u4"); ("s_2", sensor "a" "u1");
                                     ("s_12", sensor "c" "u3"); ("s_11", sensor "b" "u2") ];
                inference_service := None |}) 4 = true /\
  (forall sid, In sid critical_sensors ->
     dict_get
       (sensor_metadata
          {| engines := [(4, VNone)];
             sensor_metadata := [ ("s_14", sensor "d" "u4"); ("s_2", sensor "a" "u1");
                                  ("s_12", sensor "c" "u3"); ("s_11", sensor "b" "u2") ];
             inference_service := None |}) sid =
     Some (sensor
             ((fun sid => if String.eqb sid "s_2" then "a"
                          else if String.eqb sid "s_11" then "b"
                          else if String.eqb sid "s_12" then "c" else "d") sid)
             ((fun sid => if String.eqb sid "s_2" then "u1"
                          else if String.eqb sid "s_11" then "u2"
                          else if String.eqb sid "s_12" then "u3" else "u4") sid))) /\
  GET_trends 4
    {| engines := [(4, VNone)];
       sensor_metadata := [ ("s_14", sensor "d" "u4"); ("s_2", sensor "a" "u1");
                            ("s_12", sensor "c" "u3"); ("s_11", sensor "b" "u2") ];
       inference_service := None |} =
    (Ok {| SensorTrendResponse.unit_id := 4;
           SensorTrendResponse.cycles := [100; 101; 102; 103; 104];
           SensorTrendResponse.rul_trend := [50; 49; 48; 47; 45];
           SensorTrendResponse.sensors :=
             map (series_of
                    (fun sid => if String.eqb sid "s_2" then "a"
                                else if String.eqb sid "s_11" then "b"
                                else if String.eqb sid "s_12" then "c" else "d")
                    (fun sid => if String.eqb sid "s_2" then "u1"
                                else if String.eqb sid "s_11" then "u2"
                                else if String.eqb sid "s_12" then "u3" else "u4"))
                 critical_sensors |},
     {| engines := [(4, VNone)];
        sensor_metadata := [ ("s_14", sensor "d" "u4"); ("s_2", sensor "a" "u1");
                             ("s_12", sensor "c" "u3"); ("s_11", sensor "b" "u2") ];
        inference_service := None |}).
Proof.
  assert (Hs : forall sid, In sid critical_sensors ->
     dict_get
       (sensor_metadata
          {| engines := [(4, VNone)];
             sensor_metadata := [ ("s_14", sensor "d" "u4"); ("s_2", sensor "a" "u1");
                                  ("s_12", sensor "c" "u3"); ("s_11", sensor "b" "u2") ];
             inference_service := None |}) sid =
     Some (sensor
             ((fun sid => if String.eqb sid "s_2" then "a"
                          else if String.eqb sid "s_11" then "b"
                          else if String.eqb sid "s_12" then "c" else "d") sid)
             ((fun sid => if String.eqb sid "s_2" then "u1"
                          else if String.eqb sid "s_11" then "u2"
                          else if String.eqb sid "s_12" then "u3" else "u4") sid))).
  { intros sid [<-|[<-|[<-|[<-|[]]]]]; reflexivity. }
  split; [reflexivity | split; [exact Hs|]].
  apply (trends_route_on_any_table _ 4 _ _); [reflexivity | exact Hs].
Defined.

(** X10.  When one of the four reported channels is missing from the
    sensor table, the trend route returns no response for any known
    identifier: the subscript raises, the client sees an internal error
    (500), not a 404, and the world is left as it was. *)
Theorem trends_route_missing_channel (w : World) (unit_id : Z) (sid : string) :
  int_dict_contains (engines w) unit_id = true ->
  In sid critical_sensors ->
  dict_get (sensor_metadata w) sid = None ->
  exists e,
    GET_trends unit_id w = (Raise e, w) /\
    internal_error e /\
    status_of (fst (GET_trends unit_id w)) = 500.
Proof.
  intros Hc Hin Hnone.
  assert (Hloop : forall acc w0, sensor_metadata w0 = sensor_metadata w ->
            exists e, fst (for_each critical_sensors
                             (trend_series [100; 101; 102; 103; 104]) acc w0) = Raise e).
  { intros acc w0 Hw0.
    assert (Hgen : forall l, In sid l -> forall acc0,
              exists e, fst (for_each l (trend_series [100; 101; 102; 103; 104]) acc0 w0)
                        = Raise e).
    { induction l as [|a l IH]; [contradiction|]. intros [->|Hl] acc0.
      - rewrite for_each_cons, trend_series_missing by (rewrite Hw0; exact Hnone).
        exists KeyError. reflexivity.
      - rewrite for_each_cons.
        destruct (trend_series [100; 101; 102; 103; 104] acc0 a w0) as [[acc'|x] w'] eqn:E.
        + assert (Hw' : w' = w0).
          { assert (Hro : read_only (trend_series [100; 101; 102; 103; 104] acc0 a))
              by (unfold trend_series; frame).
            specialize (Hro w0). rewrite E in Hro. exact Hro. }
          subst w'. apply IH. exact Hl.
        + exists x. reflexivity. }
    apply Hgen. exact Hin. }
  destruct (Hloop [] w eq_refl) as [e He].
  assert (Hg : fst (GET_trends unit_id w) = Raise e).
  { unfold GET_trends, route. rewrite (get_trends_known unit_id w Hc).
    unfold bind at 1.
    destruct (for_each critical_sensors (trend_series [100; 101; 102; 103; 104]) [] w)
      as [[v|x] w'']; simpl in He; [discriminate|].
    injection He as ->. reflexivity. }
  pose proof (get_trends_raises_internal unit_id w Hc e Hg) as Hint.
  exists e. split; [|split; [exact Hint|]].
  - pose proof (read_only_route (get_trends unit_id) SensorTrendResponse.validate
                  (read_only_get_trends unit_id) w) as Hro.
    fold (GET_trends unit_id) in Hro.
    destruct (GET_trends unit_id w) as [r w']. simpl in *. subst. reflexivity.
  - rewrite Hg. destruct e; simpl; try reflexivity. contradiction.
Qed.

Lemma trends_route_missing_channel_witness :
  int_dict_contains
    (engines {| engines := FAKE_DB_ENGINES;
                sensor_metadata := [("s_2", sensor "LPC Outlet Temperature" "R")];
                inference_service := None |}) 1 = true /\
  In "s_12" critical_sensors /\
  dict_get (sensor_metadata
              {| engines := FAKE_DB_ENGINES;
                 sensor_metadata := [("s_2", sensor "LPC Outlet Temperature" "R")];
                 inference_service := None |}) "s_12" = None /\
  exists e,
    GET_trends 1 {| engines := FAKE_DB_ENGINES;
                    sensor_metadata := [("s_2", sensor "LPC Outlet Temperature" "R")];
                    inference_service := None |} =
      (Raise e, {| engines := FAKE_DB_ENGINES;
                   sensor_metadata := [("s_2", sensor "LPC Outlet Temperature" "R")];
                   inference_service := None |}) /\
    internal_error e /\
    status_of (fst (GET_trends 1
                      {| engines := FAKE_DB_ENGINES;
                         sensor_metadata := [("s_2", sensor "LPC Outlet Temperature" "R")];
                         inference_service := None |})) = 500.
Proof.
  split; [reflexivity | split; [simpl; auto | split; [reflexivity|]]].
  apply (trends_route_missing_channel
           {| engines := FAKE_DB_ENGINES;
              sensor_metadata := [("s_2", sensor "LPC Outlet Temperature" "R")];
              inference_service := None |} 1 "s_12").
  - reflexivity.
  - simpl; auto.
  - reflexivity.
Defined.

Lemma list_rows (rows : list (Z * Z * string)) :
  rmap (fun kv : Z * value =>
          let (k, v) := kv in
          (mc <- getitem v "max_cycles" ;;
           st <- getitem v "status" ;;
           Ok (VDict (dict_display
                        [ ("unit_id", VInt k); ("max_cycles", mc); ("status", st) ])))%result)
       (map record_of rows) =
  Ok (map (fun row : Z * Z * string =>
             let '(k, mc, st) := row in
             VDict [ ("unit_id", VInt k); ("max_cycles", VInt mc); ("status", VStr st) ])
          rows).
Proof.
  induction rows as [|[[k mc] st] rows IH]; [reflexivity|].
  cbn [map rmap record_of]. 
  change (getitem (engine mc st) "max_cycles") with (Ok (VInt mc)).
  change (getitem (engine mc st) "status") with (Ok (VStr st)).
  cbn [rbind]. rewrite IH. reflexivity.
Qed.

Lemma validate_rows (rows : list (Z * Z * string)) :
  rmap EngineMetadata.validate
       (map (fun row : Z * Z * string =>
               let '(k, mc, st) := row in
               VDict [ ("unit_id", VInt k); ("max_cycles", VInt mc); ("status", VStr st) ])
            rows) =
  Ok (map metadata_of rows).
Proof.
  induction rows as [|[[k mc] st] rows IH]; [reflexivity|].
  cbn [map rmap]. 
  change (EngineMetadata.validate
            (VDict [ ("unit_id", VInt k); ("max_cycles", VInt mc); ("status", VStr st) ]))
    with (Ok (metadata_of (k, mc, st))).
  cbn [rbind]. rewrite IH. reflexivity.
Qed.

(** X11.  The listing follows the table: for any table of well-formed
    records it returns one row per record, in the order of the table, each
    with the record's key, [max_cycles] and status, and it does not depend
    on the sensor table or on the service; a key is listed exactly when
    the trend route's membership test accepts it. *)
Theorem listing_follows_the_table (w : World) (rows : list (Z * Z * string)) :
  engines w = map record_of rows ->
  GET_engines w = (Ok (map metadata_of rows), w) /\
  map EngineMetadata.unit_id (map metadata_of rows) = int_dict_keys (engines w) /\
  (forall unit_id,
     In unit_id (map EngineMetadata.unit_id (map metadata_of rows)) <->
     int_dict_contains (engines w) unit_id = true).
Proof.
  intro He.
  assert (Hkeys : map EngineMetadata.unit_id (map metadata_of rows) =
                  int_dict_keys (engines w)).
  { rewrite He. unfold int_dict_keys. rewrite !map_map.
    apply map_ext. intros [[k mc] st]. reflexivity. }
  split; [|split; [exact Hkeys|]].
  - unfold GET_engines, route, list_engines, bind, read_FAKE_DB_ENGINES, lift.
    rewrite He, list_rows. cbn [ret rbind Schema.list_of].
    rewrite validate_rows. reflexivity.
  - intro unit_id. rewrite Hkeys. unfold int_dict_contains, int_dict_keys.
    clear. induction (engines w) as [|[k v] d IH]; simpl.
    + split; [contradiction | discriminate].
    + destruct (Z.eqb_spec k unit_id) as [->|Hne].
      * split; auto.
      * rewrite <- IH. split; [intros [H|H]; [contradiction | exact H] | auto].
Qed.

Lemma listing_follows_the_table_witness :
  engines {| engines := [(8, engine 300 "Active"); (3, engine 10 "Retired")];
             sensor_metadata := [];
             inference_service := None |} =
    map record_of [(8, 300, "Active"); (3, 10, "Retired")] /\
  GET_engines {| engines := [(8, engine 300 "Active"); (3, engine 10 "Retired")];
                 sensor_metadata := [];
                 inference_service := None |} =
    (Ok (map metadata_of [(8, 300, "Active"); (3, 10, "Retired")]),
     {| engines := [(8, engine 300 "Active"); (3, engine 10 "Retired")];
        sensor_metadata := [];
        inference_service := None |}) /\
  map EngineMetadata.unit_id (map metadata_of [(8, 300, "Active"); (3, 10, "Retired")]) =
    int_dict_keys (engines {| engines := [(8, engine 300 "Active"); (3, engine 10 "Retired")];
                              sensor_metadata := [];
                              inference_service := None |}) /\
  (forall unit_id,
     In unit_id (map EngineMetadata.unit_id
                     (map metadata_of [(8, 300, "Active"); (3, 10, "Retired")])) <->
     int_dict_contains
       (engines {| engines := [(8, engine 300 "Active"); (3, engine 10 "Retired")];
                   sensor_metadata := [];
                   inference_service := None |}) unit_id = true).
Proof.
  split; [reflexivity|].
  apply (listing_follows_the_table
           {| engines := [(8, engine 300 "Active"); (3, engine 10 "Retired")];
              sensor_metadata := [];
              inference_service := None |}
           [(8, 300, "Active"); (3, 10, "Retired")]).
  reflexivity.
Defined.

(* ================================================================== *)
(** * The startup hook and the probes *)
(* ================================================================== *)

(** X12.  The readiness probe never answers [model_loaded = false]: the
    hook binds the service to the application state only after [load] has
    set its model, so in every state of a run a bound service is loaded,
    and whenever the probe answers, it answers true. *)
Theorem ready_never_reports_false (tr : list event) (s : System) :
  run initial tr s ->
  (forall svc, inference_service (world s) = Some svc ->
     model svc = Some "LSTM_LOADED") /\
  (forall b, fst (GET_ready (world s)) = Ok (ready_body b) -> b = true) /\
  (forall v, fst (GET_ready (world s)) = Ok v -> v = ready_body true).
Proof.
  intro Hrun. rewrite (world_of_run s tr Hrun).
  destruct (started s); repeat split.
  - intros svc H. injection H as <-. reflexivity.
  - intros b H. vm_compute in H. injection H as <-. reflexivity.
  - intros v H. vm_compute in H. injection H as <-. reflexivity.
  - intros svc H. discriminate.
  - intros b H. discriminate.
  - intros v H. discriminate.
Qed.

Lemma ready_never_reports_false_witness :
  run initial [Construct; Load; Bind] serving_system /\
  (forall svc, inference_service (world serving_system) = Some svc ->
     model svc = Some "LSTM_LOADED") /\
  (forall b, fst (GET_ready (world serving_system)) = Ok (ready_body b) -> b = true) /\
  (forall v, fst (GET_ready (world serving_system)) = Ok v -> v = ready_body true).
Proof.
  split; [startup|].
  apply (ready_never_reports_false [Construct; Load; Bind] serving_system). startup.
Defined.

Lemma lifecycle_snoc (tr : list event) (e : event) :
  lifecycle (tr ++ [e]) = lifecycle tr ++ (if is_handle e then [] else [e]).
Proof.
  unfold lifecycle. rewrite filter_app. simpl.
  destruct (is_handle e); reflexivity.
Qed.

Lemma handle_step_is_identity (s s' : System) (rq : request) :
  step s (Handle rq) s' -> s' = s.
Proof.
  intro H. inversion H; subst.
  rewrite (read_only_dispatch rq (world s)). destruct s; reflexivity.
Qed.

(** X13.  Which routes need the startup hook.  In every state of a run
    that precedes the binding, nothing is bound to
    [app.state.inference_service], so the readiness probe's attribute
    lookup raises and a request routed there gets a 500; the liveness
    probe, the listing and the trend route, which do not read the
    application state, answer exactly as they do once startup is over. *)
Theorem ready_before_startup (tr : list event) (s : System) :
  run initial tr s -> started s = false ->
  inference_service (world s) = None /\
  fst (GET_ready (world s)) = Raise AttributeError /\
  status_of (fst (GET_ready (world s))) = 500 /\
  fst (GET_health (world s)) = fst (GET_health serving_world) /\
  fst (GET_engines (world s)) = fst (GET_engines serving_world) /\
  (forall unit_id,
     fst (GET_trends unit_id (world s)) = fst (GET_trends unit_id serving_world)).
Proof.
  intros Hrun Hst.
  assert (Htrends : forall unit_id,
            fst (GET_trends unit_id (world s)) = fst (GET_trends unit_id serving_world)).
  { intro unit_id. rewrite (GET_trends_run tr s unit_id Hrun).
    change serving_world with (world serving_system).
    rewrite (GET_trends_run _ serving_system unit_id run_startup). reflexivity. }
  revert Htrends. rewrite (world_of_run s tr Hrun), Hst. intro Htrends.
  repeat split. exact Htrends.
Qed.

Lemma ready_before_startup_witness :
  run initial [Construct; Load] {| pc := Loaded; service := Some loaded_service;
                                   world := initial_world |} /\
  started {| pc := Loaded; service := Some loaded_service; world := initial_world |} = false /\
  inference_service initial_world = None /\
  fst (GET_ready initial_world) = Raise AttributeError /\
  status_of (fst (GET_ready initial_world)) = 500 /\
  fst (GET_health initial_world) = fst (GET_health serving_world) /\
  fst (GET_engines initial_world) = fst (GET_engines serving_world) /\
  (forall unit_id,
     fst (GET_trends unit_id initial_world) = fst (GET_trends unit_id serving_world)).
Proof.
  assert (Hrun : run initial [Construct; Load]
                   {| pc := Loaded; service := Some loaded_service; world := initial_world |}).
  { change [Construct; Load] with ([Construct] ++ [Load]).
    eapply run_snoc.
    - change [Construct] with ([] ++ [Construct]).
      eapply run_snoc; [apply run_nil | apply step_construct; reflexivity].
    - apply (step_load {| pc := Created; service := Some InferenceService_init;
                          world := initial_world |} InferenceService_init); reflexivity. }
  split; [exact Hrun | split; [reflexivity|]].
  apply (ready_before_startup [Construct; Load]
           {| pc := Loaded; service := Some loaded_service; world := initial_world |});
    [exact Hrun | reflexivity].
Defined.

(** X14.  Requests leave no trace in the process: the state a run reaches
    is the state reached by its lifecycle events alone, so any number of
    requests, successful or failing, can be added to or removed from a run
    without changing where it ends. *)
Theorem requests_leave_no_trace (tr : list event) (s : System) :
  run initial tr s ->
  run initial (lifecycle tr) s /\
  (forall rq, run initial (tr ++ [Handle rq]) s).
Proof.
  intro Hrun. split.
  - remember initial as s0 eqn:E.
    induction Hrun as [s|s tr s' e s'' Hrun IH Hstep].
    + apply run_nil.
    + specialize (IH E). rewrite lifecycle_snoc.
      destruct e as [ | | | |rq]; simpl;
        try (eapply run_snoc; [exact IH | exact Hstep]).
      rewrite app_nil_r. rewrite (handle_step_is_identity s' s'' rq Hstep). exact IH.
  - intro rq. eapply run_snoc; [exact Hrun|].
    pose proof (step_handle s rq) as Hstep.
    rewrite (handle_step_is_identity _ _ _ Hstep) in Hstep. exact Hstep.
Qed.

Lemma requests_leave_no_trace_witness :
  run initial [Construct; Load; Bind] serving_system /\
  run initial (lifecycle [Construct; Load; Bind]) serving_system /\
  (forall rq, run initial ([Construct; Load; Bind] ++ [Handle rq]) serving_system).
Proof.
  split; [startup|].
  apply (requests_leave_no_trace [Construct; Load; Bind] serving_system). startup.
Defined.
